(** * mcp-gateway: a shallow embedding of the backend runtime and the
      meta facade, and the properties of the specification checked on it.

    The embedding follows [src/mcp_gateway/config.py], [backend.py] and
    [gateway.py].  Python objects that can be shared (dicts and lists) live
    in an explicit store and are referred to by location; effects are
    threaded through a state-and-exception monad; everything the process
    cannot decide by itself (subprocesses, pipes, HTTP peers, the clock, a
    few standard-library formatters) is an oracle of type [World] that is
    asked with the history of transport operations performed so far.

    Boundaries of the model: strings are byte strings ([str.lower], slicing
    and whitespace are the ASCII ones), JSON numbers are integers, dict keys
    are strings, logging is dropped, and each handler runs to completion
    without interleaving (the per-adapter lock is not modelled).  The idle
    checker is modelled by one of its rounds; loading a configuration from
    YAML, the web application and its background tasks are outside the
    model. *)

From Stdlib Require Import ZArith String Ascii List Bool Lia DecimalString.
From stdpp Require Import base tactics option list strings.

Open Scope string_scope.
Open Scope Z_scope.
Open Scope list_scope.

(** ** Strings *)

Module Str.

Definition lower_ascii (c : ascii) : ascii :=
  let n := nat_of_ascii c in
  if ((65 <=? n) && (n <=? 90))%nat then ascii_of_nat (n + 32) else c.

(** [s.lower()] *)
Fixpoint lower (s : string) : string :=
  match s with
  | EmptyString => EmptyString
  | String c s' => String (lower_ascii c) (lower s')
  end.

(** [s.startswith(p)] *)
Fixpoint startswith (p s : string) : bool :=
  match p, s with
  | EmptyString, _ => true
  | String a p', String b s' => Ascii.eqb a b && startswith p' s'
  | String _ _, EmptyString => false
  end.

(** [sub in s] *)
Fixpoint contains (sub s : string) : bool :=
  startswith sub s ||
  match s with
  | EmptyString => false
  | String _ s' => contains sub s'
  end.

(** [s[n:]] *)
Fixpoint drop (n : nat) (s : string) : string :=
  match n, s with
  | O, _ => s
  | S n', String _ s' => drop n' s'
  | S _, EmptyString => EmptyString
  end.

(** [s[:n]] *)
Fixpoint take (n : nat) (s : string) : string :=
  match n, s with
  | S n', String c s' => String c (take n' s')
  | _, _ => EmptyString
  end.

Fixpoint rev_onto (s acc : string) : string :=
  match s with
  | EmptyString => acc
  | String c s' => rev_onto s' (String c acc)
  end.

Definition rev (s : string) : string := rev_onto s EmptyString.

(** [s.endswith(p)] *)
Definition endswith (p s : string) : bool := startswith (rev p) (rev s).

Definition is_space (c : ascii) : bool :=
  let n := nat_of_ascii c in
  ((n =? 32) || ((9 <=? n) && (n <=? 13)))%nat.

Fixpoint lstrip (s : string) : string :=
  match s with
  | String c s' => if is_space c then lstrip s' else s
  | EmptyString => EmptyString
  end.

(** [s.strip()] *)
Definition strip (s : string) : string := rev (lstrip (rev (lstrip s))).

(** Index just past the last occurrence of nothing, or the position of
    the last occurrence of [sep] in [s], scanning from position [i]. *)
Fixpoint rfind_from (sep s : string) (i : nat) : option nat :=
  match s with
  | EmptyString => if startswith sep EmptyString then Some i else None
  | String _ s' =>
      match rfind_from sep s' (S i) with
      | Some j => Some j
      | None => if startswith sep s then Some i else None
      end
  end.

(** [s.rsplit(sep, 1)[0]] for a non-empty [sep] *)
Definition rsplit1_head (sep s : string) : string :=
  match rfind_from sep s 0 with
  | Some j => take j s
  | None => s
  end.

End Str.

(** ** JSON documents (what travels on a wire) *)

#[warnings="-register-all"]
Inductive json :=
| JNull
| JBool (b : bool)
| JNum (n : Z)
| JStr (s : string)
| JArr (items : list json)
| JObj (fields : list (string * json)).

(** ** Python values and the object store *)

Abbreviation loc := nat (only parsing).

Inductive pyval :=
| VNone
| VBool (b : bool)
| VInt (n : Z)
| VStr (s : string)
| VRef (l : loc).

Inductive pyobj :=
| ODict (items : list (string * pyval))
| OList (items : list pyval).

Abbreviation store := (list pyobj) (only parsing).

Definition pyval_eqb (a b : pyval) : bool :=
  match a, b with
  | VNone, VNone => true
  | VBool x, VBool y => Bool.eqb x y
  | VInt x, VInt y => (x =? y)%Z
  | VStr x, VStr y => String.eqb x y
  | VRef x, VRef y => (x =? y)%nat
  | _, _ => false
  end.

(** Insertion-ordered dicts with string keys. *)
Module Dict.

Definition t := list (string * pyval).

Fixpoint get (k : string) (d : t) : option pyval :=
  match d with
  | [] => None
  | (k', v) :: d' => if String.eqb k k' then Some v else get k d'
  end.

Definition has (k : string) (d : t) : bool :=
  match get k d with Some _ => true | None => false end.

(** [d[k] = v]: an existing key keeps its position. *)
Fixpoint set (k : string) (v : pyval) (d : t) : t :=
  match d with
  | [] => [(k, v)]
  | (k', v') :: d' =>
      if String.eqb k k' then (k, v) :: d' else (k', v') :: set k v d'
  end.

End Dict.

(** Same for string-to-string maps ([env], [headers]). *)
Module SDict.

Definition t := list (string * string).

Fixpoint get (k : string) (d : t) : option string :=
  match d with
  | [] => None
  | (k', v) :: d' => if String.eqb k k' then Some v else get k d'
  end.

Fixpoint set (k v : string) (d : t) : t :=
  match d with
  | [] => [(k, v)]
  | (k', v') :: d' =>
      if String.eqb k k' then (k, v) :: d' else (k', v') :: set k v d'
  end.

(** [{**a, **b}] and [a.update(b)] *)
Definition update (a b : t) : t := fold_left (λ acc kv, set kv.1 kv.2 acc) b a.

(** Lookup in a case-insensitive multidict (HTTP response headers). *)
Fixpoint get_ci (k : string) (d : t) : option string :=
  match d with
  | [] => None
  | (k', v) :: d' =>
      if String.eqb (Str.lower k) (Str.lower k') then Some v else get_ci k d'
  end.

End SDict.

(** ** Outcomes, exceptions and the state monad *)

(** A raised exception: its class and [str(e)]. *)
Record exn := Exn { exn_class : string; exn_msg : string }.

Inductive result (A : Type) :=
| Ok (a : A)
| Raise (e : exn).
Arguments Ok {A} a.
Arguments Raise {A} e.

(** Computations over a mutable state [S] that return or raise; the state
    reached when an exception is raised is kept, as in Python. *)
Definition M (S A : Type) : Type := S → result A * S.

Definition ret {S A} (a : A) : M S A := λ s, (Ok a, s).

Definition raise {S A} (e : exn) : M S A := λ s, (Raise e, s).

Definition bind {S A B} (m : M S A) (k : A → M S B) : M S B :=
  λ s, match m s with
       | (Ok a, s') => k a s'
       | (Raise e, s') => (Raise e, s')
       end.

(** [try: m except Exception as e: h e] *)
Definition try_except {S A} (m : M S A) (h : exn → M S A) : M S A :=
  λ s, match m s with
       | (Ok a, s') => (Ok a, s')
       | (Raise e, s') => h e s'
       end.

Definition get_state {S} : M S S := λ s, (Ok s, s).
Definition put_state {S} (s : S) : M S unit := λ _, (Ok tt, s).

Notation "'let*' x ':=' m 'in' k" := (bind m (λ x, k))
  (at level 10, x pattern, m at level 100, k at level 200).
Notation "m '>>' k" := (bind m (λ _, k))
  (at level 100, k at level 200, right associativity).

(** ** The environment *)

Inductive io_op :=
| Popen (argv : list string) (env : SDict.t) (cwd : option string)
| StdinWrite (pid : nat) (line : json)
| StdoutReadline (pid : nat) (timeout : Z)
| ProcTerminate (pid : nat)
| ProcKill (pid : nat)
| HttpPost (url : string) (headers : SDict.t) (body : json) (timeout : Z)
| HttpGet (url : string) (timeout : Z).

(** Transport operations performed so far, newest first, each tagged with
    the name of the backend that performed it. *)
Abbreviation history := (list (string * io_op)) (only parsing).

(** What [select] followed by [readline] observes on a child's stdout.  The
    bytes of a line are given by the document [json.loads] makes of them
    ([Raise] when it rejects them). *)
Inductive read_reply :=
| RdTimeout
| RdEOF
| RdLine (doc : result json)
| RdError (e : exn).

(** A body line of an HTTP reply: its text, and what [json.loads] makes of
    the stripped text after its first six characters. *)
Record body_line := BodyLine { line_text : string; line_data : result json }.

Record http_response := HttpResponse {
  status : Z;
  resp_headers : SDict.t;
  content_type : string;
  content : list body_line;
  body_json : result json;          (* [await resp.json()] *)
}.

Record World := {
  clock : nat → Z;                           (* the n-th [time.time()] *)
  environ : SDict.t;                         (* [os.environ] *)
  shlex_split : string → result (list string);  (* [shlex.split] *)
  py_str : json → string;                    (* [str(v)] of a non-string *)
  json_dumps_indent : json → string;         (* [json.dumps(v, indent=2)] *)
  popen : history → list string → SDict.t → option string → result nat;
  poll_alive : history → nat → bool;         (* [poll() is None] *)
  stdin_write : history → nat → json → result unit;
  stdout_readline : history → nat → Z → read_reply;
  proc_terminate : history → nat → result unit;
  wait_exits : history → nat → bool;         (* [wait(timeout=5)] returns *)
  proc_kill : history → nat → result unit;
  http_post : history → string → SDict.t → json → Z → result http_response;
  http_get : history → string → Z → result http_response;
}.

Record Env := MkEnv {
  heap : store;
  trace : history;
  clock_reads : nat;
}.

Definition lift_env {X A} (m : M Env A) : M (X * Env) A :=
  λ s, let '(r, e') := m s.2 in (r, (s.1, e')).

Definition of_result {S A} (r : result A) : M S A :=
  match r with Ok a => ret a | Raise e => raise e end.

Definition AttributeError (m : string) : exn := Exn "AttributeError" m.
Definition TypeError (m : string) : exn := Exn "TypeError" m.
Definition ValueError (m : string) : exn := Exn "ValueError" m.
Definition AssertionError : exn := Exn "AssertionError" "".

(** ** Operations on stored objects *)

Module Py.

(** A fresh object; its location is the next free one. *)
Definition alloc (o : pyobj) : M Env pyval :=
  λ e, (Ok (VRef (List.length (heap e))),
        MkEnv (heap e ++ [o]) (trace e) (clock_reads e)).

Definition deref (l : loc) : M Env pyobj :=
  λ e, match heap e !! l with
       | Some o => (Ok o, e)
       | None => (Raise (Exn "ReferenceError" "dangling location"), e)
       end.

Definition update (l : loc) (o : pyobj) : M Env unit :=
  λ e, (Ok tt, MkEnv (<[l := o]> (heap e)) (trace e) (clock_reads e)).

(** [bool(v)]; objects other than the ones modelled are truthy. *)
Definition truthy_in (σ : store) (v : pyval) : bool :=
  match v with
  | VNone => false
  | VBool b => b
  | VInt n => negb (n =? 0)
  | VStr s => negb (String.eqb s "")
  | VRef l =>
      match σ !! l with
      | Some (ODict []) | Some (OList []) => false
      | _ => true
      end
  end.

Definition truthy (v : pyval) : M Env bool :=
  λ e, (Ok (truthy_in (heap e) v), e).

(** [v.get(k)] *)
Definition get (v : pyval) (k : string) : M Env (option pyval) :=
  match v with
  | VRef l =>
      let* o := deref l in
      match o with
      | ODict d => ret (Dict.get k d)
      | OList _ => raise (AttributeError "'list' object has no attribute 'get'")
      end
  | _ => raise (AttributeError "object has no attribute 'get'")
  end.

(** [v.get(k)] with the default [None] *)
Definition get_or_none (v : pyval) (k : string) : M Env pyval :=
  let* r := get v k in ret (default VNone r).

(** [k in v] for a string [k] *)
Definition contains (k : string) (v : pyval) : M Env bool :=
  match v with
  | VStr s => ret (Str.contains k s)
  | VRef l =>
      let* o := deref l in
      match o with
      | ODict d => ret (Dict.has k d)
      | OList vs => ret (existsb (pyval_eqb (VStr k)) vs)
      end
  | _ => raise (TypeError "argument is not iterable")
  end.

(** [v.copy()]: a new object holding the same items. *)
Definition copy (v : pyval) : M Env pyval :=
  match v with
  | VRef l => let* o := deref l in alloc o
  | _ => raise (AttributeError "object has no attribute 'copy'")
  end.

(** [v[k] = x] for a string [k] *)
Definition setitem (v : pyval) (k : string) (x : pyval) : M Env unit :=
  match v with
  | VRef l =>
      let* o := deref l in
      match o with
      | ODict d => update l (ODict (Dict.set k x d))
      | OList _ => raise (TypeError "list indices must be integers or slices, not str")
      end
  | _ => raise (TypeError "object does not support item assignment")
  end.

(** [json.loads] builds fresh objects, innermost first; a repeated key
    keeps its first position and its last value. *)
Fixpoint load_in (j : json) (σ : store) {struct j} : pyval * store :=
  match j with
  | JNull => (VNone, σ)
  | JBool b => (VBool b, σ)
  | JNum n => (VInt n, σ)
  | JStr s => (VStr s, σ)
  | JArr items =>
      let '(vs, σ1) :=
        (fix go (js : list json) (σ : store) : list pyval * store :=
           match js with
           | [] => ([], σ)
           | j :: js' =>
               let '(v, σ1) := load_in j σ in
               let '(vs, σ2) := go js' σ1 in
               (v :: vs, σ2)
           end) items σ in
      (VRef (List.length σ1), σ1 ++ [OList vs])
  | JObj fields =>
      let '(d, σ1) :=
        (fix go (kjs : list (string * json)) (d : Dict.t) (σ : store)
           : Dict.t * store :=
           match kjs with
           | [] => (d, σ)
           | (k, j) :: kjs' =>
               let '(v, σ1) := load_in j σ in
               go kjs' (Dict.set k v d) σ1
           end) fields [] σ in
      (VRef (List.length σ1), σ1 ++ [ODict d])
  end.

Definition load (j : json) : M Env pyval :=
  λ e, let '(v, σ) := load_in j (heap e) in
       (Ok v, MkEnv σ (trace e) (clock_reads e)).

Fixpoint mapM_opt {A B} (f : A → option B) (l : list A) : option (list B) :=
  match l with
  | [] => Some []
  | a :: l' =>
      match f a, mapM_opt f l' with
      | Some b, Some bs => Some (b :: bs)
      | _, _ => None
      end
  end.

(** The document [json.dumps] writes for [v]; [n] bounds the nesting. *)
Fixpoint dump_fuel (n : nat) (σ : store) (v : pyval) : option json :=
  match v with
  | VNone => Some JNull
  | VBool b => Some (JBool b)
  | VInt z => Some (JNum z)
  | VStr s => Some (JStr s)
  | VRef l =>
      match n with
      | O => None
      | S n' =>
          match σ !! l with
          | Some (OList vs) =>
              match mapM_opt (dump_fuel n' σ) vs with
              | Some js => Some (JArr js)
              | None => None
              end
          | Some (ODict d) =>
              match mapM_opt (λ kv, match dump_fuel n' σ kv.2 with
                                    | Some j => Some (kv.1, j)
                                    | None => None
                                    end) d with
              | Some kjs => Some (JObj kjs)
              | None => None
              end
          | None => None
          end
      end
  end.

(** A chain of references longer than the store revisits a location, so
    the store's size is fuel enough for every acyclic value; on a cyclic
    one [json.dumps] raises. *)
Definition dump_in (σ : store) (v : pyval) : option json :=
  dump_fuel (S (List.length σ)) σ v.

Definition dump (v : pyval) : M Env json :=
  λ e, match dump_in (heap e) v with
       | Some j => (Ok j, e)
       | None => (Raise (ValueError "Circular reference detected"), e)
       end.

Definition decimal (n : nat) : string :=
  NilZero.string_of_uint (Nat.to_uint n).

(** The complaint of [dict()] about its [i]-th element, of length [n]. *)
Definition bad_length (i n : nat) : exn :=
  ValueError ("dictionary update sequence element #" +:+ decimal i +:+
              " has length " +:+ decimal n +:+ "; 2 is required").

Definition not_a_sequence (i : nat) : exn :=
  TypeError ("cannot convert dictionary update sequence element #" +:+
             decimal i +:+ " to a sequence").

(** The key and the value that [dict()] takes from the [i]-th element
    of its argument: the two items of a list, the two characters of a
    string, the two keys of a dict.  A key that is a list or a dict is
    refused; a key that is a number, a boolean or [None] would give a
    dict the store cannot hold (its keys are strings): such arguments are
    outside the model. *)
Definition pair_of (i : nat) (v : pyval) : M Env (string * pyval) :=
  match v with
  | VStr (String k (String x EmptyString)) =>
      ret (String k EmptyString, VStr (String x EmptyString))
  | VStr s => raise (bad_length i (String.length s))
  | VRef p =>
      let* o := deref p in
      match o with
      | OList [VStr k; x] => ret (k, x)
      | OList [VRef q; _] =>
          let* key := deref q in
          match key with
          | OList _ => raise (TypeError "unhashable type: 'list'")
          | ODict _ => raise (TypeError "unhashable type: 'dict'")
          end
      | OList [_; _] =>
          raise (Exn "NotImplementedError" "a key that is not a string")
      | OList vs => raise (bad_length i (List.length vs))
      | ODict [(k, _); (x, _)] => ret (k, VStr x)
      | ODict d => raise (bad_length i (List.length d))
      end
  | _ => raise (not_a_sequence i)
  end.

Fixpoint pairs_from (i : nat) (vs : list pyval) (d : Dict.t) : M Env Dict.t :=
  match vs with
  | [] => ret d
  | v :: vs' =>
      let* kx := pair_of i v in
      pairs_from (S i) vs' (Dict.set kx.1 kx.2 d)
  end.

(** [dict(v)] *)
Definition to_dict (v : pyval) : M Env pyval :=
  match v with
  | VNone => raise (TypeError "'NoneType' object is not iterable")
  | VBool _ => raise (TypeError "'bool' object is not iterable")
  | VInt _ => raise (TypeError "'int' object is not iterable")
  | VStr EmptyString => alloc (ODict [])
  | VStr _ => raise (bad_length 0 1)
  | VRef l =>
      let* o := deref l in
      match o with
      | ODict d => alloc (ODict d)
      | OList vs => let* d := pairs_from 0 vs [] in alloc (ODict d)
      end
  end.

(** The locations of the objects reachable from [v]; [n] bounds the
    nesting as in [dump_fuel]. *)
Fixpoint reach_fuel (n : nat) (σ : store) (v : pyval) : list loc :=
  match v, n with
  | VRef l, S n' =>
      l :: match σ !! l with
           | Some (OList vs) => flat_map (reach_fuel n' σ) vs
           | Some (ODict d) => flat_map (λ kv, reach_fuel n' σ kv.2) d
           | None => []
           end
  | _, _ => []
  end.

Definition reach (σ : store) (v : pyval) : list loc :=
  reach_fuel (S (List.length σ)) σ v.

(** Two values share no object: what a deep copy guarantees of the copy
    and its original. *)
Definition disjoint (σ : store) (a b : pyval) : Prop :=
  ∀ l, l ∈ reach σ a → l ∉ reach σ b.

End Py.

(** ** config.py *)

(** [expand_env_vars]: [re.sub] replaces, from left to right, every
    match of the pattern: a dollar sign followed by a braced, non-empty
    run of characters other than the closing brace, or a dollar sign
    followed by an identifier. *)

Definition is_ident_start (c : ascii) : bool :=
  let n := nat_of_ascii c in
  (((65 <=? n) && (n <=? 90)) || ((97 <=? n) && (n <=? 122)) || (n =? 95))%nat.

Definition is_ident_char (c : ascii) : bool :=
  let n := nat_of_ascii c in
  (is_ident_start c || ((48 <=? n) && (n <=? 57)))%nat.

(** The longest run of characters other than the closing brace, and
    what follows it. *)
Fixpoint until_brace (s : string) : string * string :=
  match s with
  | EmptyString => (EmptyString, EmptyString)
  | String c s' =>
      if Ascii.eqb c "}" then (EmptyString, s)
      else let '(run, rest) := until_brace s' in (String c run, rest)
  end.

(** The longest run of identifier characters, and what follows it. *)
Fixpoint ident_run (s : string) : string * string :=
  match s with
  | EmptyString => (EmptyString, EmptyString)
  | String c s' =>
      if is_ident_char c
      then let '(run, rest) := ident_run s' in (String c run, rest)
      else (EmptyString, s)
  end.

(** A match of the pattern at the head of [s]: the variable name
    ([match.group(1) or match.group(2)]) and the matched text
    ([match.group(0)]). *)
Definition match_var (s : string) : option (string * string) :=
  match s with
  | String d (String c s') =>
      if negb (Ascii.eqb d "$") then None
      else if Ascii.eqb c "{" then
        match until_brace s' with
        | (String x run, String _ _) =>
            Some (String x run, "${" +:+ String x run +:+ "}")
        | _ => None
        end
      else if is_ident_start c then
        let var_name := String c (ident_run s').1 in
        Some (var_name, "$" +:+ var_name)
      else None
  | _ => None
  end.

(** The scan of [re.sub]; [skip] counts the characters of the current
    match that are still to be passed over. *)
Fixpoint expand_from (environ : SDict.t) (skip : nat) (s : string) : string :=
  match s with
  | EmptyString => EmptyString
  | String c s' =>
      match skip with
      | S k => expand_from environ k s'
      | O =>
          match match_var s with
          | Some (var_name, whole) =>
              default whole (SDict.get var_name environ) +:+
              expand_from environ (String.length whole - 1) s'
          | None => String c (expand_from environ 0 s')
          end
      end
  end.

Definition expand_env_vars (environ : SDict.t) (value : string) : string :=
  expand_from environ 0 value.

Module BackendConfig.

Record t := Make {
  name : string;
  description : string;
  command : option string;
  http_url : option string;
  env : SDict.t;
  headers : SDict.t;
  cwd : option string;
  idle_timeout : Z;
  enabled : bool;
}.

(** Truth value of an optional string: neither [None] nor empty. *)
Definition truthy (s : option string) : bool :=
  match s with
  | Some s => negb (String.eqb s "")
  | None => false
  end.

Definition is_not_none (s : option string) : bool :=
  match s with Some _ => true | None => false end.

(** The [model_validator(mode="after")] of the class. *)
Definition validate_transport (self : t) : result t :=
  let has_command := is_not_none (command self) in
  let has_http := is_not_none (http_url self) in
  if negb has_command && negb has_http then
    Raise (ValueError ("Backend '" +:+ name self +:+
                       "' must have either 'command' or 'http_url'"))
  else Ok self.

(** Construction from already expanded field values: the field
    constraint [idle_timeout >= 0], then the model validator. *)
Definition create (fields : t) : result t :=
  if idle_timeout fields <? 0 then
    Raise (ValueError "idle_timeout: Input should be greater than or equal to 0")
  else validate_transport fields.

Definition transport_type (self : t) : string :=
  if truthy (command self) then "stdio"
  else if truthy (http_url self) &&
          match http_url self with
          | Some u => Str.endswith "/sse" u
          | None => false
          end
  then "sse"
  else "http".

(** [shlex.split] raises [ValueError] on a command it cannot split (an
    open quotation, a trailing escape). *)
Definition command_list (split : string → result (list string)) (self : t)
  : result (option (list string)) :=
  if negb (truthy (command self)) then Ok None
  else match command self with
       | Some c =>
           match split c with
           | Ok words => Ok (Some words)
           | Raise e => Raise e
           end
       | None => Ok None
       end.

(** The field validator of [command], [http_url] and [cwd]. *)
Definition expand_env (environ : SDict.t) (v : option string) : option string :=
  match v with
  | None => None
  | Some s => Some (expand_env_vars environ s)
  end.

(** The field validator of [env] and [headers]. *)
Definition expand_dict_values (environ : SDict.t) (v : SDict.t) : SDict.t :=
  map (λ kv, (kv.1, expand_env_vars environ kv.2)) v.

(** The constructor of [BackendConfig], called with the fields: the
    field validators, then the field constraints and the model
    validator. *)
Definition new (environ : SDict.t) (fields : t) : result t :=
  create (Make (name fields) (description fields)
               (expand_env environ (command fields))
               (expand_env environ (http_url fields))
               (expand_dict_values environ (env fields))
               (expand_dict_values environ (headers fields))
               (expand_env environ (cwd fields))
               (idle_timeout fields) (enabled fields)).

End BackendConfig.

(** ** backend.py *)

Module MCPBackend.

Record t := Make {
  config : BackendConfig.t;
  process : option nat;               (* the child, by pid *)
  last_used : Z;
  restart_count : nat;
  _initialized : bool;
  _tools_cache : pyval;               (* [None] or the cached reply *)
  _http_session_id : option string;
  _sse_message_url : option string;
}.

(** [MCPBackend(config=c)] with [last_used] taken from the clock. *)
Definition create (c : BackendConfig.t) (now : Z) : t :=
  Make c None now 0 false VNone None None.

Definition set_process (p : option nat) (b : t) : t :=
  Make (config b) p (last_used b) (restart_count b) (_initialized b)
       (_tools_cache b) (_http_session_id b) (_sse_message_url b).
Definition set_last_used (z : Z) (b : t) : t :=
  Make (config b) (process b) z (restart_count b) (_initialized b)
       (_tools_cache b) (_http_session_id b) (_sse_message_url b).
Definition set_restart_count (n : nat) (b : t) : t :=
  Make (config b) (process b) (last_used b) n (_initialized b)
       (_tools_cache b) (_http_session_id b) (_sse_message_url b).
Definition set_initialized (i : bool) (b : t) : t :=
  Make (config b) (process b) (last_used b) (restart_count b) i
       (_tools_cache b) (_http_session_id b) (_sse_message_url b).
Definition set_tools_cache (c : pyval) (b : t) : t :=
  Make (config b) (process b) (last_used b) (restart_count b) (_initialized b)
       c (_http_session_id b) (_sse_message_url b).
Definition set_http_session_id (s : option string) (b : t) : t :=
  Make (config b) (process b) (last_used b) (restart_count b) (_initialized b)
       (_tools_cache b) s (_sse_message_url b).
Definition set_sse_message_url (s : option string) (b : t) : t :=
  Make (config b) (process b) (last_used b) (restart_count b) (_initialized b)
       (_tools_cache b) (_http_session_id b) s.

Definition name (b : t) : string := BackendConfig.name (config b).

Definition is_http (b : t) : bool :=
  BackendConfig.is_not_none (BackendConfig.http_url (config b)).

(** Methods run on the adapter and the environment. *)
Definition BM (A : Type) : Type := M (t * Env) A.

Definition self : BM t := λ s, (Ok s.1, s).
Definition modify (f : t → t) : BM unit := λ s, (Ok tt, (f s.1, s.2)).

Definition init_request : json :=
  JObj [("jsonrpc", JStr "2.0"); ("method", JStr "initialize"); ("id", JNum 0);
        ("params",
         JObj [("protocolVersion", JStr "2024-11-05");
               ("capabilities", JObj []);
               ("clientInfo",
                JObj [("name", JStr "mcp-gateway"); ("version", JStr "1.0")])])].

Definition tools_request : json :=
  JObj [("jsonrpc", JStr "2.0"); ("method", JStr "tools/list"); ("id", JNum 1)].

Definition base_headers : SDict.t :=
  [("Content-Type", "application/json");
   ("Accept", "application/json, text/event-stream")].

Section WithWorld.

Variable W : World.

(** [time.time()] *)
Definition now : BM Z :=
  λ s, (Ok (clock W (clock_reads s.2)),
        (s.1, MkEnv (heap s.2) (trace s.2) (S (clock_reads s.2)))).

(** A transport operation: the oracle answers from the history, then
    the operation joins the history. *)
Definition io {A} (op : io_op) (answer : history → A) : BM A :=
  λ s, (Ok (answer (trace s.2)),
        (s.1, MkEnv (heap s.2) ((name s.1, op) :: trace s.2) (clock_reads s.2))).

Definition spawn (argv : list string) (env : SDict.t) (cwd : option string)
  : BM nat :=
  let* r := io (Popen argv env cwd) (λ h, popen W h argv env cwd) in
  of_result r.

(** [stdin.write(line); stdin.flush()] *)
Definition write_line (pid : nat) (line : json) : BM unit :=
  let* r := io (StdinWrite pid line) (λ h, stdin_write W h pid line) in
  of_result r.

(** [select([stdout], [], [], timeout)] and, when ready, [readline()] *)
Definition read_line (pid : nat) (timeout : Z) : BM read_reply :=
  io (StdoutReadline pid timeout) (λ h, stdout_readline W h pid timeout).

Definition post (url : option string) (headers : SDict.t) (body : json)
    (timeout : Z) : BM http_response :=
  match url with
  | None => raise (TypeError "Constructor parameter should be str")
  | Some u =>
      let* r := io (HttpPost u headers body timeout)
                   (λ h, http_post W h u headers body timeout) in
      of_result r
  end.

(** [process.poll() is None]; an observation, not kept in the history. *)
Definition poll (pid : nat) : BM bool :=
  λ s, (Ok (poll_alive W (trace s.2) pid), s).

Definition is_running : BM bool :=
  let* b := self in
  if is_http b then ret (_initialized b)
  else match process b with
       | Some pid => poll pid
       | None => ret false
       end.

(** The reply of a peer, parsed and stored as [_tools_cache] when it
    has a ["result"]. *)
Definition cache_if_result (doc : json) : BM unit :=
  let* result := lift_env (Py.load doc) in
  let* has := lift_env (Py.contains "result" result) in
  if has then modify (set_tools_cache result) else ret tt.

Definition _fetch_tools_stdio : BM unit :=
  let* b := self in
  match process b with
  | None => ret tt
  | Some pid =>
      try_except
        (write_line pid tools_request >>
         let* r := read_line pid 5 in
         match r with
         | RdLine doc => let* j := of_result doc in cache_if_result j
         | RdTimeout | RdEOF => ret tt
         | RdError e => raise e
         end)
        (λ _, ret tt)
  end.

Definition _mcp_handshake_stdio : BM unit :=
  let* b := self in
  match process b with
  | None => ret tt
  | Some pid =>
      try_except
        (write_line pid init_request >>
         let* r := read_line pid 5 in
         match r with
         | RdLine _ => modify (set_initialized true) >> _fetch_tools_stdio
         | RdTimeout | RdEOF => ret tt
         | RdError e => raise e
         end)
        (λ _, ret tt)
  end.

Definition _start_stdio : BM bool :=
  let* b := self in
  let* alive := match process b with
                | Some pid => poll pid
                | None => ret false
                end in
  if alive then ret true
  else
    let* command :=
      of_result (BackendConfig.command_list (shlex_split W) (config b)) in
    match command with
    | None | Some [] => ret false
    | Some command =>
        try_except
          (let proc_env :=
             SDict.update (environ W) (BackendConfig.env (config b)) in
           let cwd := if BackendConfig.truthy (BackendConfig.cwd (config b))
                      then BackendConfig.cwd (config b) else None in
           let* pid := spawn command proc_env cwd in
           modify (set_process (Some pid)) >>
           modify (λ b, set_restart_count (S (restart_count b)) b) >>
           let* t := now in
           modify (set_last_used t) >>
           modify (set_initialized false) >>
           _mcp_handshake_stdio >>
           ret true)
          (λ _, ret false)
    end.

Definition request_headers (b : t) : SDict.t :=
  let headers :=
    SDict.update base_headers (BackendConfig.headers (config b)) in
  if BackendConfig.truthy (_http_session_id b)
  then match _http_session_id b with
       | Some sid => SDict.set "mcp-session-id" sid headers
       | None => headers
       end
  else headers.

(** [self._sse_message_url or self.config.http_url] *)
Definition request_url (b : t) : option string :=
  if BackendConfig.truthy (_sse_message_url b) then _sse_message_url b
  else BackendConfig.http_url (config b).

Definition _fetch_tools_http : BM unit :=
  try_except
    (let* b := self in
     let* resp := post (request_url b) (request_headers b) tools_request 10 in
     if status resp =? 200 then
       let* j := of_result (body_json resp) in cache_if_result j
     else ret tt)
    (λ _, ret tt).

Definition _init_streamable_http : BM bool :=
  try_except
    (let* b := self in
     let headers :=
       SDict.update base_headers (BackendConfig.headers (config b)) in
     let* resp := post (BackendConfig.http_url (config b)) headers
                       init_request 10 in
     if status resp =? 200 then
       match SDict.get_ci "mcp-session-id" (resp_headers resp) with
       | Some sid => modify (set_http_session_id (Some sid))
       | None => ret tt
       end >>
       _fetch_tools_http >>
       modify (set_initialized true) >>
       ret true
     else
       modify (set_initialized true) >> ret true)
    (λ _, modify (set_initialized true) >> ret true).

(** The first line that announces the message endpoint, if any. *)
Fixpoint sse_endpoint (lines : list body_line) : option string :=
  match lines with
  | [] => None
  | line :: lines' =>
      let decoded := Str.strip (line_text line) in
      if Str.startswith "data: " decoded && Str.contains "/message" decoded
      then Some (Str.drop 6 decoded)
      else sse_endpoint lines'
  end.

Definition get_stream (url : string) (timeout : Z) : BM http_response :=
  let* r := io (HttpGet url timeout) (λ h, http_get W h url timeout) in
  of_result r.

Definition _init_sse_session : BM bool :=
  try_except
    (let* b := self in
     match BackendConfig.http_url (config b) with
     | None => raise (AttributeError "'NoneType' object has no attribute 'rsplit'")
     | Some http_url =>
         let base_url := Str.rsplit1_head "/sse" http_url in
         let* resp := get_stream http_url 10 in
         if negb (status resp =? 200) then ret false
         else
           match sse_endpoint (content resp) with
           | Some data => modify (set_sse_message_url (Some (base_url +:+ data)))
           | None => ret tt
           end >>
           let* b := self in
           if negb (BackendConfig.truthy (_sse_message_url b)) then ret false
           else
             let* resp := post (_sse_message_url b)
                               [("Content-Type", "application/json")]
                               init_request 10 in
             if status resp =? 200 then
               _fetch_tools_http >>
               modify (set_initialized true) >>
               ret true
             else ret false
     end)
    (λ _, ret false).

Definition _init_http_session : BM bool :=
  let* b := self in
  if BackendConfig.truthy (BackendConfig.http_url (config b)) &&
     match BackendConfig.http_url (config b) with
     | Some u => Str.endswith "/sse" u
     | None => false
     end
  then _init_sse_session
  else _init_streamable_http.

Definition start : BM bool :=
  let* b := self in
  if is_http b then
    if negb (_initialized b) then _init_http_session else ret true
  else _start_stdio.

(** [process.terminate()] and [process.kill()]; the system may refuse
    the signal. *)
Definition terminate (pid : nat) : BM unit :=
  let* r := io (ProcTerminate pid) (λ h, proc_terminate W h pid) in
  of_result r.

Definition kill (pid : nat) : BM unit :=
  let* r := io (ProcKill pid) (λ h, proc_kill W h pid) in
  of_result r.

(** [process.wait(timeout=5)]: whether the child exits in time;
    otherwise [TimeoutExpired] is raised.  An observation, not kept in
    the history. *)
Definition wait (pid : nat) : BM bool :=
  λ s, (Ok (wait_exits W (trace s.2) pid), s).

Definition stop : BM unit :=
  let* b := self in
  if is_http b then
    modify (set_initialized false) >>
    modify (set_http_session_id None) >>
    modify (set_sse_message_url None)
  else
    match process b with
    | Some pid =>
        terminate pid >>
        let* exited := wait pid in
        (if exited then ret tt else kill pid) >>
        modify (set_process None) >>
        modify (set_initialized false)
    | None => ret tt
    end.

(** [{"jsonrpc": "2.0", "error": {"code": c, "message": m}, "id": request.get("id")}] *)
Definition error_reply (code : Z) (message : string) (request : pyval)
  : BM pyval :=
  let* err := lift_env (Py.alloc (ODict [("code", VInt code);
                                         ("message", VStr message)])) in
  let* id := lift_env (Py.get_or_none request "id") in
  lift_env (Py.alloc (ODict [("jsonrpc", VStr "2.0"); ("error", err);
                             ("id", id)])).

(** The first ["data: "] line of an event-stream body, if any. *)
Fixpoint first_data_line (lines : list body_line) : option (result json) :=
  match lines with
  | [] => None
  | line :: lines' =>
      if Str.startswith "data: " (Str.strip (line_text line))
      then Some (line_data line)
      else first_data_line lines'
  end.

Definition _send_http_request (request : pyval) : BM pyval :=
  try_except
    (let* b := self in
     (if negb (_initialized b) then start >> ret tt else ret tt) >>
     let* b := self in
     let headers := request_headers b in
     let url := request_url b in
     let* body := lift_env (Py.dump request) in
     let* resp := post url headers body 30 in
     match SDict.get_ci "mcp-session-id" (resp_headers resp) with
     | Some sid => modify (set_http_session_id (Some sid))
     | None => ret tt
     end >>
     match (if Str.contains "text/event-stream" (content_type resp)
            then first_data_line (content resp) else None) with
     | Some data =>
         let* j := of_result data in
         lift_env (Py.load j)
     | None =>
         let* j := of_result (body_json resp) in
         let* result := lift_env (Py.load j) in
         lift_env (Py.to_dict result)
     end)
    (λ e, error_reply (-32000) (exn_msg e) request).

Definition _send_stdio_request (request : pyval) : BM pyval :=
  let* running := is_running in
  let* ready := if running then ret true else start in
  if negb ready then error_reply (-32000) "Backend unavailable" request
  else
    let* has_id := lift_env (Py.contains "id" request) in
    let is_notification := negb has_id in
    try_except
      (let* b := self in
       match process b with
       | None => raise AssertionError
       | Some pid =>
           let* request_bytes := lift_env (Py.dump request) in
           write_line pid request_bytes >>
           if is_notification then
             lift_env (Py.alloc (ODict [("jsonrpc", VStr "2.0");
                                        ("result", VNone)]))
           else
             let* r := read_line pid 30 in
             match r with
             | RdLine doc =>
                 let* j := of_result doc in
                 lift_env (Py.load j)
             | RdTimeout | RdEOF =>
                 error_reply (-32000) "Timeout waiting for response" request
             | RdError e => raise e
             end
       end)
      (λ e, error_reply (-32000) (exn_msg e) request).

Definition send_request (request : pyval) : BM pyval :=
  let* t := now in
  modify (set_last_used t) >>
  let* method := lift_env (Py.get_or_none request "method") in
  let* b := self in
  let* populated := lift_env (Py.truthy (_tools_cache b)) in
  if pyval_eqb method (VStr "tools/list") && populated then
    let* cached := lift_env (Py.copy (_tools_cache b)) in
    let* id := lift_env (Py.get_or_none request "id") in
    lift_env (Py.setitem cached "id" id) >>
    ret cached
  else if is_http b then _send_http_request request
  else _send_stdio_request request.

(** The items of the cached tool list; the defaults [{}] and [[]] of
    the two [get]s are not allocated. *)
Definition get_cached_tools : BM (list pyval) :=
  let* b := self in
  let* populated := lift_env (Py.truthy (_tools_cache b)) in
  if populated then
    let* result_data := lift_env (Py.get (_tools_cache b) "result") in
    match result_data with
    | None => ret []
    | Some (VRef l) =>
        let* o := lift_env (Py.deref l) in
        match o with
        | ODict d =>
            match Dict.get "tools" d with
            | None => ret []
            | Some (VRef l') =>
                let* o' := lift_env (Py.deref l') in
                match o' with
                | OList tools => ret tools
                | ODict _ => ret []
                end
            | Some _ => ret []
            end
        | OList _ => ret []
        end
    | Some _ => ret []
    end
  else ret [].

End WithWorld.

End MCPBackend.

Module GatewayConfig.

Record t := Make {
  host : string;
  port : Z;
  enable_meta_mcp : bool;
  backends : list (string * BackendConfig.t);
  log_level : string;
  health_check_interval : Z;
  request_timeout : Z;
}.

Definition get_enabled_backends (self : t) : list (string * BackendConfig.t) :=
  filter (λ nb, BackendConfig.enabled nb.2 = true) (backends self).

End GatewayConfig.

(** ** gateway.py *)

(** What a handler sees of an HTTP request, and what it answers. *)
Record web_request := WebRequest {
  match_name : string;               (* [request.match_info.get("name", "")] *)
  request_json : result json;        (* [await request.json()] *)
}.

Record web_response := WebResponse {
  http_status : Z;
  payload : json;
}.

Module Gateway.

Record t := Make {
  config : GatewayConfig.t;
  backends : list (string * MCPBackend.t);     (* in registration order *)
  _running : bool;
}.

Definition set_backends (bs : list (string * MCPBackend.t)) (g : t) : t :=
  Make (config g) bs (_running g).
Definition set_running (r : bool) (g : t) : t :=
  Make (config g) (backends g) r.

Definition GM (A : Type) : Type := M (t * Env) A.

Definition self : GM t := λ s, (Ok s.1, s).

(** Run a method of the [i]-th registered adapter. *)
Definition with_backend {A} (i : nat) (m : MCPBackend.BM A) : GM A :=
  λ s, match backends s.1 !! i with
       | Some (n, b) =>
           let '(r, (b', e')) := m (b, s.2) in
           (r, (set_backends (<[i := (n, b')]> (backends s.1)) s.1, e'))
       | None => (Raise (Exn "KeyError" "no such backend"), s)
       end.

(** [self.backends.items()], each entry with its position *)
Definition items (g : t) : list (nat * string) :=
  imap (λ i nb, (i, nb.1)) (backends g).

(** [self.backends.get(name)] *)
Fixpoint index_of (name : string) (bs : list (string * MCPBackend.t)) (i : nat)
  : option nat :=
  match bs with
  | [] => None
  | (n, _) :: bs' => if String.eqb name n then Some i else index_of name bs' (S i)
  end.

Definition meta_tools : json :=
  JArr [
    JObj [("name", JStr "gateway_list_servers");
          ("description", JStr "List all available MCP backend servers");
          ("inputSchema",
           JObj [("type", JStr "object"); ("properties", JObj []);
                 ("required", JArr [])])];
    JObj [("name", JStr "gateway_list_tools");
          ("description", JStr "List all tools from a specific backend server");
          ("inputSchema",
           JObj [("type", JStr "object");
                 ("properties",
                  JObj [("server",
                         JObj [("type", JStr "string");
                               ("description", JStr "Name of the backend server")])]);
                 ("required", JArr [JStr "server"])])];
    JObj [("name", JStr "gateway_search_tools");
          ("description", JStr "Search for tools across all backends by keyword");
          ("inputSchema",
           JObj [("type", JStr "object");
                 ("properties",
                  JObj [("query",
                         JObj [("type", JStr "string");
                               ("description", JStr "Search keyword")]);
                        ("limit",
                         JObj [("type", JStr "integer");
                               ("description", JStr "Max results (default 10)");
                               ("default", JNum 10)])]);
                 ("required", JArr [JStr "query"])])];
    JObj [("name", JStr "gateway_invoke");
          ("description", JStr "Invoke a tool on a specific backend");
          ("inputSchema",
           JObj [("type", JStr "object");
                 ("properties",
                  JObj [("server",
                         JObj [("type", JStr "string");
                               ("description", JStr "Backend server name")]);
                        ("tool",
                         JObj [("type", JStr "string");
                               ("description", JStr "Tool name to invoke")]);
                        ("arguments",
                         JObj [("type", JStr "object");
                               ("description", JStr "Tool arguments");
                               ("default", JObj [])])]);
                 ("required", JArr [JStr "server"; JStr "tool"])])]].

Definition server_info : json :=
  JObj [("protocolVersion", JStr "2024-11-05");
        ("capabilities", JObj [("tools", JObj [])]);
        ("serverInfo",
         JObj [("name", JStr "mcp-gateway"); ("version", JStr "1.0.0");
               ("description",
                JStr "Universal MCP Gateway with Meta-MCP for dynamic tool discovery")])].

(** [{"jsonrpc": "2.0", "error": {"code": c, "message": m}, "id": id}] *)
Definition error_response (code : Z) (message : string) (id : pyval)
  : M Env pyval :=
  let* err := Py.alloc (ODict [("code", VInt code); ("message", VStr message)]) in
  Py.alloc (ODict [("jsonrpc", VStr "2.0"); ("error", err); ("id", id)]).

(** [{"jsonrpc": "2.0", "result": r, "id": id}] *)
Definition result_response (r : pyval) (id : pyval) : M Env pyval :=
  Py.alloc (ODict [("jsonrpc", VStr "2.0"); ("result", r); ("id", id)]).

(** The tool-result envelope around a text. *)
Definition text_response (text : string) (id : pyval) : M Env pyval :=
  let* item := Py.alloc (ODict [("type", VStr "text"); ("text", VStr text)]) in
  let* content := Py.alloc (OList [item]) in
  let* r := Py.alloc (ODict [("content", content)]) in
  result_response r id.

(** [v.get(k, d)] where the default [d] is a fresh empty dict *)
Definition get_or_empty_dict (v : pyval) (k : string) : M Env pyval :=
  let* r := Py.get v k in
  match r with
  | Some x => ret x
  | None => Py.alloc (ODict [])
  end.

(** [v.get(k, "")] *)
Definition get_or_empty_str (v : pyval) (k : string) : M Env pyval :=
  let* r := Py.get v k in ret (default (VStr "") r).

(** [v.lower()] *)
Definition lower (v : pyval) : M Env string :=
  match v with
  | VStr s => ret (Str.lower s)
  | _ => raise (AttributeError "object has no attribute 'lower'")
  end.

(** [v[:200]] *)
Definition slice200 (v : pyval) : M Env pyval :=
  match v with
  | VStr s => ret (VStr (Str.take 200 s))
  | VRef l =>
      let* o := Py.deref l in
      match o with
      | OList vs => Py.alloc (OList (take 200 vs))
      | ODict _ => raise (TypeError "unhashable type: 'slice'")
      end
  | _ => raise (TypeError "object is not subscriptable")
  end.

(** [len(matches) >= limit] *)
Definition reached (matches : list pyval) (limit : pyval) : M Env bool :=
  match limit with
  | VInt n => ret (n <=? Z.of_nat (List.length matches))
  | VBool b => ret ((if b then 1 else 0) <=? Z.of_nat (List.length matches))
  | _ => raise (TypeError "'>=' not supported between instances of 'int' and this type")
  end.

(** The inner loop of [_call_search_tools] over one backend's tools. *)
Fixpoint scan_tools (name query : string) (limit : pyval)
    (tools matches : list pyval) : M Env (list pyval) :=
  match tools with
  | [] => ret matches
  | tool :: tools' =>
      let* tool_name := get_or_empty_str tool "name" in
      let* tool_desc := get_or_empty_str tool "description" in
      let* lname := lower tool_name in
      let* hit := if Str.contains query lname then ret true
                  else let* ldesc := lower tool_desc in
                       ret (Str.contains query ldesc) in
      let* matches :=
        if hit : bool then
          let* short := slice200 tool_desc in
          let* m := Py.alloc (ODict [("server", VStr name);
                                     ("tool", tool_name);
                                     ("description", short)]) in
          ret (matches ++ [m])
        else ret matches in
      let* full := reached matches limit in
      if full : bool then ret matches
      else scan_tools name query limit tools' matches
  end.

Fixpoint dump_all (vs : list pyval) : M Env (list json) :=
  match vs with
  | [] => ret []
  | v :: vs' =>
      let* j := Py.dump v in
      let* js := dump_all vs' in
      ret (j :: js)
  end.

Section WithWorld.

Variable W : World.

(** [f"{v}"] *)
Definition format (v : pyval) : M Env string :=
  match v with
  | VStr s => ret s
  | _ => let* j := Py.dump v in ret (py_str W j)
  end.

(** [web.json_response(data, status=status)] *)
Definition json_response (data : pyval) (status : Z) : GM web_response :=
  let* j := lift_env (Py.dump data) in
  ret (WebResponse status j).

Definition _meta_initialize (request_id : pyval) : GM pyval :=
  let* r := lift_env (Py.load server_info) in
  lift_env (result_response r request_id).

Definition _meta_tools_list (request_id : pyval) : GM pyval :=
  let* tools := lift_env (Py.load meta_tools) in
  let* r := lift_env (Py.alloc (ODict [("tools", tools)])) in
  lift_env (result_response r request_id).

(** The loop body of [_call_list_servers] for each registered backend. *)
Fixpoint list_servers (entries : list (nat * string)) : GM (list json) :=
  match entries with
  | [] => ret []
  | (i, name) :: entries' =>
      let* b := with_backend i MCPBackend.self in
      let* running := with_backend i (MCPBackend.is_running W) in
      let* tools := with_backend i MCPBackend.get_cached_tools in
      let server :=
        JObj [("name", JStr name);
              ("description", JStr (BackendConfig.description (MCPBackend.config b)));
              ("transport", JStr (BackendConfig.transport_type (MCPBackend.config b)));
              ("running", JBool running);
              ("tools_count", JNum (Z.of_nat (List.length tools)))] in
      let* servers := list_servers entries' in
      ret (server :: servers)
  end.

Definition _call_list_servers (request_id : pyval) : GM pyval :=
  let* g := self in
  let* servers := list_servers (items g) in
  lift_env (text_response
              (json_dumps_indent W (JObj [("servers", JArr servers)]))
              request_id).

(** [self.backends.get(server_name)] and the reply when it finds
    nothing: the position of the backend, or the error reply. *)
Definition find_server (server_name request_id : pyval) : GM (nat + pyval) :=
  let* g := self in
  let* found :=
    match server_name with
    | VStr s => ret (index_of s (backends g) 0)
    | VRef _ => raise (TypeError "unhashable type")
    | _ => ret None
    end in
  match found with
  | Some i => ret (inl i)
  | None =>
      let* shown := lift_env (format server_name) in
      let* r := lift_env (error_response (-32001) ("Unknown server: " +:+ shown)
                                         request_id) in
      ret (inr r)
  end.

Definition _call_list_tools (arguments request_id : pyval) : GM pyval :=
  let* server_name := lift_env (Py.get_or_none arguments "server") in
  let* given := lift_env (Py.truthy server_name) in
  if negb given then
    lift_env (error_response (-32602) "Missing 'server' parameter" request_id)
  else
    let* found := find_server server_name request_id in
    match found with
    | inr reply => ret reply
    | inl i =>
        with_backend i (MCPBackend.start W) >>
        let* tools := with_backend i MCPBackend.get_cached_tools in
        let* name := lift_env (Py.dump server_name) in
        let* listed := lift_env (dump_all tools) in
        lift_env (text_response
                    (json_dumps_indent W
                       (JObj [("server", name); ("tools", JArr listed)]))
                    request_id)
    end.

(** The outer loop of [_call_search_tools] over the registry. *)
Fixpoint search_backends (query : string) (limit : pyval)
    (entries : list (nat * string)) (matches : list pyval)
  : GM (list pyval) :=
  match entries with
  | [] => ret matches
  | (i, name) :: entries' =>
      with_backend i (MCPBackend.start W) >>
      let* tools := with_backend i MCPBackend.get_cached_tools in
      let* matches := lift_env (scan_tools name query limit tools matches) in
      let* full := lift_env (reached matches limit) in
      if full : bool then ret matches
      else search_backends query limit entries' matches
  end.

Definition _call_search_tools (arguments request_id : pyval) : GM pyval :=
  let* q := lift_env (get_or_empty_str arguments "query") in
  let* query := lift_env (lower q) in
  let* given := lift_env (Py.get arguments "limit") in
  let limit := default (VInt 10) given in
  if String.eqb query "" then
    lift_env (error_response (-32602) "Missing 'query' parameter" request_id)
  else
    let* g := self in
    let* matches := search_backends query limit (items g) [] in
    let* found := lift_env (dump_all matches) in
    lift_env (text_response
                (json_dumps_indent W
                   (JObj [("query", JStr query); ("matches", JArr found);
                          ("total", JNum (Z.of_nat (List.length matches)))]))
                request_id).

Definition _call_invoke (arguments request_id : pyval) : GM pyval :=
  let* server_name := lift_env (Py.get_or_none arguments "server") in
  let* tool_name := lift_env (Py.get_or_none arguments "tool") in
  let* tool_args := lift_env (get_or_empty_dict arguments "arguments") in
  let* has_server := lift_env (Py.truthy server_name) in
  if negb has_server then
    lift_env (error_response (-32602) "Missing 'server' parameter" request_id)
  else
    let* has_tool := lift_env (Py.truthy tool_name) in
    if negb has_tool then
      lift_env (error_response (-32602) "Missing 'tool' parameter" request_id)
    else
      let* found := find_server server_name request_id in
      match found with
      | inr reply => ret reply
      | inl i =>
          let* params := lift_env (Py.alloc (ODict [("name", tool_name);
                                                    ("arguments", tool_args)])) in
          let* call_request :=
            lift_env (Py.alloc (ODict [("jsonrpc", VStr "2.0");
                                       ("method", VStr "tools/call");
                                       ("id", request_id);
                                       ("params", params)])) in
          with_backend i (MCPBackend.send_request W call_request)
      end.

Definition _meta_tools_call (body request_id : pyval) : GM pyval :=
  let* params := lift_env (get_or_empty_dict body "params") in
  let* tool_name := lift_env (get_or_empty_str params "name") in
  let* arguments := lift_env (get_or_empty_dict params "arguments") in
  if pyval_eqb tool_name (VStr "gateway_list_servers") then
    _call_list_servers request_id
  else if pyval_eqb tool_name (VStr "gateway_list_tools") then
    _call_list_tools arguments request_id
  else if pyval_eqb tool_name (VStr "gateway_search_tools") then
    _call_search_tools arguments request_id
  else if pyval_eqb tool_name (VStr "gateway_invoke") then
    _call_invoke arguments request_id
  else
    let* shown := lift_env (format tool_name) in
    lift_env (error_response (-32601) ("Unknown tool: " +:+ shown) request_id).

(** [except json.JSONDecodeError:] *)
Definition except_json_decode_error {A} (m : GM A) (h : GM A) : GM A :=
  try_except m
    (λ e, if String.eqb (exn_class e) "JSONDecodeError" then h else raise e).

Definition parse_error : GM web_response :=
  let* r := lift_env (error_response (-32700) "Parse error" VNone) in
  json_response r 400.

Definition _handle_meta_mcp (request : web_request) : GM web_response :=
  let* g := self in
  if negb (GatewayConfig.enable_meta_mcp (config g)) then
    let* r := lift_env (Py.alloc (ODict [("error", VStr "Meta-MCP disabled")])) in
    json_response r 403
  else
    let* parsed :=
      except_json_decode_error
        (let* j := of_result (request_json request) in
         let* body := lift_env (Py.load j) in
         ret (Some body))
        (ret None) in
    match parsed with
    | None => parse_error
    | Some body =>
        let* method := lift_env (get_or_empty_str body "method") in
        let* request_id := lift_env (Py.get_or_none body "id") in
        if pyval_eqb method (VStr "initialize") then
          let* r := _meta_initialize request_id in json_response r 200
        else if pyval_eqb method (VStr "tools/list") then
          let* r := _meta_tools_list request_id in json_response r 200
        else if pyval_eqb method (VStr "tools/call") then
          let* r := _meta_tools_call body request_id in json_response r 200
        else
          match method with
          | VStr m =>
              if Str.startswith "notifications/" m then
                let* r := lift_env (result_response VNone request_id) in
                json_response r 200
              else
                let* r := lift_env (error_response (-32601)
                                      ("Unknown method: " +:+ m) request_id) in
                json_response r 200
          | _ => raise (AttributeError "object has no attribute 'startswith'")
          end
    end.

Definition _handle_mcp (request : web_request) : GM web_response :=
  let name := match_name request in
  if String.eqb name "" then _handle_meta_mcp request
  else
    let* g := self in
    match index_of name (backends g) 0 with
    | None =>
        let* r := lift_env (error_response (-32001)
                              ("Unknown backend: " +:+ name) VNone) in
        json_response r 404
    | Some i =>
        let* started := with_backend i (MCPBackend.start W) in
        if negb started then
          let* r := lift_env (error_response (-32000)
                                ("Backend unavailable: " +:+ name) VNone) in
          json_response r 503
        else
          except_json_decode_error
            (let* j := of_result (request_json request) in
             let* body := lift_env (Py.load j) in
             let* response := with_backend i (MCPBackend.send_request W body) in
             json_response response 200)
            parse_error
    end.

Definition modify (f : t → t) : GM unit := λ s, (Ok tt, (f s.1, s.2)).

(** [time.time()] *)
Definition time_time : M Env Z :=
  λ e, (Ok (clock W (clock_reads e)),
        MkEnv (heap e) (trace e) (S (clock_reads e))).

(** The loop of [__init__]: an adapter [MCPBackend(config=backend_config)]
    for each enabled backend, its [last_used] read from the clock. *)
Fixpoint init_backends (configs : list (string * BackendConfig.t))
  : M Env (list (string * MCPBackend.t)) :=
  match configs with
  | [] => ret []
  | (name, backend_config) :: configs' =>
      let* t := time_time in
      let* bs := init_backends configs' in
      ret ((name, MCPBackend.create backend_config t) :: bs)
  end.

Definition __init__ (config : GatewayConfig.t) : M Env t :=
  let* bs := init_backends (GatewayConfig.get_enabled_backends config) in
  ret (Make config bs false).

(** [for backend in self.backends.values(): body] *)
Fixpoint for_each_backend (body : MCPBackend.BM unit)
    (entries : list (nat * string)) : GM unit :=
  match entries with
  | [] => ret tt
  | (i, _) :: entries' =>
      with_backend i body >> for_each_backend body entries'
  end.

Definition stop : GM unit :=
  modify (set_running false) >>
  let* g := self in
  for_each_backend (MCPBackend.stop W) (items g).

(** The body of the inner loop of [_idle_checker]. *)
Definition hibernate_if_idle (now : Z) : MCPBackend.BM unit :=
  let* running := MCPBackend.is_running W in
  if running then
    let* b := MCPBackend.self in
    let idle_time := now - MCPBackend.last_used b in
    if BackendConfig.idle_timeout (MCPBackend.config b) <? idle_time
    then MCPBackend.stop W
    else ret tt
  else ret tt.

(** One round of [_idle_checker], after the sleep. *)
Definition _idle_checker_round : GM unit :=
  let* now := lift_env time_time in
  let* g := self in
  for_each_backend (hibernate_if_idle now) (items g).

(** The loop of [_handle_health] that fills [backends_status]. *)
Fixpoint backends_status (entries : list (nat * string))
  : GM (list (string * json)) :=
  match entries with
  | [] => ret []
  | (i, name) :: entries' =>
      let* running := with_backend i (MCPBackend.is_running W) in
      let* b := with_backend i MCPBackend.self in
      let* tools := with_backend i MCPBackend.get_cached_tools in
      let status :=
        JObj [("running", JBool running);
              ("restart_count", JNum (Z.of_nat (MCPBackend.restart_count b)));
              ("tools_cached", JNum (Z.of_nat (List.length tools)))] in
      let* rest := backends_status entries' in
      ret ((name, status) :: rest)
  end.

Definition _handle_health (_request : web_request) : GM web_response :=
  let* g := self in
  let* status := backends_status (items g) in
  ret (WebResponse 200
         (JObj [("status", JStr "healthy"); ("backends", JObj status)])).

End WithWorld.

End Gateway.

(** ** A sample world, for concrete runs

    Four children exist: [run-x] offers the tools [t1] and [t2], [run-y]
    offers [t3] and [t4], [run-mute] closes its stdin at once, and
    [run-root] changes its owner, so that it cannot be signalled.  The
    HTTP peer at [http://down/mcp] refuses connections; the one at
    [http://remote/mcp] answers every request, and [tools/list] with the
    tool [ping].  Both [str()] and [json.dumps] are played by [render], a
    compact JSON printer. *)

Module Demo.

Fixpoint words_from (s cur : string) : list string :=
  match s with
  | EmptyString => if String.eqb cur "" then [] else [Str.rev cur]
  | String c s' =>
      if Str.is_space c
      then (if String.eqb cur "" then [] else [Str.rev cur]) ++ words_from s' ""
      else words_from s' (String c cur)
  end.

(** The words of a command without quotes or escapes. *)
Definition words (s : string) : list string := words_from s "".

(** [shlex.split] on commands without escapes or double quotes: a
    command with a single quote has, in the sample world, an open
    quotation. *)
Definition split (s : string) : result (list string) :=
  if Str.contains "'" s then Raise (ValueError "No closing quotation")
  else Ok (words s).

Definition tool (name description : string) : json :=
  JObj [("name", JStr name); ("description", JStr description)].

Definition tools_reply (tools : list json) : json :=
  JObj [("jsonrpc", JStr "2.0"); ("id", JNum 1);
        ("result", JObj [("tools", JArr tools)])].

Definition method_of (doc : json) : string :=
  match doc with
  | JObj fields =>
      match find (λ kv, String.eqb kv.1 "method") fields with
      | Some (_, JStr m) => m
      | _ => ""
      end
  | _ => ""
  end.

Definition tools_of (pid : nat) : list json :=
  match pid with
  | 1%nat => [tool "t1" "first tool"; tool "t2" "second tool"]
  | 2%nat => [tool "t3" "third tool"; tool "t4" "fourth tool"]
  | _ => []
  end.

Definition answer (tools : list json) (request : json) : json :=
  if String.eqb (method_of request) "tools/list" then tools_reply tools
  else JObj [("jsonrpc", JStr "2.0"); ("id", JNum 99); ("result", JObj [])].

Definition quote (s : string) : string :=
  String (ascii_of_nat 34) (s +:+ String (ascii_of_nat 34) "").

(** A plain JSON printer (no indentation, no escapes), standing in for
    [json.dumps] in the sample world. *)
Fixpoint render (j : json) : string :=
  match j with
  | JNull => "null"
  | JBool true => "true"
  | JBool false => "false"
  | JNum n => NilZero.string_of_int (Z.to_int n)
  | JStr s => quote s
  | JArr items =>
      "[" +:+
      (fix go (js : list json) : string :=
         match js with
         | [] => ""
         | j :: js' =>
             render j +:+ match js' with [] => "" | _ => ", " +:+ go js' end
         end) items +:+ "]"
  | JObj fields =>
      "{" +:+
      (fix go (kjs : list (string * json)) : string :=
         match kjs with
         | [] => ""
         | (k, j) :: kjs' =>
             quote k +:+ ": " +:+ render j +:+
             match kjs' with [] => "" | _ => ", " +:+ go kjs' end
         end) fields +:+ "}"
  end.

Definition world : World := {|
  clock := λ n, 1000 + Z.of_nat n;
  environ := [("PATH", "/usr/bin")];
  shlex_split := split;
  py_str := render;
  json_dumps_indent := render;
  popen := λ _ argv _ _,
    match argv with
    | ["run-x"] => Ok 1%nat
    | ["run-y"] => Ok 2%nat
    | ["run-mute"] => Ok 3%nat
    | ["run-root"] => Ok 4%nat
    | _ => Raise (Exn "FileNotFoundError" "No such file or directory")
    end;
  poll_alive := λ _ _, true;
  stdin_write := λ _ pid _,
    match pid with
    | 3%nat => Raise (Exn "BrokenPipeError" "Broken pipe")
    | _ => Ok tt
    end;
  stdout_readline := λ h pid _,
    match h with
    | (_, StdinWrite _ request) :: _ => RdLine (Ok (answer (tools_of pid) request))
    | _ => RdTimeout
    end;
  proc_terminate := λ _ pid,
    match pid with
    | 4%nat => Raise (Exn "PermissionError" "[Errno 1] Operation not permitted")
    | _ => Ok tt
    end;
  wait_exits := λ _ _, true;
  proc_kill := λ _ _, Ok tt;
  http_post := λ _ url _ body _,
    if String.eqb url "http://remote/mcp" then
      Ok (HttpResponse 200 [] "application/json" []
            (Ok (answer [tool "ping" "pong"] body)))
    else Raise (Exn "ClientConnectorError" "Cannot connect to host");
  http_get := λ _ _ _, Raise (Exn "ClientConnectorError" "Cannot connect to host");
|}.

Definition stdio_config (name command : string) : BackendConfig.t :=
  BackendConfig.Make name "" (Some command) None [] [] None 300 true.

Definition http_config (name url : string) : BackendConfig.t :=
  BackendConfig.Make name "" None (Some url) [] [] None 300 true.

Definition fresh (c : BackendConfig.t) : MCPBackend.t := MCPBackend.create c 0.

Definition empty_env : Env := MkEnv [] [] 0.

Definition gateway_config : GatewayConfig.t :=
  GatewayConfig.Make "127.0.0.1" 39400 true [] "INFO" 30 30.

(** Backends [x] and [y], registered in this order, not yet started. *)
Definition gateway_xy : Gateway.t :=
  Gateway.Make gateway_config
    [("x", fresh (stdio_config "x" "run-x"));
     ("y", fresh (stdio_config "y" "run-y"))]
    true.

(** A request object [{"jsonrpc": "2.0", "method": m, "id": id}]. *)
Definition request (method : string) (id : json) : json :=
  JObj [("jsonrpc", JStr "2.0"); ("method", JStr method); ("id", id)].

(** The adapter [x] after [start()]: running, with its tools cached. *)
Definition started_x : MCPBackend.t * Env :=
  Eval vm_compute in
    (MCPBackend.start world (fresh (stdio_config "x" "run-x"), empty_env)).2.

(** A parsed request body placed in the store of [s]. *)
Definition receive (doc : json) (s : MCPBackend.t * Env)
  : pyval * (MCPBackend.t * Env) :=
  let '(v, σ) := Py.load_in doc (heap s.2) in
  (v, (s.1, MkEnv σ (trace s.2) (clock_reads s.2))).

End Demo.


(** * Properties *)

(** ** Strings and dicts *)

Example lower_mixed : Str.lower "Get_Weather 7" = "get_weather 7".
Proof. reflexivity. Qed.

Example endswith_sse : Str.endswith "/sse" "http://localhost:8080/sse" = true.
Proof. reflexivity. Qed.

Example rsplit_sse :
  Str.rsplit1_head "/sse" "http://h/sse/v1/sse" = "http://h/sse/v1".
Proof. reflexivity. Qed.

Example strip_line : Str.strip "  data: /message?x=1 " = "data: /message?x=1".
Proof. reflexivity. Qed.

Example words_npx : Demo.words "npx -y  @test/server " = ["npx"; "-y"; "@test/server"].
Proof. reflexivity. Qed.

Module StrFacts.

Lemma app_cons c (a b : string) : String c a +:+ b = String c (a +:+ b).
Proof. reflexivity. Qed.

Lemma app_nil_l (b : string) : "" +:+ b = b.
Proof. reflexivity. Qed.

Lemma app_assoc (a b c : string) : (a +:+ b) +:+ c = a +:+ (b +:+ c).
Proof.
  induction a as [|x a IH]; [done|]. by rewrite !app_cons, IH.
Qed.

Lemma app_empty_r (a : string) : a +:+ "" = a.
Proof. induction a as [|x a IH]; [done|]. by rewrite app_cons, IH. Qed.

Lemma startswith_iff p s :
  Str.startswith p s = true ↔ ∃ t, s = p +:+ t.
Proof.
  revert s. induction p as [|a p IH]; intros s; simpl.
  - split; [eauto|done].
  - destruct s as [|b s].
    + split; [done|]. intros [t Ht]. discriminate.
    + rewrite andb_true_iff, IH. split.
      * intros [Hab [t ->]]. apply Ascii.eqb_eq in Hab as ->. eauto.
      * intros [t Ht]. rewrite app_cons in Ht. injection Ht as -> ->.
        split; [apply Ascii.eqb_refl|eauto].
Qed.

Lemma rev_onto_app s acc : Str.rev_onto s acc = Str.rev s +:+ acc.
Proof.
  unfold Str.rev. revert acc.
  induction s as [|c s IH]; intros acc; simpl; [done|].
  rewrite (IH (String c "")), IH, app_assoc. done.
Qed.

Lemma rev_app a b : Str.rev (a +:+ b) = Str.rev b +:+ Str.rev a.
Proof.
  induction a as [|c a IH].
  - by rewrite app_nil_l, app_empty_r.
  - rewrite app_cons. unfold Str.rev at 1 3. simpl.
    rewrite !rev_onto_app, IH, app_assoc. done.
Qed.

Lemma rev_involutive s : Str.rev (Str.rev s) = s.
Proof.
  induction s as [|c s IH]; [done|].
  unfold Str.rev at 2. simpl. rewrite rev_onto_app, rev_app, IH. done.
Qed.

(** [endswith] decides being of the form [pre ++ p]. *)
Lemma endswith_iff p s :
  Str.endswith p s = true ↔ ∃ pre, s = pre +:+ p.
Proof.
  unfold Str.endswith. rewrite startswith_iff. split.
  - intros [t Ht]. exists (Str.rev t).
    rewrite <- (rev_involutive s), Ht, rev_app, rev_involutive. done.
  - intros [pre ->]. exists (Str.rev pre). apply rev_app.
Qed.

End StrFacts.

Module DictFacts.

Lemma get_set_eq k v d : Dict.get k (Dict.set k v d) = Some v.
Proof.
  induction d as [|[k' v'] d IH]; simpl.
  - by rewrite String.eqb_refl.
  - destruct (String.eqb k k') eqn:E; simpl.
    + by rewrite String.eqb_refl.
    + by rewrite E.
Qed.

Lemma get_set_ne k k' v d :
  k ≠ k' → Dict.get k' (Dict.set k v d) = Dict.get k' d.
Proof.
  intros Hne. induction d as [|[k0 v0] d IH]; simpl.
  - destruct (String.eqb k' k) eqn:E; [|done].
    apply String.eqb_eq in E. congruence.
  - destruct (String.eqb k k0) eqn:E; simpl.
    + apply String.eqb_eq in E. subst k0.
      destruct (String.eqb k' k) eqn:E'; [|done].
      apply String.eqb_eq in E'. congruence.
    + destruct (String.eqb k' k0); [done|apply IH].
Qed.

Lemma set_not_nil k v d : Dict.set k v d ≠ [].
Proof.
  destruct d as [|[k' v'] d]; simpl; [done|]. by destruct (String.eqb k k').
Qed.

End DictFacts.

(** ** Configuration (C2, C8) *)

Module ConfigFacts.

Import BackendConfig.

(** The validator accepts a configuration exactly when at least one of
    the two transports is given. *)
Lemma validate_transport_accepts (c : t) :
  validate_transport c = Ok c ↔ command c ≠ None ∨ http_url c ≠ None.
Proof.
  unfold validate_transport, is_not_none.
  destruct (command c), (http_url c); simpl; split; intros H;
    try done; try (left; done); try (right; done).
  destruct H as [H|H]; done.
Qed.

(** A configuration that names both transports. *)
Definition both_transports : t :=
  Make "both" "" (Some "echo hello") (Some "http://localhost:8080/mcp")
       [] [] None 300 true.

(** C2, at the failing input: a configuration with both [command] and
    [http_url] set is constructed without error, although the validator
    is documented to ensure that exactly one transport is configured. *)
Theorem both_transports_accepted :
  command both_transports ≠ None ∧ http_url both_transports ≠ None ∧
  create both_transports = Ok both_transports.
Proof. repeat split; done. Qed.

(** Construction without any transport fails, as claimed. *)
Lemma no_transport_rejected (c : t) :
  command c = None → http_url c = None → ∃ e, validate_transport c = Raise e.
Proof.
  intros Hc Hu. unfold validate_transport. rewrite Hc, Hu. simpl. eauto.
Qed.

(** What the claim calls a set command, and what the code tests. *)
Definition command_set (c : t) : Prop := ∃ s, command c = Some s.
Definition command_nonempty (c : t) : Prop :=
  ∃ s, command c = Some s ∧ s ≠ "".
Definition url_ends_with_sse (c : t) : Prop :=
  ∃ pre, http_url c = Some (pre +:+ "/sse").

(** A backend whose command is the empty string and that has no URL. *)
Definition empty_command : t := Make "b" "" (Some "") None [] [] None 300 true.

(** C8 fails as stated: the command of [empty_command] is set, it is
    accepted at construction, and its transport type is not ["stdio"]. *)
Lemma transport_type_empty_command :
  command_set empty_command ∧
  create empty_command = Ok empty_command ∧
  transport_type empty_command = "http" ∧
  transport_type empty_command ≠ "stdio".
Proof. repeat split; [by exists ""|done]. Qed.

Lemma truthy_iff (o : option string) : truthy o = true ↔ ∃ s, o = Some s ∧ s ≠ "".
Proof.
  destruct o as [s|]; simpl.
  - rewrite negb_true_iff. split.
    + intros H. exists s. split; [done|]. intros ->. done.
    + intros (s' & [= <-] & Hne). by apply String.eqb_neq.
  - split; [done|]. intros (s & ? & _). done.
Qed.

(** C8, amended: the transport type is ["stdio"] whenever [command] is
    set and not empty; otherwise ["sse"] whenever [http_url] ends with
    ["/sse"]; and ["http"] in every other case. *)
Theorem transport_type_cases (c : t) :
  (command_nonempty c ∧ transport_type c = "stdio") ∨
  (¬ command_nonempty c ∧ url_ends_with_sse c ∧ transport_type c = "sse") ∨
  (¬ command_nonempty c ∧ ¬ url_ends_with_sse c ∧ transport_type c = "http").
Proof.
  unfold transport_type, command_nonempty, url_ends_with_sse.
  destruct (truthy (command c)) eqn:Hc.
  { left. split; [by apply truthy_iff|done]. }
  right.
  assert (Hn : ¬ ∃ s, command c = Some s ∧ s ≠ "").
  { intros H. apply truthy_iff in H. congruence. }
  destruct (http_url c) as [u|] eqn:Hu; simpl.
  - destruct (Str.endswith "/sse" u) eqn:He.
    + apply StrFacts.endswith_iff in He as [pre ->].
      left. split; [done|]. split; [by exists pre|].
      destruct (String.eqb_spec (pre +:+ "/sse") ""); simpl; [|done].
      destruct pre; discriminate.
    + right. split; [done|]. split.
      * intros [pre [= ->]].
        assert (Str.endswith "/sse" (pre +:+ "/sse") = true)
          by (apply StrFacts.endswith_iff; eauto).
        congruence.
      * by rewrite andb_false_r.
  - right. split; [done|]. split; [|done]. intros [pre ?]. done.
Qed.

End ConfigFacts.

(** ** Invariants of monadic code *)

Section Keeps.

Context {S : Type} (I : S → Prop).

(** [m] keeps the invariant [I], whether it returns or raises. *)
Definition keeps {A} (m : M S A) : Prop := ∀ s, I s → I (m s).2.

Lemma keeps_ret {A} (a : A) : keeps (ret a).
Proof. by intros s. Qed.

Lemma keeps_raise {A} e : keeps (raise e : M S A).
Proof. by intros s. Qed.

Lemma keeps_of_result {A} (r : result A) : keeps (of_result r).
Proof. destruct r; [apply keeps_ret|apply keeps_raise]. Qed.

Lemma keeps_bind {A B} (m : M S A) (k : A → M S B) :
  keeps m → (∀ a, keeps (k a)) → keeps (bind m k).
Proof.
  intros Hm Hk s Hs. unfold bind. specialize (Hm s Hs).
  destruct (m s) as [[a|e] s']; simpl in *; [by apply Hk|done].
Qed.

Lemma keeps_try {A} (m : M S A) (h : exn → M S A) :
  keeps m → (∀ e, keeps (h e)) → keeps (try_except m h).
Proof.
  intros Hm Hh s Hs. unfold try_except. specialize (Hm s Hs).
  destruct (m s) as [[a|e] s']; simpl in *; [done|by apply Hh].
Qed.

End Keeps.

Create HintDb keeps discriminated.
#[global] Hint Resolve keeps_ret keeps_raise keeps_of_result : keeps.

(** One step of an invariant proof: split the combinator at the head, or
    the [match] that guards it. *)
Ltac keeps_step :=
  lazymatch goal with
  | |- keeps _ (bind _ _) => apply keeps_bind; [|intros ?]
  | |- keeps _ (try_except _ _) => apply keeps_try; [|intros ?]
  | |- keeps _ (match ?x with _ => _ end) => destruct x
  | |- keeps _ (if ?x then _ else _) => destruct x
  | |- keeps _ _ => solve [eauto with keeps]
  end.

Ltac keeps_auto := repeat keeps_step.

(** ** The adapter: stop and the tools cache (C1) *)

Module BackendFacts.

Import MCPBackend.

(** [is_running] as a function of the adapter and the history. *)
Definition running (W : World) (b : t) (e : Env) : bool :=
  if is_http b then _initialized b
  else match process b with
       | Some pid => poll_alive W (trace e) pid
       | None => false
       end.

Lemma is_running_eq W b e : is_running W (b, e) = (Ok (running W b e), (b, e)).
Proof.
  unfold is_running, running, bind, self, ret, poll. simpl.
  destruct (is_http b); [done|]. by destruct (process b).
Qed.

(** The signals of [stop()] are delivered: [terminate()] does not
    raise, and neither does [kill()] when the child has not exited in
    time.  An HTTP adapter and an adapter without a child send none. *)
Definition delivered (W : World) (b : t) (e : Env) : Prop :=
  if is_http b then True
  else match process b with
       | None => True
       | Some pid =>
           let h := (name b, ProcTerminate pid) :: trace e in
           proc_terminate W (trace e) pid = Ok tt ∧
           (wait_exits W h pid = true ∨ proc_kill W h pid = Ok tt)
       end.

(** What a [stop()] that returns has done to the adapter. *)
Definition stop_post (W : World) (b : t) (e : Env) (b' : t) (e' : Env)
  : Prop :=
  running W b' e' = false ∧
  _tools_cache b' = _tools_cache b ∧
  heap e' = heap e ∧
  config b' = config b ∧
  restart_count b' = restart_count b ∧
  if is_http b
  then _initialized b' = false ∧ _http_session_id b' = None ∧
       _sse_message_url b' = None
  else process b' = None ∧
       match process b with
       | Some _ => _initialized b' = false
       | None => b' = b
       end.

(** [stop()] returns when its signals are delivered. *)
Lemma stop_effect W b e :
  delivered W b e →
  ∃ b' e', stop W (b, e) = (Ok tt, (b', e')) ∧ stop_post W b e b' e'.
Proof.
  unfold delivered, stop_post, stop, terminate, kill, wait, bind, self,
    modify, ret, io, of_result, bind, ret.
  simpl.
  destruct (is_http b) eqn:Hh; simpl.
  - intros _. eexists _, _. split; [done|]. unfold running, is_http in *.
    simpl. rewrite Hh. done.
  - destruct (process b) as [pid|] eqn:Hp; simpl.
    + intros [Ht Hkill]. rewrite Ht. simpl.
      destruct (wait_exits W _ pid); simpl.
      * eexists _, _. split; [done|]. unfold running, is_http in *.
        simpl. rewrite Hh. done.
      * destruct Hkill as [|Hk]; [done|]. rewrite Hk. simpl.
        eexists _, _. split; [done|]. unfold running, is_http in *.
        simpl. rewrite Hh. done.
    + intros _. eexists _, _. split; [done|]. unfold running.
      rewrite Hh, Hp. done.
Qed.

(** [stop()] raises only when a signal is refused, and then it leaves
    the adapter as it was. *)
Lemma stop_raises W b e x s' :
  stop W (b, e) = (Raise x, s') →
  ¬ delivered W b e ∧ s'.1 = b ∧ heap s'.2 = heap e.
Proof.
  unfold delivered, stop, terminate, kill, wait, bind, self, modify, ret, io,
    of_result, bind, ret, raise.
  simpl.
  destruct (is_http b) eqn:Hh; simpl; [done|].
  destruct (process b) as [pid|] eqn:Hp; simpl; [|done].
  destruct (proc_terminate W (trace e) pid) as [[]|y] eqn:Ht; simpl.
  - destruct (wait_exits W _ pid) eqn:Hw; simpl; [done|].
    destruct (proc_kill W _ pid) as [[]|z] eqn:Hk; simpl; [done|].
    intros [= <- <-]. simpl. split; [|done].
    intros [_ [|]]; congruence.
  - intros [= <- <-]. simpl. split; [|done]. intros [? _]. congruence.
Qed.

(** A [stop()] that returns has had its signals delivered. *)
Lemma stop_returned W b e b' e' :
  stop W (b, e) = (Ok tt, (b', e')) → stop_post W b e b' e'.
Proof.
  intros Hrun.
  assert (Hd : delivered W b e).
  { unfold delivered.
    revert Hrun.
    unfold stop, terminate, kill, wait, bind, self, modify, ret, io,
      of_result, bind, ret, raise.
    simpl.
    destruct (is_http b); [done|].
    destruct (process b) as [pid|]; simpl; [|done].
    destruct (proc_terminate W (trace e) pid) as [[]|y]; simpl; [|done].
    split; [done|].
    destruct (wait_exits W _ pid); simpl in *; [by left|].
    destruct (proc_kill W _ pid) as [[]|z]; simpl in *; [by right|done]. }
  destruct (stop_effect W b e Hd) as (b1 & e1 & Hrun1 & Hpost).
  rewrite Hrun in Hrun1. by simplify_eq.
Qed.

End BackendFacts.

Module CacheFacts.

Import MCPBackend.

(** The adapter holds a cached reply. *)
Definition cached (s : t * Env) : Prop := _tools_cache s.1 ≠ VNone.

Lemma lift_env_cached {A} (m : M Env A) : keeps cached (lift_env m).
Proof. intros [b e] H. unfold lift_env. simpl. by destruct (m e). Qed.

Lemma modify_cached f :
  (∀ b, _tools_cache (f b) = _tools_cache b) → keeps cached (modify f).
Proof. intros Hf [b e] H. unfold cached in *. simpl. by rewrite Hf. Qed.

Lemma self_cached : keeps cached self.
Proof. by intros s. Qed.

Lemma io_cached {A} op (f : list (string * io_op) → A) : keeps cached (io op f).
Proof. by intros s. Qed.

Lemma now_cached W : keeps cached (now W).
Proof. by intros s. Qed.

Lemma poll_cached W pid : keeps cached (poll W pid).
Proof. by intros s. Qed.

Lemma observe_cached {A} (f : t * Env → A) :
  keeps cached ((λ s, (Ok (f s), s)) : BM A).
Proof. by intros s. Qed.

#[global] Hint Resolve lift_env_cached self_cached io_cached now_cached
  poll_cached observe_cached : keeps.
#[global] Hint Extern 1 (keeps cached (modify _)) =>
  (apply modify_cached; intros ?; reflexivity) : keeps.

(** A reply is cached only when ["result" in reply] holds, which [None]
    does not satisfy. *)
Lemma cache_if_result_cached doc : keeps cached (cache_if_result doc).
Proof.
  intros [b e] H. unfold cache_if_result, bind, lift_env, Py.load. simpl.
  destruct (Py.load_in doc (heap e)) as [v σ]. simpl.
  destruct v as [| | |s|l]; simpl; try done.
  - by destruct (Str.contains "result" s).
  - unfold bind, Py.deref. simpl.
    destruct (σ !! l) as [[d|vs]|]; simpl; try done.
    + by destruct (Dict.has "result" d).
    + by destruct (existsb _ vs).
Qed.
#[global] Hint Resolve cache_if_result_cached : keeps.

Lemma write_line_cached W pid j : keeps cached (write_line W pid j).
Proof. unfold write_line. keeps_auto. Qed.

Lemma read_line_cached W pid z : keeps cached (read_line W pid z).
Proof. unfold read_line. keeps_auto. Qed.

Lemma post_cached W u h j z : keeps cached (post W u h j z).
Proof. unfold post. keeps_auto. Qed.

Lemma spawn_cached W a b c : keeps cached (spawn W a b c).
Proof. unfold spawn. keeps_auto. Qed.

Lemma get_stream_cached W u z : keeps cached (get_stream W u z).
Proof. unfold get_stream. keeps_auto. Qed.

#[global] Hint Resolve write_line_cached read_line_cached post_cached
  spawn_cached get_stream_cached : keeps.

Lemma _fetch_tools_stdio_cached W : keeps cached (_fetch_tools_stdio W).
Proof. unfold _fetch_tools_stdio. keeps_auto. Qed.
#[global] Hint Resolve _fetch_tools_stdio_cached : keeps.

Lemma _mcp_handshake_stdio_cached W : keeps cached (_mcp_handshake_stdio W).
Proof. unfold _mcp_handshake_stdio. keeps_auto. Qed.
#[global] Hint Resolve _mcp_handshake_stdio_cached : keeps.

Lemma _start_stdio_cached W : keeps cached (_start_stdio W).
Proof. unfold _start_stdio. keeps_auto. Qed.

Lemma _fetch_tools_http_cached W : keeps cached (_fetch_tools_http W).
Proof. unfold _fetch_tools_http. keeps_auto. Qed.
#[global] Hint Resolve _start_stdio_cached _fetch_tools_http_cached : keeps.

Lemma _init_streamable_http_cached W : keeps cached (_init_streamable_http W).
Proof. unfold _init_streamable_http. keeps_auto. Qed.

Lemma _init_sse_session_cached W : keeps cached (_init_sse_session W).
Proof. unfold _init_sse_session. keeps_auto. Qed.
#[global] Hint Resolve _init_streamable_http_cached _init_sse_session_cached
  : keeps.

Lemma start_cached W : keeps cached (start W).
Proof. unfold start, _init_http_session. keeps_auto. Qed.
#[global] Hint Resolve start_cached : keeps.

Lemma stop_cached W : keeps cached (stop W).
Proof. unfold stop, terminate, kill, wait. keeps_auto. Qed.

Lemma send_request_cached W request : keeps cached (send_request W request).
Proof.
  unfold send_request, _send_http_request, _send_stdio_request, error_reply,
    is_running.
  keeps_auto.
Qed.

(** The adapter [x] of the sample world is stopped after it has cached
    its tools. *)
Definition stopped_x : t * Env :=
  Eval vm_compute in (stop Demo.world Demo.started_x).2.

(** C1 fails as stated: after [stop()] the adapter is not running and
    not initialized, but its tools cache is the one it had, still
    populated with both tools. *)
Lemma stop_leaves_tools_cache :
  _tools_cache Demo.started_x.1 = VRef 4 ∧
  _tools_cache stopped_x.1 = VRef 4 ∧
  Py.truthy_in (heap stopped_x.2) (_tools_cache stopped_x.1) = true ∧
  (get_cached_tools stopped_x).1 = Ok [VRef 0; VRef 1] ∧
  BackendFacts.running Demo.world stopped_x.1 stopped_x.2 = false ∧
  _initialized stopped_x.1 = false.
Proof. vm_compute. repeat split; reflexivity. Qed.

(** C1, amended: a [stop()] that returns has put the adapter in the
    not-running state, cleared the initialized flag and the session
    tokens of an HTTP adapter, dropped the child of a stdio adapter and
    cleared its initialized flag, and left the tools cache and the store
    as they were; it returns whenever its signals are delivered, always
    for an HTTP adapter and for an adapter without a child.  A cache
    that is present is not cleared by [start], [stop] or [send_request],
    whether they return or raise. *)
Theorem stop_keeps_tools_cache (W : World) (b : t) (e : Env) :
  (∀ b' e',
     stop W (b, e) = (Ok tt, (b', e')) →
     BackendFacts.running W b' e' = false ∧
     _tools_cache b' = _tools_cache b ∧
     heap e' = heap e ∧
     if is_http b
     then _initialized b' = false ∧ _http_session_id b' = None ∧
          _sse_message_url b' = None
     else process b' = None ∧
          match process b with
          | Some _ => _initialized b' = false
          | None => b' = b
          end) ∧
  (BackendFacts.delivered W b e →
     ∃ b' e', stop W (b, e) = (Ok tt, (b', e'))) ∧
  (is_http b = true ∨ process b = None → BackendFacts.delivered W b e) ∧
  (_tools_cache b ≠ VNone →
     _tools_cache (start W (b, e)).2.1 ≠ VNone ∧
     _tools_cache (stop W (b, e)).2.1 ≠ VNone ∧
     ∀ request, _tools_cache (send_request W request (b, e)).2.1 ≠ VNone).
Proof.
  split; [|split; [|split]].
  - intros b' e' Hs.
    destruct (BackendFacts.stop_returned W b e b' e' Hs)
      as (Hr & Hc & Hh & _ & _ & Hrest).
    done.
  - intros Hd.
    destruct (BackendFacts.stop_effect W b e Hd) as (b' & e' & Hs & _).
    by exists b', e'.
  - unfold BackendFacts.delivered. intros [Hh|Hp]; [by rewrite Hh|].
    rewrite Hp. by destruct (is_http b).
  - intros Hc. split; [|split; [|intros request]].
    + by apply (start_cached W (b, e)).
    + by apply (stop_cached W (b, e)).
    + by apply (send_request_cached W request (b, e)).
Qed.

Lemma stop_keeps_tools_cache_witness :
  let b := Demo.started_x.1 in
  let e := Demo.started_x.2 in
  _tools_cache (start Demo.world (b, e)).2.1 ≠ VNone ∧
  _tools_cache (stop Demo.world (b, e)).2.1 ≠ VNone.
Proof.
  intros b e.
  destruct (stop_keeps_tools_cache Demo.world b e) as (_ & _ & _ & H).
  destruct H as (H1 & H2 & _); [discriminate|].
  split; [exact H1|exact H2].
Defined.

End CacheFacts.

(** ** The cached [tools/list] reply (C4, C9) *)

Module CachedReply.

Import MCPBackend.

(** The items of the reply served from the cached dict [d] to the
    request with items [rq]. *)
Definition reply_items (rq d : Dict.t) : Dict.t :=
  Dict.set "id" (default VNone (Dict.get "id" rq)) d.

Lemma lookup_snoc {A} (l : list A) (x : A) :
  (l ++ [x]) !! List.length l = Some x.
Proof. by rewrite list_lookup_middle. Qed.

Lemma insert_snoc {A} (l : list A) (x y : A) :
  <[List.length l := y]> (l ++ [x]) = l ++ [y].
Proof.
  replace (List.length l) with (List.length l + 0)%nat by lia.
  by rewrite insert_app_r.
Qed.

Lemma truthy_dict (σ : list pyobj) l d :
  σ !! l = Some (ODict d) → d ≠ [] → Py.truthy_in σ (VRef l) = true.
Proof. intros H Hd. simpl. rewrite H. by destruct d. Qed.

(** A [tools/list] request to an adapter with a populated cache is
    answered from the cache: one new object, no transport operation. *)
Lemma send_request_from_cache W b e rl rq cl d :
  heap e !! rl = Some (ODict rq) →
  Dict.get "method" rq = Some (VStr "tools/list") →
  _tools_cache b = VRef cl →
  heap e !! cl = Some (ODict d) →
  d ≠ [] →
  send_request W (VRef rl) (b, e) =
    (Ok (VRef (List.length (heap e))),
     (set_last_used (clock W (clock_reads e)) b,
      MkEnv (heap e ++ [ODict (reply_items rq d)]) (trace e)
            (S (clock_reads e)))).
Proof.
  intros Hrq Hm Hc Hd Hne.
  unfold send_request, bind, now, modify, lift_env, self, ret,
    Py.get_or_none, Py.get, Py.truthy, Py.copy, Py.setitem, Py.deref,
    Py.alloc, Py.update, bind, ret.
  simpl. rewrite Hrq. simpl. rewrite Hm. simpl. rewrite Hc.
  rewrite (truthy_dict _ _ _ Hd Hne). simpl. rewrite Hd. simpl.
  rewrite (lookup_app_l_Some _ _ _ _ Hrq). simpl.
  rewrite lookup_snoc. simpl. rewrite insert_snoc. done.
Qed.

(** The sample adapter [x] receives [tools/list] with id 9. *)
Definition asked : pyval * (t * Env) :=
  Eval vm_compute in
    Demo.receive (Demo.request "tools/list" (JNum 9)) Demo.started_x.

Definition answered : result pyval * (t * Env) :=
  Eval vm_compute in send_request Demo.world asked.1 asked.2.

(** C4 fails as stated: the reply is a new top-level object, but its
    ["result"] is the very object the cache holds, so the reply is not a
    deep copy; a caller that empties the reply's tool list empties the
    cached one. *)
Lemma cached_reply_shares_result :
  answered.1 = Ok (VRef 6) ∧
  _tools_cache answered.2.1 = VRef 4 ∧
  heap answered.2.2 !! 6%nat =
    Some (ODict [("jsonrpc", VStr "2.0"); ("id", VInt 9); ("result", VRef 3)]) ∧
  heap answered.2.2 !! 4%nat =
    Some (ODict [("jsonrpc", VStr "2.0"); ("id", VInt 1); ("result", VRef 3)]) ∧
  ¬ Py.disjoint (heap answered.2.2) (_tools_cache answered.2.1) (VRef 6) ∧
  (get_cached_tools answered.2).1 = Ok [VRef 0; VRef 1] ∧
  (get_cached_tools
     (lift_env (Py.setitem (VRef 3) "tools" VNone) answered.2).2).1 = Ok [].
Proof.
  repeat split; try (vm_compute; reflexivity).
  intros H. apply (H 3%nat).
  - assert (Hr : Py.reach (heap answered.2.2) (_tools_cache answered.2.1)
                 = [4; 3; 2; 0; 1]%nat) by (vm_compute; reflexivity).
    rewrite Hr. repeat constructor.
  - assert (Hr : Py.reach (heap answered.2.2) (VRef 6)
                 = [6; 3; 2; 0; 1]%nat) by (vm_compute; reflexivity).
    rewrite Hr. repeat constructor.
Qed.

(** C4, amended: the reply to a [tools/list] request served from a
    populated cache is a new top-level object with the cached items, the
    ["id"] item overwritten with the request's id ([None] when it has
    none) and every other item the same value as in the cache (a shallow
    copy); no transport operation is performed, no object of the store
    is changed, the cache stays in place, and a second such request is
    answered with the same items up to ["id"]. *)
Theorem cached_tools_reply W b e rl rq cl d
    (Hrq : heap e !! rl = Some (ODict rq))
    (Hm : Dict.get "method" rq = Some (VStr "tools/list"))
    (Hc : _tools_cache b = VRef cl)
    (Hd : heap e !! cl = Some (ODict d))
    (Hne : d ≠ []) :
  ∃ b' e' items,
    send_request W (VRef rl) (b, e) = (Ok (VRef (List.length (heap e))), (b', e')) ∧
    heap e !! List.length (heap e) = None ∧
    heap e' !! List.length (heap e) = Some (ODict items) ∧
    Dict.get "id" items = Some (default VNone (Dict.get "id" rq)) ∧
    (∀ k, k ≠ "id" → Dict.get k items = Dict.get k d) ∧
    (∀ l o, heap e !! l = Some o → heap e' !! l = Some o) ∧
    trace e' = trace e ∧
    _tools_cache b' = _tools_cache b ∧
    ∀ rl2 rq2,
      heap e !! rl2 = Some (ODict rq2) →
      Dict.get "method" rq2 = Some (VStr "tools/list") →
      ∃ b'' e'' items2,
        send_request W (VRef rl2) (b', e') =
          (Ok (VRef (S (List.length (heap e)))), (b'', e'')) ∧
        heap e'' !! S (List.length (heap e)) = Some (ODict items2) ∧
        Dict.get "id" items2 = Some (default VNone (Dict.get "id" rq2)) ∧
        (∀ k, k ≠ "id" → Dict.get k items2 = Dict.get k items) ∧
        trace e'' = trace e.
Proof.
  eexists _, _, (reply_items rq d).
  split; [by apply (send_request_from_cache W b e rl rq cl d)|]. simpl.
  split; [by apply lookup_ge_None_2|].
  split; [apply lookup_snoc|].
  split; [apply DictFacts.get_set_eq|].
  split; [intros k Hk; by apply DictFacts.get_set_ne|].
  split; [intros l o Hl; by apply lookup_app_l_Some|].
  split; [done|]. split; [done|].
  intros rl2 rq2 Hrq2 Hm2.
  eexists _, _, (reply_items rq2 d).
  split.
  { rewrite (send_request_from_cache W _ _ rl2 rq2 cl d); simpl;
      try done; try by apply lookup_app_l_Some.
    by rewrite length_app, Nat.add_1_r. }
  simpl. split.
  { replace (S (List.length (heap e)))
      with (List.length (heap e ++ [ODict (reply_items rq d)]))
      by (rewrite length_app; simpl; lia).
    apply lookup_snoc. }
  split; [apply DictFacts.get_set_eq|].
  split; [|done].
  intros k Hk. unfold reply_items.
  by rewrite !DictFacts.get_set_ne.
Qed.

Lemma cached_tools_reply_witness :
  ∃ b' e' items,
    send_request Demo.world (VRef 5) (asked.2.1, asked.2.2) =
      (Ok (VRef 6), (b', e')) ∧
    heap e' !! 6%nat = Some (ODict items) ∧
    Dict.get "id" items = Some (VInt 9) ∧
    trace e' = trace asked.2.2.
Proof.
  destruct (cached_tools_reply Demo.world asked.2.1 asked.2.2 5
              [("jsonrpc", VStr "2.0"); ("method", VStr "tools/list");
               ("id", VInt 9)]
              4 [("jsonrpc", VStr "2.0"); ("id", VInt 1); ("result", VRef 3)])
    as (b' & e' & items & H1 & _ & H3 & H4 & _ & _ & H7 & _);
    [reflexivity|reflexivity|reflexivity|reflexivity|discriminate|].
  exists b', e', items. repeat split; assumption.
Defined.

(** C9: a [tools/list] request that follows a completed [stop()] (one
    whose signals were delivered) on an adapter whose cache was
    populated is answered from the cache, with the id of the new
    request; the transport is not restarted, and the adapter is not
    running afterwards. *)
Theorem cached_reply_after_stop W b e rl rq cl d
    (Hrq : heap e !! rl = Some (ODict rq))
    (Hm : Dict.get "method" rq = Some (VStr "tools/list"))
    (Hc : _tools_cache b = VRef cl)
    (Hd : heap e !! cl = Some (ODict d))
    (Hne : d ≠ [])
    (Hstop : BackendFacts.delivered W b e) :
  ∃ b1 e1 b2 e2 items,
    stop W (b, e) = (Ok tt, (b1, e1)) ∧
    send_request W (VRef rl) (b1, e1) =
      (Ok (VRef (List.length (heap e))), (b2, e2)) ∧
    heap e2 !! List.length (heap e) = Some (ODict items) ∧
    Dict.get "id" items = Some (default VNone (Dict.get "id" rq)) ∧
    (∀ k, k ≠ "id" → Dict.get k items = Dict.get k d) ∧
    trace e2 = trace e1 ∧
    process b2 = process b1 ∧
    _initialized b2 = _initialized b1 ∧
    restart_count b2 = restart_count b ∧
    BackendFacts.running W b2 e2 = false.
Proof.
  destruct (BackendFacts.stop_effect W b e Hstop)
    as (b1 & e1 & Hs & Hr & Hc1 & Hh & _ & Hrc & _).
  assert (Hsend := send_request_from_cache W b1 e1 rl rq cl d).
  rewrite Hh, Hc1 in Hsend. specialize (Hsend Hrq Hm Hc Hd Hne).
  exists b1, e1. eexists _, _, (reply_items rq d).
  split; [done|].
  split; [exact Hsend|]. simpl.
  split; [apply lookup_snoc|].
  split; [apply DictFacts.get_set_eq|].
  split; [intros k Hk; by apply DictFacts.get_set_ne|].
  repeat split; done.
Qed.

Lemma cached_reply_after_stop_witness :
  ∃ b1 e1 b2 e2,
    stop Demo.world (asked.2.1, asked.2.2) = (Ok tt, (b1, e1)) ∧
    send_request Demo.world (VRef 5) (b1, e1) = (Ok (VRef 6), (b2, e2)) ∧
    BackendFacts.running Demo.world b2 e2 = false.
Proof.
  destruct (cached_reply_after_stop Demo.world asked.2.1 asked.2.2 5
              [("jsonrpc", VStr "2.0"); ("method", VStr "tools/list");
               ("id", VInt 9)]
              4 [("jsonrpc", VStr "2.0"); ("id", VInt 1); ("result", VRef 3)])
    as (b1 & e1 & b2 & e2 & items & H1 & H2 & H);
    [reflexivity|reflexivity|reflexivity|reflexivity|discriminate
    |vm_compute; split; [reflexivity|left; reflexivity]|].
  exists b1, e1, b2, e2. split; [exact H1|]. split; [exact H2|].
  apply H.
Defined.

End CachedReply.

(** ** What the fetch of the tool list leaves alone *)

Module FrameFacts.

Import MCPBackend.

Section Frame.

(** A property of the adapter that does not depend on the cache. *)
Variable P : t → Prop.
Hypothesis P_cache : ∀ b c, P b → P (set_tools_cache c b).

Definition on_adapter (s : t * Env) : Prop := P s.1.

Lemma lift_env_frame {A} (m : M Env A) : keeps on_adapter (lift_env m).
Proof. intros [b e] H. unfold lift_env. simpl. by destruct (m e). Qed.

Lemma io_frame {A} op (f : list (string * io_op) → A) :
  keeps on_adapter (io op f).
Proof. by intros s. Qed.

Lemma self_frame : keeps on_adapter self.
Proof. by intros s. Qed.

Lemma cache_frame c : keeps on_adapter (modify (set_tools_cache c)).
Proof. intros [b e] H. by apply P_cache. Qed.

Local Hint Resolve lift_env_frame io_frame self_frame cache_frame : keeps.

Lemma cache_if_result_frame doc : keeps on_adapter (cache_if_result doc).
Proof. unfold cache_if_result. keeps_auto. Qed.

Lemma post_frame W u h j z : keeps on_adapter (post W u h j z).
Proof. unfold post. keeps_auto. Qed.

Local Hint Resolve cache_if_result_frame post_frame : keeps.

Lemma _fetch_tools_http_frame W : keeps on_adapter (_fetch_tools_http W).
Proof. unfold _fetch_tools_http. keeps_auto. Qed.

Lemma write_line_frame W pid j : keeps on_adapter (write_line W pid j).
Proof. unfold write_line. keeps_auto. Qed.

Lemma read_line_frame W pid z : keeps on_adapter (read_line W pid z).
Proof. unfold read_line. keeps_auto. Qed.

Local Hint Resolve write_line_frame read_line_frame : keeps.

Lemma _fetch_tools_stdio_frame W : keeps on_adapter (_fetch_tools_stdio W).
Proof. unfold _fetch_tools_stdio. keeps_auto. Qed.

End Frame.

End FrameFacts.

(** ** Starting an adapter (C6) *)

Module StartFacts.

Import MCPBackend.

(** The URL selects the SSE transport. *)
Definition sse_url (b : t) : bool :=
  BackendConfig.truthy (BackendConfig.http_url (config b)) &&
  match BackendConfig.http_url (config b) with
  | Some u => Str.endswith "/sse" u
  | None => false
  end.

Definition log (b : t) (op : io_op) (e : Env) : Env :=
  MkEnv (heap e) ((name b, op) :: trace e) (clock_reads e).

(** The headers of the handshake. *)
Definition init_headers (b : t) : SDict.t :=
  SDict.update base_headers (BackendConfig.headers (config b)).

(** Streamable HTTP: [start()] succeeds and leaves the adapter
    initialized, whatever the peer does. *)
Lemma start_streamable_http W b e :
  is_http b = true → sse_url b = false →
  ∃ b' e', start W (b, e) = (Ok true, (b', e')) ∧ _initialized b' = true.
Proof.
  intros Hh Hs. unfold start, bind, self, ret. simpl. rewrite Hh.
  destruct (_initialized b) eqn:Hi; simpl; [by eexists _, _|].
  unfold _init_http_session, bind, self. simpl.
  fold (sse_url b). rewrite Hs.
  unfold _init_streamable_http, try_except, bind, self, modify, ret. simpl.
  destruct (post W _ _ _ _ _) as [[resp|x] [b1 e1]]; simpl;
    [|by eexists _, _].
  destruct (status resp =? 200); simpl; [|by eexists _, _].
  match goal with
  | |- context [match ?m (b1, e1) with _ => _ end] =>
      destruct (m (b1, e1)) as [[[]|x] [b2 e2]]
  end; simpl; [|by eexists _, _].
  destruct (_fetch_tools_http W (b2, e2)) as [[[]|x] [b3 e3]]; simpl;
    by eexists _, _.
Qed.

(** Streamable HTTP, failed handshake: when the [initialize] request is
    refused or answered with a status other than 200, nothing else is
    sent, and the adapter is marked initialized. *)
Lemma start_streamable_http_failed W b e u :
  BackendConfig.http_url (config b) = Some u →
  sse_url b = false →
  _initialized b = false →
  match http_post W (trace e) u (init_headers b) init_request 10 with
  | Ok resp => status resp ≠ 200
  | Raise _ => True
  end →
  start W (b, e) =
    (Ok true,
     (set_initialized true b,
      log b (HttpPost u (init_headers b) init_request 10) e)).
Proof.
  intros Hu Hs Hi Hfail. unfold start, bind, self, ret. simpl.
  unfold is_http. rewrite Hu, Hi. simpl.
  unfold _init_http_session, bind, self. simpl.
  fold (sse_url b). rewrite Hs.
  unfold _init_streamable_http, try_except, bind, self, modify, ret, post,
    io, of_result, bind, ret, raise. simpl. rewrite Hu. simpl.
  fold (init_headers b).
  destruct (http_post W (trace e) u (init_headers b) init_request 10)
    as [resp|x]; simpl; [|done].
  destruct (Z.eqb_spec (status resp) 200); [done|]. done.
Qed.

(** Fetching the tool list never raises and does not touch the
    initialized flag. *)
Lemma fetch_tools_http_ok W s : (_fetch_tools_http W s).1 = Ok tt.
Proof.
  unfold _fetch_tools_http, try_except.
  match goal with |- context [match ?m s with _ => _ end] =>
    destruct (m s) as [[[]|x] s'] end; done.
Qed.

Lemma fetch_tools_http_initialized W s :
  _initialized (_fetch_tools_http W s).2.1 = _initialized s.1.
Proof.
  apply (FrameFacts._fetch_tools_http_frame
           (λ b, _initialized b = _initialized s.1)); [|done].
  by intros [] c.
Qed.

Lemma fetch_tools_http_eq W s :
  _fetch_tools_http W s = (Ok tt, (_fetch_tools_http W s).2).
Proof.
  rewrite <- (fetch_tools_http_ok W s). by destruct (_fetch_tools_http W s).
Qed.

(** SSE: [start()] reports exactly whether the adapter became
    initialized. *)
Lemma start_sse W b e :
  is_http b = true → sse_url b = true → _initialized b = false →
  ∃ r b' e', start W (b, e) = (Ok r, (b', e')) ∧ _initialized b' = r.
Proof.
  intros Hh Hs Hi.
  destruct (start W (b, e)) as [r [b' e']] eqn:Hstart.
  revert Hstart. unfold start, bind, self, ret. simpl. rewrite Hh, Hi.
  simpl. unfold _init_http_session, bind, self. simpl.
  fold (sse_url b). rewrite Hs.
  unfold _init_sse_session, try_except, bind, self, modify, ret, raise,
    get_stream, post, io, of_result, bind, ret, raise. simpl.
  intros Hstart.
  repeat (case_match; simpl in *; simplify_eq);
    try (by eexists _, _, _);
    match goal with
    | H : _fetch_tools_http ?W ?s = (Raise _, _) |- _ =>
        pose proof (fetch_tools_http_ok W s) as X; rewrite H in X; discriminate
    end.
Qed.

(** SSE, failed handshake: when the endpoint is announced but the
    [initialize] request is refused or answered with a status other than
    200, [start()] reports failure and the adapter is not initialized. *)
Lemma start_sse_failed W b e u resp data :
  BackendConfig.http_url (config b) = Some u →
  sse_url b = true →
  _initialized b = false →
  http_get W (trace e) u 10 = Ok resp →
  status resp = 200 →
  sse_endpoint (content resp) = Some data →
  let url := Str.rsplit1_head "/sse" u +:+ data in
  url ≠ "" →
  match http_post W ((name b, HttpGet u 10) :: trace e) url
          [("Content-Type", "application/json")] init_request 10 with
  | Ok resp' => status resp' ≠ 200
  | Raise _ => True
  end →
  ∃ b' e', start W (b, e) = (Ok false, (b', e')) ∧ _initialized b' = false.
Proof.
  intros Hu Hs Hi Hget Hst Hdata url Hurl Hfail.
  unfold start, bind, self, ret. simpl.
  unfold is_http. rewrite Hu, Hi. simpl.
  unfold _init_http_session, bind, self. simpl.
  fold (sse_url b). rewrite Hs.
  unfold _init_sse_session, try_except, bind, self, modify, ret, raise,
    get_stream, post, io, of_result, bind, ret, raise. simpl.
  rewrite Hu. simpl. rewrite Hget. simpl. rewrite Hst. simpl.
  rewrite Hdata. simpl. fold url.
  destruct (String.eqb_spec url ""); [done|]. simpl.
  unfold name in Hfail.
  destruct (http_post W _ url _ init_request 10) as [resp'|x]; simpl.
  - destruct (Z.eqb_spec (status resp') 200); [done|]. by eexists _, _.
  - by eexists _, _.
Qed.

(** The child is not alive, or there is none. *)
Definition not_alive (W : World) (b : t) (e : Env) : Prop :=
  match process b with
  | Some pid => poll_alive W (trace e) pid = false
  | None => True
  end.

Definition spawn_op (W : World) (b : t) (argv : list string) : io_op :=
  Popen argv (SDict.update (environ W) (BackendConfig.env (config b)))
        (if BackendConfig.truthy (BackendConfig.cwd (config b))
         then BackendConfig.cwd (config b) else None).

(** Stdio, failed handshake: when the child is spawned but the
    [initialize] request cannot be written, or no reply line arrives,
    [start()] still reports success; the adapter is not initialized. *)
Lemma start_stdio_failed_handshake W b e argv pid :
  is_http b = false →
  not_alive W b e →
  BackendConfig.command_list (shlex_split W) (config b) = Ok (Some argv) →
  argv ≠ [] →
  popen W (trace e) argv
        (SDict.update (environ W) (BackendConfig.env (config b)))
        (if BackendConfig.truthy (BackendConfig.cwd (config b))
         then BackendConfig.cwd (config b) else None) = Ok pid →
  let h := (name b, spawn_op W b argv) :: trace e in
  match stdin_write W h pid init_request with
  | Raise _ => True
  | Ok _ =>
      match stdout_readline W ((name b, StdinWrite pid init_request) :: h) pid 5 with
      | RdLine _ => False
      | _ => True
      end
  end →
  ∃ b' e',
    start W (b, e) = (Ok true, (b', e')) ∧
    _initialized b' = false ∧
    process b' = Some pid ∧
    restart_count b' = S (restart_count b) ∧
    _tools_cache b' = _tools_cache b.
Proof.
  intros Hh Hna Hcmd Hargv Hpopen h Hfail.
  unfold start, bind, self, ret. simpl. rewrite Hh.
  unfold _start_stdio, bind, self, ret, poll. simpl.
  unfold not_alive in Hna. unfold h, spawn_op, name in Hfail.
  destruct (process b) as [p|]; simpl; [rewrite Hna; simpl|];
    rewrite Hcmd; unfold of_result, ret; simpl;
    (destruct argv as [|a argv]; [done|]);
    unfold try_except, bind, spawn, io, of_result, bind, ret, modify; simpl;
    rewrite Hpopen; simpl;
    unfold _mcp_handshake_stdio, try_except, bind, self, write_line,
      read_line, io, of_result, bind, ret, raise, modify; simpl;
    (destruct (stdin_write W _ pid init_request) as [[]|x]; simpl;
     [destruct (stdout_readline W _ pid 5); simpl; try done|]);
    by eexists _, _.
Qed.

(** The sample child that closes its stdin at once. *)
Definition mute : t := Demo.fresh (Demo.stdio_config "mute" "run-mute").

Definition mute_started : result bool * (t * Env) :=
  Eval vm_compute in start Demo.world (mute, Demo.empty_env).

(** C6 fails as stated: the streamable-HTTP handshake is not the only
    error that is dropped.  The [initialize] request to the stdio child
    [mute] fails with a broken pipe, and [start()] reports success. *)
Lemma stdio_handshake_error_dropped :
  BackendConfig.transport_type (config mute) = "stdio" ∧
  stdin_write Demo.world
    [("mute", Popen ["run-mute"] [("PATH", "/usr/bin")] None)] 3
    init_request = Raise (Exn "BrokenPipeError" "Broken pipe") ∧
  start Demo.world (mute, Demo.empty_env) = mute_started ∧
  mute_started.1 = Ok true ∧
  _initialized mute_started.2.1 = false ∧
  trace mute_started.2.2 =
    [("mute", StdinWrite 3 init_request);
     ("mute", Popen ["run-mute"] [("PATH", "/usr/bin")] None)].
Proof. repeat split; vm_compute; reflexivity. Qed.

(** C6, amended: on the streamable-HTTP transport [start()] marks the
    adapter initialized and returns success whatever happens to the
    [initialize] request; when that request is refused or answered with
    a status other than 200, nothing more is sent.  On the SSE transport
    [start()] returns whether the adapter became initialized, and a
    failed [initialize] request makes it return failure.  On the stdio
    transport a failed handshake is dropped as well: [start()] returns
    success and leaves the adapter not initialized. *)
Theorem handshake_failure_by_transport (W : World) (b : t) (e : Env) :
  (is_http b = true → sse_url b = false →
     ∃ b' e', start W (b, e) = (Ok true, (b', e')) ∧ _initialized b' = true) ∧
  (∀ u,
     BackendConfig.http_url (config b) = Some u →
     sse_url b = false →
     _initialized b = false →
     match http_post W (trace e) u (init_headers b) init_request 10 with
     | Ok resp => status resp ≠ 200
     | Raise _ => True
     end →
     start W (b, e) =
       (Ok true,
        (set_initialized true b,
         log b (HttpPost u (init_headers b) init_request 10) e))) ∧
  (is_http b = true → sse_url b = true → _initialized b = false →
     ∃ r b' e', start W (b, e) = (Ok r, (b', e')) ∧ _initialized b' = r) ∧
  (∀ u resp data,
     BackendConfig.http_url (config b) = Some u →
     sse_url b = true →
     _initialized b = false →
     http_get W (trace e) u 10 = Ok resp →
     status resp = 200 →
     sse_endpoint (content resp) = Some data →
     Str.rsplit1_head "/sse" u +:+ data ≠ "" →
     match http_post W ((name b, HttpGet u 10) :: trace e)
             (Str.rsplit1_head "/sse" u +:+ data)
             [("Content-Type", "application/json")] init_request 10 with
     | Ok resp' => status resp' ≠ 200
     | Raise _ => True
     end →
     ∃ b' e', start W (b, e) = (Ok false, (b', e')) ∧ _initialized b' = false) ∧
  (∀ argv pid,
     is_http b = false →
     not_alive W b e →
     BackendConfig.command_list (shlex_split W) (config b) = Ok (Some argv) →
     argv ≠ [] →
     popen W (trace e) argv
           (SDict.update (environ W) (BackendConfig.env (config b)))
           (if BackendConfig.truthy (BackendConfig.cwd (config b))
            then BackendConfig.cwd (config b) else None) = Ok pid →
     match stdin_write W ((name b, spawn_op W b argv) :: trace e) pid
             init_request with
     | Raise _ => True
     | Ok _ =>
         match stdout_readline W
                 ((name b, StdinWrite pid init_request)
                    :: (name b, spawn_op W b argv) :: trace e) pid 5 with
         | RdLine _ => False
         | _ => True
         end
     end →
     ∃ b' e', start W (b, e) = (Ok true, (b', e')) ∧ _initialized b' = false).
Proof.
  split; [apply start_streamable_http|].
  split; [intros u; apply start_streamable_http_failed|].
  split; [apply start_sse|].
  split; [intros u resp data; apply start_sse_failed|].
  intros argv pid Hh Hna Hcmd Hargv Hpopen Hfail.
  destruct (start_stdio_failed_handshake W b e argv pid)
    as (b' & e' & Hs & Hi & _); try done.
  by exists b', e'.
Qed.

(** The sample HTTP peer that refuses connections. *)
Definition down : t := Demo.fresh (Demo.http_config "down" "http://down/mcp").

Lemma handshake_failure_by_transport_witness :
  start Demo.world (down, Demo.empty_env) =
    (Ok true,
     (set_initialized true down,
      log down (HttpPost "http://down/mcp" (init_headers down) init_request 10)
          Demo.empty_env)).
Proof.
  apply (handshake_failure_by_transport Demo.world down Demo.empty_env);
    [reflexivity|reflexivity|reflexivity|exact I].
Defined.

End StartFacts.

(** ** The meta facade: error replies *)

Module MetaFacts.

Import Gateway.

Definition meta_tool_names : list string :=
  ["gateway_list_servers"; "gateway_list_tools"; "gateway_search_tools";
   "gateway_invoke"].

Lemma not_meta_tool s :
  s ∉ meta_tool_names →
  String.eqb s "gateway_list_servers" = false ∧
  String.eqb s "gateway_list_tools" = false ∧
  String.eqb s "gateway_search_tools" = false ∧
  String.eqb s "gateway_invoke" = false.
Proof.
  unfold meta_tool_names. intros H.
  repeat split; apply String.eqb_neq; intros ->; apply H;
    repeat constructor.
Qed.

(** A reply with the error [code] and [message] and the id [id]. *)
Definition is_error_reply (σ : list pyobj) (v : pyval) (code : Z)
    (message : string) (id : pyval) : Prop :=
  ∃ l le,
    v = VRef l ∧
    σ !! l = Some (ODict [("jsonrpc", VStr "2.0"); ("error", VRef le);
                          ("id", id)]) ∧
    σ !! le = Some (ODict [("code", VInt code); ("message", VStr message)]).

(** What [error_response] leaves in the store: the error object, then
    the reply that refers to it. *)
Lemma error_reply_built (σ : list pyobj) code message id :
  let err := ODict [("code", VInt code); ("message", VStr message)] in
  is_error_reply
    ((σ ++ [err]) ++
     [ODict [("jsonrpc", VStr "2.0"); ("error", VRef (List.length σ));
             ("id", id)]])
    (VRef (List.length (σ ++ [err]))) code message id.
Proof.
  intros err. exists (List.length (σ ++ [err])), (List.length σ).
  split; [done|]. split.
  - by rewrite list_lookup_middle.
  - apply lookup_app_l_Some. by rewrite list_lookup_middle.
Qed.

End MetaFacts.

(** ** Searching the registry (C3) *)

Module SearchFacts.

Import Gateway.

#[local] Arguments Str.take : simpl never.

(** [len(matches) >= limit] does not depend on the store. *)
Lemma reached_pure ms lim e :
  reached ms lim e = ((reached ms lim (MkEnv [] [] 0)).1, e).
Proof. by destruct lim. Qed.

Lemma get_cached_tools_state s : (MCPBackend.get_cached_tools s).2 = s.
Proof.
  destruct s as [b e].
  unfold MCPBackend.get_cached_tools, bind, MCPBackend.self, lift_env,
    Py.truthy, ret. simpl.
  destruct (Py.truthy_in (heap e) (MCPBackend._tools_cache b)); [|done].
  unfold Py.get, Py.deref, bind, ret, raise.
  destruct (MCPBackend._tools_cache b) as [| | | |l]; simpl; try done.
  destruct (heap e !! l) as [[d|vs]|]; simpl; try done.
  destruct (Dict.get "result" d) as [[| | | |l2]|]; simpl; try done.
  destruct (heap e !! l2) as [[d2|vs2]|]; simpl; try done.
  destruct (Dict.get "tools" d2) as [[| | | |l3]|]; simpl; try done.
  by destruct (heap e !! l3) as [[d3|vs3]|].
Qed.

(** *** Short circuit *)

(** Once the tools scanned so far have filled the list, the tools that
    follow are not looked at. *)
Lemma scan_tools_stops name q lim pre post m e ms e' :
  pre ≠ [] →
  scan_tools name q lim pre m e = (Ok ms, e') →
  (reached ms lim e').1 = Ok true →
  scan_tools name q lim (pre ++ post) m e = (Ok ms, e').
Proof.
  revert m e. induction pre as [|tool pre IH]; intros m e Hne Hrun Hfull;
    [done|].
  simpl in *. unfold bind in *.
  destruct (get_or_empty_str tool "name" e) as [[tn|x] e1]; [|done].
  destruct (get_or_empty_str tool "description" e1) as [[td|x] e2]; [|done].
  destruct (lower tn e2) as [[ln|x] e3]; [|done].
  match goal with
  | H : context [match ?hit e3 with _ => _ end] |- _ =>
      destruct (hit e3) as [[h|x] e4]; [|done]
  end.
  match goal with
  | H : context [match ?add e4 with _ => _ end] |- _ =>
      destruct (add e4) as [[m'|x] e5]; [|done]
  end.
  rewrite (reached_pure m' lim e5) in *.
  destruct (reached m' lim (MkEnv [] [] 0)).1 as [[|]|x] eqn:Hr;
    simpl in *; [done| |done].
  destruct pre as [|tool' pre].
  - simpl in Hrun. unfold ret in Hrun. simplify_eq.
    rewrite (reached_pure ms lim e') in Hfull. simpl in Hfull. congruence.
  - by apply IH.
Qed.

(** Once the backends searched so far have filled the list, the
    backends that follow are not started. *)
Lemma search_backends_stops W q lim pre post m s ms s' :
  pre ≠ [] →
  search_backends W q lim pre m s = (Ok ms, s') →
  (reached ms lim s'.2).1 = Ok true →
  search_backends W q lim (pre ++ post) m s = (Ok ms, s').
Proof.
  revert m s. induction pre as [|[i name] pre IH]; intros m s Hne Hrun Hfull;
    [done|].
  simpl in *. unfold bind in *.
  destruct (with_backend i (MCPBackend.start W) s) as [[ok|x] s1]; [|done].
  destruct (with_backend i MCPBackend.get_cached_tools s1) as [[tools|x] s2];
    [|done].
  destruct (lift_env (scan_tools name q lim tools m) s2) as [[m'|x] s3];
    [|done].
  unfold lift_env in *. rewrite (reached_pure m' lim s3.2) in *.
  destruct (reached m' lim (MkEnv [] [] 0)).1 as [[|]|x] eqn:Hr;
    simpl in *; [done| |done].
  destruct pre as [|entry pre].
  - simpl in Hrun. unfold ret in Hrun. simplify_eq.
    rewrite (reached_pure ms lim _) in Hfull. simpl in Hfull. congruence.
  - by apply IH.
Qed.

(** *** Frame: a search touches only the backends it visits *)

(** The registry of [s] agrees with [g0] outside the positions [visited]. *)
Definition others_kept (g0 : t) (visited : list nat) (s : t * Env) : Prop :=
  config s.1 = config g0 ∧
  List.length (backends s.1) = List.length (backends g0) ∧
  ∀ j, j ∉ visited → backends s.1 !! j = backends g0 !! j.

Lemma with_backend_kept {A} g0 visited i (m : MCPBackend.BM A) :
  i ∈ visited → keeps (others_kept g0 visited) (with_backend i m).
Proof.
  intros Hi [g e] (Hc & Hl & Hk). unfold with_backend. simpl.
  destruct (backends g !! i) as [[n b]|]; [|done].
  destruct (m (b, e)) as [r [b' e']]. unfold others_kept. simpl.
  split; [done|]. split; [by rewrite length_insert|].
  intros j Hj. rewrite list_lookup_insert_ne; [by apply Hk|].
  intros ->. done.
Qed.

Lemma lift_env_kept {A} g0 visited (m : M Env A) :
  keeps (others_kept g0 visited) (lift_env m).
Proof. intros [g e] H. unfold lift_env. simpl. by destruct (m e). Qed.

Lemma search_backends_kept W q lim g0 visited entries m :
  (∀ entry, entry ∈ entries → entry.1 ∈ visited) →
  keeps (others_kept g0 visited) (search_backends W q lim entries m).
Proof.
  revert m. induction entries as [|[i name] entries IH]; intros m Hin; simpl.
  - apply keeps_ret.
  - assert (Hi : i ∈ visited) by (apply (Hin (i, name)); constructor).
    repeat (apply keeps_bind; [|intros ?]);
      try (by apply with_backend_kept); try apply lift_env_kept.
    case_match; [apply keeps_ret|].
    apply IH. intros entry He. apply Hin. by constructor.
Qed.

Lemma others_kept_refl g e visited : others_kept g visited (g, e).
Proof. done. Qed.

(** The positions listed by [items] are those of the registry. *)
Lemma items_positions g entry :
  entry ∈ items g → (entry.1 < List.length (backends g))%nat.
Proof.
  unfold items. intros H. apply elem_of_lookup_imap in H as (i & nb & -> & H).
  simpl. by apply lookup_lt_Some in H.
Qed.

(** *** One step of the scan, and the reply *)

(** The match recorded for a tool of the backend [server]. *)
Definition match_of (server tool description : string) : pyobj :=
  ODict [("server", VStr server); ("tool", VStr tool);
         ("description", VStr (Str.take 200 description))].

Definition match_doc (server tool description : string) : json :=
  JObj [("server", JStr server); ("tool", JStr tool);
        ("description", JStr (Str.take 200 description))].

(** A tool whose name contains the query is recorded, and the scan goes
    on only while the list is short of the limit. *)
Lemma scan_tools_hit server q lim l tools m e d tn td :
  heap e !! l = Some (ODict d) →
  default (VStr "") (Dict.get "name" d) = VStr tn →
  default (VStr "") (Dict.get "description" d) = VStr td →
  Str.contains q (Str.lower tn) = true →
  let m' := m ++ [VRef (List.length (heap e))] in
  let e' := MkEnv (heap e ++ [match_of server tn td]) (trace e)
                  (clock_reads e) in
  scan_tools server q lim (VRef l :: tools) m e =
    match (reached m' lim e').1 with
    | Ok true => (Ok m', e')
    | Ok false => scan_tools server q lim tools m' e'
    | Raise x => (Raise x, e')
    end.
Proof.
  intros Hl Hn Hd Hq m' e'. simpl.
  unfold bind, get_or_empty_str, Py.get, Py.deref, bind, ret. simpl.
  rewrite Hl. simpl. rewrite Hn, Hl. simpl. rewrite Hd. simpl.
  rewrite Hq. simpl. fold m'. fold (match_of server tn td). fold e'.
  rewrite (reached_pure m' lim e'). simpl.
  by destruct (reached m' lim (MkEnv [] [] 0)).1 as [[|]|x].
Qed.

(** A tool whose name and description do not contain the query is
    passed over. *)
Lemma scan_tools_miss server q lim l tools m e d tn td :
  heap e !! l = Some (ODict d) →
  default (VStr "") (Dict.get "name" d) = VStr tn →
  default (VStr "") (Dict.get "description" d) = VStr td →
  Str.contains q (Str.lower tn) = false →
  Str.contains q (Str.lower td) = false →
  scan_tools server q lim (VRef l :: tools) m e =
    match (reached m lim e).1 with
    | Ok true => (Ok m, e)
    | Ok false => scan_tools server q lim tools m e
    | Raise x => (Raise x, e)
    end.
Proof.
  intros Hl Hn Hd Hq Hq'. simpl.
  unfold bind, get_or_empty_str, Py.get, Py.deref, bind, ret. simpl.
  rewrite Hl. simpl. rewrite Hn, Hl. simpl. rewrite Hd. simpl.
  rewrite Hq. simpl. rewrite Hq'. simpl.
  rewrite (reached_pure m lim e). simpl.
  by destruct (reached m lim (MkEnv [] [] 0)).1 as [[|]|x].
Qed.

Lemma lookup_app_plus {A} (σ l : list A) k :
  (σ ++ l) !! (List.length σ + k)%nat = l !! k.
Proof. rewrite lookup_app_r; [|lia]. f_equal. lia. Qed.

(** [v["result"]["content"][0]["text"]] *)
Definition item (σ : list pyobj) (v : pyval) (k : string) : option pyval :=
  match v with
  | VRef l => match σ !! l with
              | Some (ODict d) => Dict.get k d
              | _ => None
              end
  | _ => None
  end.

Definition response_text (σ : list pyobj) (v : pyval) : option string :=
  match item σ v "result" with
  | Some r =>
      match item σ r "content" with
      | Some (VRef c) =>
          match σ !! c with
          | Some (OList (i :: _)) =>
              match item σ i "text" with
              | Some (VStr text) => Some text
              | _ => None
              end
          | _ => None
          end
      | _ => None
      end
  | None => None
  end.

Lemma text_response_run text id e :
  ∃ v σ,
    text_response text id e = (Ok v, MkEnv σ (trace e) (clock_reads e)) ∧
    response_text σ v = Some text ∧
    item σ v "id" = Some id.
Proof.
  unfold text_response, result_response, bind, Py.alloc. simpl.
  eexists _, _. split; [reflexivity|].
  rewrite <- !app_assoc. simpl. rewrite !length_app. simpl.
  unfold response_text, item.
  replace (List.length (heap e) + 1 + 1 + 1)%nat
    with (List.length (heap e) + 3)%nat by lia.
  replace (List.length (heap e) + 1 + 1)%nat
    with (List.length (heap e) + 2)%nat by lia.
  repeat (first [rewrite lookup_app_plus
                |rewrite list_lookup_middle by reflexivity]; simpl).
  done.
Qed.

Lemma dump_fuel_str n (σ : list pyobj) s :
  Py.dump_fuel n σ (VStr s) = Some (JStr s).
Proof. by destruct n. Qed.

Lemma dump_match (σ : list pyobj) n server tool description :
  σ !! n = Some (match_of server tool description) →
  Py.dump_in σ (VRef n) = Some (match_doc server tool description).
Proof.
  intros H. unfold Py.dump_in. simpl. rewrite H.
  unfold match_of, match_doc. simpl. by rewrite !dump_fuel_str.
Qed.

(** An adapter that was never started, or was stopped. *)
Definition idle (b : MCPBackend.t) : Prop :=
  if MCPBackend.is_http b then MCPBackend._initialized b = false
  else MCPBackend.process b = None.

Lemma idle_not_running W b e : idle b → BackendFacts.running W b e = false.
Proof.
  unfold idle, BackendFacts.running.
  destruct (MCPBackend.is_http b); [done|]. by intros ->.
Qed.

#[local] Arguments scan_tools : simpl never.
#[local] Arguments Str.lower : simpl never.
#[local] Opaque text_response.

(** The scenario of C7: with [x] (tools [t1], [t2]) registered before
    [y], the query ["t"] and the limit 2 give exactly the two matches of
    [x], and [y] is left as it was. *)
Lemma limit_two_scenario W cfg run x0 y0 e la ad rid ok x1 e1
    l1 l2 d1 d2 td1 td2 :
  heap e !! la = Some (ODict ad) →
  Dict.get "query" ad = Some (VStr "t") →
  Dict.get "limit" ad = Some (VInt 2) →
  MCPBackend.start W (x0, e) = (Ok ok, (x1, e1)) →
  (MCPBackend.get_cached_tools (x1, e1)).1 = Ok [VRef l1; VRef l2] →
  heap e1 !! l1 = Some (ODict d1) →
  default (VStr "") (Dict.get "name" d1) = VStr "t1" →
  default (VStr "") (Dict.get "description" d1) = VStr td1 →
  heap e1 !! l2 = Some (ODict d2) →
  default (VStr "") (Dict.get "name" d2) = VStr "t2" →
  default (VStr "") (Dict.get "description" d2) = VStr td2 →
  ∃ v e',
    _call_search_tools W (VRef la) rid
      (Make cfg [("x", x0); ("y", y0)] run, e) =
      (Ok v, (Make cfg [("x", x1); ("y", y0)] run, e')) ∧
    response_text (heap e') v =
      Some (json_dumps_indent W
              (JObj [("query", JStr "t");
                     ("matches", JArr [match_doc "x" "t1" td1;
                                       match_doc "x" "t2" td2]);
                     ("total", JNum 2)])) ∧
    item (heap e') v "id" = Some rid ∧
    trace e' = trace e1.
Proof.
  intros Ha Hq Hlim Hstart Htools H1 Hn1 Hd1 H2 Hn2 Hd2.
  assert (Htools' : MCPBackend.get_cached_tools (x1, e1)
                    = (Ok [VRef l1; VRef l2], (x1, e1))).
  { pose proof (get_cached_tools_state (x1, e1)) as Hst.
    destruct (MCPBackend.get_cached_tools (x1, e1)) as [r s'].
    simpl in *. by subst. }
  unfold _call_search_tools, bind, lift_env, get_or_empty_str, lower,
    Py.get, Py.deref, self, bind, ret.
  simpl. rewrite Ha. simpl. rewrite Hq. simpl.
  change (Str.lower "t") with "t". simpl. rewrite Ha. simpl.
  rewrite Hlim. simpl.
  unfold bind, with_backend. simpl. rewrite Hstart. simpl.
  rewrite Htools'. simpl. unfold lift_env. simpl.
  rewrite (scan_tools_hit "x" "t" (VInt 2) l1 [VRef l2] [] e1 d1 "t1" td1
             H1 Hn1 Hd1 eq_refl).
  simpl.
  rewrite (scan_tools_hit "x" "t" (VInt 2) l2 [] _
             (MkEnv (heap e1 ++ [match_of "x" "t1" td1]) (trace e1)
                    (clock_reads e1))
             d2 "t2" td2
             (lookup_app_l_Some _ _ _ _ H2) Hn2 Hd2 eq_refl).
  simpl.
  unfold bind, Py.dump. simpl.
  rewrite (dump_match _ (List.length (heap e1)) "x" "t1" td1).
  2:{ apply lookup_app_l_Some. by apply list_lookup_middle. }
  rewrite (dump_match _ (List.length (heap e1 ++ [match_of "x" "t1" td1]))
             "x" "t2" td2).
  2:{ by apply list_lookup_middle. }
  simpl. unfold ret. simpl.
  match goal with
  | |- context [text_response ?text ?id ?env] =>
      destruct (text_response_run text id env) as (v & σ & Hrun & Htext & Hid);
      rewrite Hrun
  end.
  simpl. exists v. eexists. split; [reflexivity|]. simpl. done.
Qed.

(** *** Limit zero *)

Lemma zero_reached (ms : list pyval) :
  (0 <=? Z.of_nat (List.length ms)) = true.
Proof. apply Z.leb_le. lia. Qed.

(** With the limit 0 the search visits the first backend and no other:
    the registry it leaves is the one in which the first adapter has
    gone through [start()]. *)
Lemma search_backends_limit_zero W q g e n0 b0 rest r g' e' :
  backends g = (n0, b0) :: rest →
  search_backends W q (VInt 0) (items g) [] (g, e) = (r, (g', e')) →
  g' = set_backends ((n0, (MCPBackend.start W (b0, e)).2.1) :: rest) g.
Proof.
  intros Hb. unfold items. rewrite Hb. simpl.
  unfold bind, with_backend. simpl. rewrite Hb. simpl.
  destruct (MCPBackend.start W (b0, e)) as [r0 [b1 e1]]. simpl.
  destruct r0 as [ok|x]; simpl; [|by intros [= <- <- <-]].
  pose proof (get_cached_tools_state (b1, e1)) as Hst.
  destruct (MCPBackend.get_cached_tools (b1, e1)) as [rt st].
  simpl in Hst. subst st. simpl.
  destruct rt as [tools|x]; simpl; [|by intros [= <- <- <-]].
  unfold lift_env. simpl.
  destruct (scan_tools n0 q (VInt 0) tools [] e1) as [[ms|x] e2]; simpl;
    [|by intros [= <- <- <-]].
  rewrite zero_reached. simpl. unfold ret. by intros [= <- <- <-].
Qed.

(** *** Order: matches are appended, backend after backend *)

Lemma scan_tools_extends name q lim tools m e ms e' :
  scan_tools name q lim tools m e = (Ok ms, e') → ∃ new, ms = m ++ new.
Proof.
  revert m e. induction tools as [|tool tools IH]; intros m e.
  - intros [= <- <-]. exists []. by rewrite app_nil_r.
  - unfold scan_tools; fold scan_tools. unfold bind.
    destruct (get_or_empty_str tool "name" e) as [[tn|x] e1]; [|done].
    destruct (get_or_empty_str tool "description" e1) as [[td|x] e2]; [|done].
    destruct (lower tn e2) as [[ln|x] e3]; [|done].
    match goal with
    | |- context [match ?hit e3 with _ => _ end] =>
        destruct (hit e3) as [[h|x] e4]; [|done]
    end.
    assert (Hadd : ∀ m' e5,
      (if h
       then let* short := slice200 td in
            let* m0 := Py.alloc (ODict [("server", VStr name); ("tool", tn);
                                        ("description", short)]) in
            ret (m ++ [m0])
       else ret m) e4 = (Ok m', e5) → ∃ new, m' = m ++ new).
    { intros m' e5. destruct h.
      - unfold bind. destruct (slice200 td e4) as [[short|x] e6]; [|done].
        unfold Py.alloc, ret. intros [= <- <-]. eauto.
      - intros [= <- <-]. exists []. by rewrite app_nil_r. }
    match goal with
    | |- context [match ?add e4 with _ => _ end] =>
        destruct (add e4) as [[m'|x] e5] eqn:Hm; [|done]
    end.
    apply Hadd in Hm as [new ->].
    destruct (reached (m ++ new) lim e5) as [[[|]|x] e6]; try done.
    + intros [= <- <-]. eauto.
    + intros Hrun. apply IH in Hrun as [new' ->].
      exists (new ++ new'). by rewrite app_assoc.
Qed.

Lemma search_backends_extends W q lim entries m s ms s' :
  search_backends W q lim entries m s = (Ok ms, s') → ∃ new, ms = m ++ new.
Proof.
  revert m s. induction entries as [|[i name] entries IH]; intros m s.
  - intros [= <- <-]. exists []. by rewrite app_nil_r.
  - simpl. unfold bind.
    destruct (with_backend i (MCPBackend.start W) s) as [[ok|x] s1]; [|done].
    destruct (with_backend i MCPBackend.get_cached_tools s1)
      as [[tools|x] s2]; [|done].
    unfold lift_env.
    destruct (scan_tools name q lim tools m s2.2) as [[m'|x] e3] eqn:Hscan;
      [|done].
    apply scan_tools_extends in Hscan as [new ->]. simpl.
    destruct (reached (m ++ new) lim e3) as [[[|]|x] e4]; try done.
    + intros [= <- <-]. eauto.
    + intros Hrun. apply IH in Hrun as [new' ->].
      exists (new ++ new'). by rewrite app_assoc.
Qed.

(** *** Early exit and the limit 0 *)

(** The arguments [{"query": "t", "limit": limit}], alone in the store. *)
Definition search_env (limit : Z) : Env :=
  MkEnv [ODict [("query", VStr "t"); ("limit", VInt limit)]] [] 0.

Definition fresh_x : MCPBackend.t := Demo.fresh (Demo.stdio_config "x" "run-x").
Definition fresh_y : MCPBackend.t := Demo.fresh (Demo.stdio_config "y" "run-y").

(** The adapter [x] of the sample world after [start()], in a store
    that holds the search arguments. *)
Definition x_started (limit : Z) : MCPBackend.t * Env :=
  (MCPBackend.start Demo.world (fresh_x, search_env limit)).2.

Definition x_started_two : MCPBackend.t * Env :=
  Eval vm_compute in x_started 2.

Definition x_started_zero : MCPBackend.t * Env :=
  Eval vm_compute in x_started 0.

(** The same search with the limit 0, in the sample world. *)
Definition zero_search : result (list pyval) * (t * Env) :=
  Eval vm_compute in
    search_backends Demo.world "t" (VInt 0) (items Demo.gateway_xy) []
      (Demo.gateway_xy, search_env 0).

Definition zero_reply : result pyval * (t * Env) :=
  Eval vm_compute in
    _call_search_tools Demo.world (VRef 0) (VInt 7)
      (Demo.gateway_xy, search_env 0).

(** C3 is violated by the code: a search with the limit 0 is to return
    zero matches and to start no backend, and the schema of the tool calls
    the limit the maximal number of results.  The loop compares the
    number of matches with the limit only after [backend.start()] and
    after a tool was scanned, so with the limit 0 the first backend, which
    was not running, is started and is running afterwards, and the reply
    holds one match. *)
Theorem limit_zero_starts_first_backend :
  BackendFacts.running Demo.world fresh_x (search_env 0) = false ∧
  _call_search_tools Demo.world (VRef 0) (VInt 7)
    (Demo.gateway_xy, search_env 0) = zero_reply ∧
  backends zero_reply.2.1 = [("x", x_started_zero.1); ("y", fresh_y)] ∧
  BackendFacts.running Demo.world x_started_zero.1 zero_reply.2.2 = true ∧
  MCPBackend.restart_count x_started_zero.1 = 1%nat ∧
  zero_search.1 = Ok [VRef 6] ∧
  heap zero_search.2.2 !! 6%nat = Some (match_of "x" "t1" "first tool") ∧
  (∃ v, zero_reply.1 = Ok v ∧
        response_text (heap zero_reply.2.2) v =
          Some (Demo.render
                  (JObj [("query", JStr "t");
                         ("matches", JArr [match_doc "x" "t1" "first tool"]);
                         ("total", JNum 1)]))).
Proof.
  repeat split; try (vm_compute; reflexivity).
  eexists. split; vm_compute; reflexivity.
Qed.

(** The extent of the violation: with the limit 0 and a non-empty query
    the search visits the first registered backend and no other: the registry it
    leaves differs from the one it found only in the first adapter, which
    has gone through [start()], so a later backend that was never started
    or was stopped is still not running; with no backend registered it
    returns zero matches and performs no transport operation. *)
Theorem limit_zero_visits_first_only W g e la ad q rid
    (Ha : heap e !! la = Some (ODict ad))
    (Hq : Dict.get "query" ad = Some (VStr q))
    (Hne : Str.lower q ≠ "")
    (Hlim : Dict.get "limit" ad = Some (VInt 0)) :
  let out := _call_search_tools W (VRef la) rid (g, e) in
  match backends g with
  | [] =>
      out.2.1 = g ∧ trace out.2.2 = trace e ∧
      ∃ v, out.1 = Ok v ∧
           response_text (heap out.2.2) v =
             Some (json_dumps_indent W
                     (JObj [("query", JStr (Str.lower q));
                            ("matches", JArr []); ("total", JNum 0)]))
  | (n0, b0) :: rest =>
      out.2.1 =
        set_backends ((n0, (MCPBackend.start W (b0, e)).2.1) :: rest) g ∧
      ∀ j, (0 < j)%nat →
        backends out.2.1 !! j = backends g !! j ∧
        ∀ n b, backends g !! j = Some (n, b) → idle b →
               BackendFacts.running W b out.2.2 = false
  end.
Proof.
  intros out. subst out.
  unfold _call_search_tools, bind, lift_env, get_or_empty_str, lower,
    Py.get, Py.deref, self, bind, ret.
  simpl. rewrite Ha. simpl. rewrite Hq. simpl. rewrite Ha. simpl.
  rewrite Hlim. simpl.
  destruct (String.eqb_spec (Str.lower q) ""); [done|].
  change ((g, e).1) with g.
  destruct (search_backends W (Str.lower q) (VInt 0) (items g) [] (g, e))
    as [r [g1 e1]] eqn:Hrun.
  destruct (backends g) as [|[n0 b0] rest] eqn:Hb.
  - unfold items in Hrun. rewrite Hb in Hrun. simpl in Hrun.
    unfold ret in Hrun. injection Hrun as <- <- <-. simpl.
    match goal with
    | |- context [text_response ?text ?id ?env] =>
        destruct (text_response_run text id env)
          as (v & σ & Hrun & Htext & _);
        rewrite Hrun
    end.
    simpl. repeat split; try done. by exists v.
  - apply (search_backends_limit_zero W _ g e n0 b0 rest) in Hrun as Hg1;
      [|done].
    match goal with
    | |- ?out.2.1 = _ ∧ _ =>
        assert (Hout : out.2.1 = g1);
        [destruct r as [ms|x]; simpl; [|done];
         destruct (dump_all ms e1) as [[found|x] e2]; simpl; [|done];
         by destruct (text_response _ rid e2)
        |rewrite Hout]
    end.
    split; [done|].
    intros j Hj. split.
    + rewrite Hg1. simpl. destruct j; [lia|done].
    + intros n1 b1 _ Hidle. by apply idle_not_running.
Qed.

Lemma limit_zero_visits_first_only_witness :
  (_call_search_tools Demo.world (VRef 0) (VInt 7)
     (Demo.gateway_xy, search_env 0)).2.1 =
    set_backends
      [("x", (MCPBackend.start Demo.world (fresh_x, search_env 0)).2.1);
       ("y", fresh_y)]
      Demo.gateway_xy.
Proof.
  apply (limit_zero_visits_first_only Demo.world Demo.gateway_xy (search_env 0)
           0%nat [("query", VStr "t"); ("limit", VInt 0)] "t" (VInt 7));
    [reflexivity|reflexivity|discriminate|reflexivity].
Defined.

End SearchFacts.

(** ** Replies whose id is not the one of the request (C5) *)

Module IdFacts.

Import MCPBackend.

Definition item := SearchFacts.item.

(** *** Replies the adapter builds *)

(** An error reply of the adapter carries the id of the request, [None]
    when the request has none. *)
Lemma error_reply_id code message rl rq b e :
  heap e !! rl = Some (ODict rq) →
  ∃ v σ,
    error_reply code message (VRef rl) (b, e) =
      (Ok v, (b, MkEnv σ (trace e) (clock_reads e))) ∧
    MetaFacts.is_error_reply σ v code message
      (default VNone (Dict.get "id" rq)).
Proof.
  intros Hrq.
  unfold error_reply, bind, lift_env, Py.alloc, Py.get_or_none, Py.get,
    Py.deref, bind, ret. simpl.
  rewrite (lookup_app_l_Some _ _ _ _ Hrq). simpl.
  eexists _, _. split; [reflexivity|]. apply MetaFacts.error_reply_built.
Qed.

(** The stdio child is there and alive. *)
Definition alive (W : World) (b : t) (e : Env) (pid : nat) : Prop :=
  is_http b = false ∧ process b = Some pid ∧
  poll_alive W (trace e) pid = true.

(** A request without ["id"] to a running stdio adapter is written to
    the child and answered at once with a reply that has no ["id"]. *)
Lemma notification_reply W b e rl rq pid line :
  alive W b e pid →
  heap e !! rl = Some (ODict rq) →
  Dict.get "id" rq = None →
  Py.dump_in (heap e) (VRef rl) = Some line →
  stdin_write W (trace e) pid line = Ok tt →
  _send_stdio_request W (VRef rl) (b, e) =
    (Ok (VRef (List.length (heap e))),
     (b, MkEnv (heap e ++ [ODict [("jsonrpc", VStr "2.0"); ("result", VNone)]])
               ((name b, StdinWrite pid line) :: trace e) (clock_reads e))).
Proof.
  intros (Hh & Hp & Ha) Hrq Hid Hdump Hw.
  unfold _send_stdio_request, bind. rewrite BackendFacts.is_running_eq.
  unfold BackendFacts.running. rewrite Hh, Hp, Ha. unfold ret.
  unfold lift_env, Py.contains, Py.deref, bind, ret. simpl.
  rewrite Hrq. simpl. unfold Dict.has. rewrite Hid. simpl.
  unfold try_except, bind, self, lift_env, Py.dump, write_line, io,
    of_result, bind, ret, Py.alloc. simpl.
  rewrite Hp. simpl. rewrite Hdump. simpl. rewrite Hw. simpl. done.
Qed.

(** A request with an ["id"] to a running stdio adapter is answered with
    the line the child sends, as parsed: the id of the reply is the
    child's. *)
Lemma forwarded_reply W b e rl rq pid line id doc :
  alive W b e pid →
  heap e !! rl = Some (ODict rq) →
  Dict.get "id" rq = Some id →
  Py.dump_in (heap e) (VRef rl) = Some line →
  stdin_write W (trace e) pid line = Ok tt →
  stdout_readline W ((name b, StdinWrite pid line) :: trace e) pid 30 =
    RdLine (Ok doc) →
  _send_stdio_request W (VRef rl) (b, e) =
    (Ok (Py.load_in doc (heap e)).1,
     (b, MkEnv (Py.load_in doc (heap e)).2
               ((name b, StdoutReadline pid 30)
                  :: (name b, StdinWrite pid line) :: trace e)
               (clock_reads e))).
Proof.
  intros (Hh & Hp & Ha) Hrq Hid Hdump Hw Hr.
  unfold _send_stdio_request, bind. rewrite BackendFacts.is_running_eq.
  unfold BackendFacts.running. rewrite Hh, Hp, Ha. unfold ret.
  unfold lift_env, Py.contains, Py.deref, bind, ret. simpl.
  rewrite Hrq. simpl. unfold Dict.has. rewrite Hid. simpl.
  unfold try_except, bind, self, lift_env, Py.dump, write_line, read_line,
    io, of_result, bind, ret, Py.load. simpl.
  rewrite Hp. simpl. rewrite Hdump. simpl. rewrite Hw. simpl.
  rewrite Hr. simpl. by destruct (Py.load_in doc (heap e)).
Qed.

(** *** Replies the router builds *)

Definition error_doc (code : Z) (message : string) (id : json) : json :=
  JObj [("jsonrpc", JStr "2.0");
        ("error", JObj [("code", JNum code); ("message", JStr message)]);
        ("id", id)].

Lemma dump_error_reply (σ : list pyobj) v code message :
  MetaFacts.is_error_reply σ v code message VNone →
  Py.dump_in σ v = Some (error_doc code message JNull).
Proof.
  intros (l & le & -> & Hl & Hle). unfold Py.dump_in. simpl. rewrite Hl.
  destruct (List.length σ) as [|n] eqn:Hn.
  { apply length_zero_iff_nil in Hn. by subst. }
  simpl. rewrite Hle. by destruct n.
Qed.

(** A request for a backend that is not registered is answered with
    status 404, the error [-32001] and the id [null], whatever the
    request says. *)
Lemma unknown_backend_reply W request g e :
  match_name request ≠ "" →
  Gateway.index_of (match_name request) (Gateway.backends g) 0 = None →
  ∃ e',
    Gateway._handle_mcp W request (g, e) =
      (Ok (WebResponse 404
             (error_doc (-32001)
                ("Unknown backend: " +:+ match_name request) JNull)),
       (g, e')) ∧
    trace e' = trace e.
Proof.
  intros Hname Hnone. unfold Gateway._handle_mcp.
  destruct (String.eqb_spec (match_name request) ""); [done|].
  unfold bind, Gateway.self. simpl. rewrite Hnone.
  unfold bind, lift_env, Gateway.error_response, bind, Py.alloc,
    Gateway.json_response, bind, lift_env, Py.dump, ret. simpl.
  rewrite (dump_error_reply _ _ (-32001)
             ("Unknown backend: " +:+ match_name request)).
  2:{ apply MetaFacts.error_reply_built. }
  simpl. by eexists.
Qed.

(** *** The claim *)

(** A request for the backend [ghost], which is not registered. *)
Definition ghost_request : web_request :=
  WebRequest "ghost" (Ok (Demo.request "tools/list" (JNum 1))).

Definition ghost_reply : result web_response * (Gateway.t * Env) :=
  Eval vm_compute in
    Gateway._handle_mcp Demo.world ghost_request
      (Demo.gateway_xy, Demo.empty_env).

(** The running adapter [x] receives a notification, then a call. *)
Definition notified : pyval * (t * Env) :=
  Eval vm_compute in
    Demo.receive (JObj [("jsonrpc", JStr "2.0");
                        ("method", JStr "notifications/initialized")])
                 Demo.started_x.

Definition notified_reply : result pyval * (t * Env) :=
  Eval vm_compute in send_request Demo.world notified.1 notified.2.

Definition called : pyval * (t * Env) :=
  Eval vm_compute in
    Demo.receive (Demo.request "tools/call" (JNum 5)) Demo.started_x.

Definition called_reply : result pyval * (t * Env) :=
  Eval vm_compute in send_request Demo.world called.1 called.2.


End IdFacts.

(** ** Expansion of environment variables *)

Module ExpandFacts.

Lemma until_brace_split s : s = (until_brace s).1 +:+ (until_brace s).2.
Proof.
  induction s as [|c s IH]; [done|]. simpl.
  destruct (Ascii.eqb c "}"); [done|].
  destruct (until_brace s) as [run rest]. simpl in *.
  by rewrite StrFacts.app_cons, <- IH.
Qed.

(** What follows the run is empty or starts with the closing brace. *)
Lemma until_brace_rest s c rest :
  (until_brace s).2 = String c rest → c = "}"%char.
Proof.
  induction s as [|a s IH]; [done|]. simpl.
  destruct (Ascii.eqb_spec a "}") as [->|Ha].
  - by intros [= <- _].
  - destruct (until_brace s) as [run r]. simpl in *. exact IH.
Qed.

Lemma contains_char_cons d c s :
  Str.contains (String d "") (String c s) =
  Ascii.eqb d c || Str.contains (String d "") s.
Proof. cbn [Str.contains Str.startswith]. by rewrite andb_true_r. Qed.

Lemma until_brace_run name post :
  Str.contains "}" name = false →
  until_brace (name +:+ String "}" post) = (name, String "}" post).
Proof.
  induction name as [|c name IH]; [done|]. intros H.
  rewrite StrFacts.app_cons. rewrite contains_char_cons in H.
  apply orb_false_iff in H as [Hc Hn].
  cbn [until_brace]. rewrite Ascii.eqb_sym, Hc.
  by rewrite (IH Hn).
Qed.

Lemma ident_run_split s : s = (ident_run s).1 +:+ (ident_run s).2.
Proof.
  induction s as [|c s IH]; [done|]. simpl.
  destruct (is_ident_char c); [|done].
  destruct (ident_run s) as [run rest]. simpl in *.
  by rewrite StrFacts.app_cons, <- IH.
Qed.

(** Every character of [s] is an identifier character. *)
Fixpoint all_ident (s : string) : bool :=
  match s with
  | EmptyString => true
  | String c s' => is_ident_char c && all_ident s'
  end.

(** [s] does not go on with an identifier character. *)
Definition ident_ends (s : string) : bool :=
  match s with
  | EmptyString => true
  | String c _ => negb (is_ident_char c)
  end.

Lemma ident_run_run name post :
  all_ident name = true → ident_ends post = true →
  ident_run (name +:+ post) = (name, post).
Proof.
  intros Hn Hp. induction name as [|c name IH].
  - rewrite StrFacts.app_nil_l. destruct post as [|c post]; [done|].
    simpl in *. by apply negb_true_iff in Hp as ->.
  - rewrite StrFacts.app_cons. simpl in *.
    apply andb_true_iff in Hn as [-> Hn]. by rewrite (IH Hn).
Qed.

(** A match is a prefix of the text, and starts with the dollar sign. *)
Lemma match_var_prefix s var_name whole :
  match_var s = Some (var_name, whole) →
  ∃ w rest, whole = String "$" w ∧ s = whole +:+ rest.
Proof.
  unfold match_var.
  destruct s as [|d [|c s]]; [done|done|].
  destruct (Ascii.eqb_spec d "$") as [->|Hd]; [|done]. simpl.
  destruct (Ascii.eqb_spec c "{") as [->|Hc].
  - pose proof (until_brace_split s) as Hs.
    pose proof (until_brace_rest s) as Hr.
    destruct (until_brace s) as [[|x run] [|r rest]]; try done.
    intros [= <- <-]. simpl in *. rewrite (Hr r rest eq_refl) in Hs.
    eexists _, rest. split; [reflexivity|].
    rewrite Hs at 1. rewrite !StrFacts.app_cons, StrFacts.app_nil_l.
    rewrite !StrFacts.app_cons. do 3 f_equal.
    by rewrite StrFacts.app_assoc.
  - destruct (is_ident_start c); [|done]. intros [= <- <-].
    eexists _, (ident_run s).2. split; [reflexivity|].
    rewrite !StrFacts.app_cons, StrFacts.app_nil_l, StrFacts.app_cons.
    do 2 f_equal. apply ident_run_split.
Qed.

Lemma length_app (a b : string) :
  String.length (a +:+ b) = (String.length a + String.length b)%nat.
Proof.
  induction a as [|c a IH]; [done|]. rewrite StrFacts.app_cons. simpl.
  by rewrite IH.
Qed.

(** The scan resumes after the text it passes over. *)
Lemma expand_from_skip environ m rest :
  expand_from environ (String.length m) (m +:+ rest) =
  expand_from environ 0 rest.
Proof.
  induction m as [|c m IH]; [by destruct rest|].
  rewrite StrFacts.app_cons. simpl. exact IH.
Qed.

(** A character other than the dollar sign starts no match. *)
Lemma match_var_other c s : Ascii.eqb c "$" = false → match_var (String c s) = None.
Proof. intros H. unfold match_var. destruct s; [done|]. by rewrite H. Qed.

(** Text without a dollar sign is copied, and the scan goes on. *)
Lemma expand_from_plain environ pre t :
  Str.contains "$" pre = false →
  expand_from environ 0 (pre +:+ t) = pre +:+ expand_from environ 0 t.
Proof.
  induction pre as [|c pre IH]; [done|]. intros H.
  rewrite !StrFacts.app_cons. rewrite contains_char_cons in H.
  apply orb_false_iff in H as [Hc Hp].
  rewrite Ascii.eqb_sym in Hc.
  change (expand_from environ 0 (String c (pre +:+ t)))
    with (match match_var (String c (pre +:+ t)) with
          | Some (var_name, whole) =>
              default whole (SDict.get var_name environ) +:+
              expand_from environ (String.length whole - 1) (pre +:+ t)
          | None => String c (expand_from environ 0 (pre +:+ t))
          end).
  rewrite (match_var_other c _ Hc). by rewrite (IH Hp).
Qed.

(** A match at the head of the text is replaced, once, and the scan
    resumes after the matched text. *)
Lemma expand_from_match environ var_name w rest :
  match_var (String "$" w +:+ rest) = Some (var_name, String "$" w) →
  expand_from environ 0 (String "$" w +:+ rest) =
    default (String "$" w) (SDict.get var_name environ) +:+
    expand_from environ 0 rest.
Proof.
  intros Hm. rewrite StrFacts.app_cons in *.
  change (expand_from environ 0 (String "$" (w +:+ rest)))
    with (match match_var (String "$" (w +:+ rest)) with
          | Some (var_name, whole) =>
              default whole (SDict.get var_name environ) +:+
              expand_from environ (String.length whole - 1) (w +:+ rest)
          | None => String "$" (expand_from environ 0 (w +:+ rest))
          end).
  rewrite Hm.
  replace (String.length (String "$" w) - 1)%nat with (String.length w)
    by (cbn [String.length]; lia).
  by rewrite expand_from_skip.
Qed.

Lemma expand_without_dollar_eq environ value :
  Str.contains "$" value = false → expand_env_vars environ value = value.
Proof.
  intros Hplain. unfold expand_env_vars.
  rewrite <- (StrFacts.app_empty_r value) at 1.
  rewrite (expand_from_plain environ value "" Hplain).
  apply StrFacts.app_empty_r.
Qed.

(** X1: Text in which no dollar sign occurs is returned as it is. *)
Theorem expand_without_dollar environ value
    (Hplain : Str.contains "$" value = false) :
  expand_env_vars environ value = value.
Proof. by apply expand_without_dollar_eq. Qed.

Lemma expand_without_dollar_witness :
  expand_env_vars [("HOME", "/root")] "no variables here" = "no variables here".
Proof. apply expand_without_dollar. reflexivity. Defined.

(** X2: A braced reference that follows text without a dollar sign is
    replaced by the value of the variable, and left as written when the
    variable is not set; the value is inserted as it is, and the scan
    goes on with what follows the closing brace. *)
Theorem expand_braced_reference environ pre var_name post
    (Hpre : Str.contains "$" pre = false)
    (Hname : var_name ≠ "")
    (Hbrace : Str.contains "}" var_name = false) :
  expand_env_vars environ (pre +:+ "${" +:+ var_name +:+ "}" +:+ post) =
    pre +:+ default ("${" +:+ var_name +:+ "}") (SDict.get var_name environ)
        +:+ expand_env_vars environ post.
Proof.
  unfold expand_env_vars. rewrite (expand_from_plain environ pre _ Hpre).
  f_equal.
  assert (Hshape : "${" +:+ var_name +:+ "}" +:+ post =
                   String "$" ("{" +:+ var_name +:+ "}") +:+ post).
  { change ("${" +:+ var_name +:+ "}" +:+ post)
      with (String "$" (String "{" (var_name +:+ String "}" post))).
    change (String "$" ("{" +:+ var_name +:+ "}") +:+ post)
      with (String "$" (String "{" ((var_name +:+ "}") +:+ post))).
    by rewrite StrFacts.app_assoc. }
  rewrite Hshape.
  change ("${" +:+ var_name +:+ "}")
    with (String "$" ("{" +:+ var_name +:+ "}")).
  apply expand_from_match. rewrite <- Hshape.
  change ("${" +:+ var_name +:+ "}" +:+ post)
    with (String "$" (String "{" (var_name +:+ String "}" post))).
  unfold match_var. rewrite Ascii.eqb_refl. cbn [negb].
  rewrite Ascii.eqb_refl, (until_brace_run var_name post Hbrace).
  by destruct var_name as [|x run].
Qed.

Lemma expand_braced_reference_witness :
  expand_env_vars [("TEST_VAR", "test_value")]
    ("prefix_" +:+ "${" +:+ "TEST_VAR" +:+ "}" +:+ "_suffix") =
    "prefix_" +:+ default ("${" +:+ "TEST_VAR" +:+ "}")
                    (SDict.get "TEST_VAR" [("TEST_VAR", "test_value")])
              +:+ expand_env_vars [("TEST_VAR", "test_value")] "_suffix".
Proof.
  apply (expand_braced_reference [("TEST_VAR", "test_value")] "prefix_"
           "TEST_VAR" "_suffix"); [reflexivity|discriminate|reflexivity].
Defined.

(** X3: A bare reference, a dollar sign and the longest identifier after
    it, is replaced in the same way. *)
Theorem expand_bare_reference environ pre c id post
    (Hpre : Str.contains "$" pre = false)
    (Hstart : is_ident_start c = true)
    (Hid : all_ident id = true)
    (Hend : ident_ends post = true) :
  expand_env_vars environ (pre +:+ "$" +:+ String c id +:+ post) =
    pre +:+ default ("$" +:+ String c id) (SDict.get (String c id) environ)
        +:+ expand_env_vars environ post.
Proof.
  unfold expand_env_vars. rewrite (expand_from_plain environ pre _ Hpre).
  f_equal.
  replace ("$" +:+ String c id +:+ post) with (String "$" (String c id) +:+ post)
    by done.
  replace ("$" +:+ String c id) with (String "$" (String c id)) by done.
  apply expand_from_match.
  rewrite !StrFacts.app_cons. unfold match_var.
  rewrite Ascii.eqb_refl. cbn [negb].
  assert (Hc : Ascii.eqb c "{" = false).
  { apply Ascii.eqb_neq. intros ->. done. }
  rewrite Hc, Hstart, (ident_run_run id post Hid Hend). done.
Qed.

Lemma expand_bare_reference_witness :
  expand_env_vars [("MYVAR", "my/path")]
    ("prefix/" +:+ "$" +:+ String "M" "YVAR" +:+ "/suffix") =
    "prefix/" +:+ default ("$" +:+ String "M" "YVAR")
                    (SDict.get (String "M" "YVAR") [("MYVAR", "my/path")])
              +:+ expand_env_vars [("MYVAR", "my/path")] "/suffix".
Proof.
  apply (expand_bare_reference [("MYVAR", "my/path")] "prefix/" "M" "YVAR"
           "/suffix"); reflexivity.
Defined.

Lemma drop_app m rest : Str.drop (String.length m) (m +:+ rest) = rest.
Proof.
  induction m as [|c m IH]; [by destruct rest|].
  by rewrite StrFacts.app_cons.
Qed.

Lemma expand_from_unset skip s :
  (skip <= String.length s)%nat → expand_from [] skip s = Str.drop skip s.
Proof.
  revert skip. induction s as [|c s IH]; intros skip Hskip.
  - by destruct skip.
  - destruct skip as [|k].
    + change (expand_from [] 0 (String c s))
        with (match match_var (String c s) with
              | Some (var_name, whole) =>
                  default whole (SDict.get var_name []) +:+
                  expand_from [] (String.length whole - 1) s
              | None => String c (expand_from [] 0 s)
              end).
      destruct (match_var (String c s)) as [[var_name whole]|] eqn:Hm.
      * apply match_var_prefix in Hm as (w & rest & -> & Hs).
        rewrite StrFacts.app_cons in Hs. injection Hs as -> ->.
        replace (String.length (String "$" w) - 1)%nat with (String.length w)
          by (cbn [String.length]; lia).
        rewrite IH by (rewrite length_app; lia).
        rewrite drop_app. reflexivity.
      * rewrite (IH 0%nat) by lia. done.
    + cbn [expand_from Str.drop]. apply IH. simpl in Hskip. lia.
Qed.

(** X4: With no variable set, every text is returned as it is: references
    to variables that are not set are left as written. *)
Theorem expand_nothing_set value : expand_env_vars [] value = value.
Proof. unfold expand_env_vars. by rewrite expand_from_unset by lia. Qed.

End ExpandFacts.

(** ** Construction of a backend configuration *)

Module ConstructFacts.

Import BackendConfig.

(** No dollar sign occurs in the text, when there is one. *)
Definition plain (v : option string) : Prop :=
  match v with
  | Some s => Str.contains "$" s = false
  | None => True
  end.

Definition plain_values (d : SDict.t) : Prop :=
  Forall (λ kv, Str.contains "$" kv.2 = false) d.

Lemma expand_env_plain environ v : plain v → expand_env environ v = v.
Proof.
  destruct v as [s|]; [|done]. simpl. intros H.
  by rewrite ExpandFacts.expand_without_dollar_eq.
Qed.

Lemma expand_dict_values_plain environ d :
  plain_values d → expand_dict_values environ d = d.
Proof.
  induction 1 as [|[k v] d Hv _ IH]; [done|].
  unfold expand_dict_values in *. cbn [map fst snd] in *.
  by rewrite IH, ExpandFacts.expand_without_dollar_eq.
Qed.

(** X5: Fields in which no dollar sign occurs are taken as they are,
    whatever the environment holds; the construction then succeeds
    exactly when the idle timeout is not negative and a command or a
    URL is given, and what it returns are the fields. *)
Theorem construction_of_plain_fields environ fields
    (Hcommand : plain (command fields))
    (Hurl : plain (http_url fields))
    (Hcwd : plain (cwd fields))
    (Henv : plain_values (env fields))
    (Hheaders : plain_values (headers fields)) :
  (new environ fields = Ok fields ↔
     0 <= idle_timeout fields ∧
     (command fields ≠ None ∨ http_url fields ≠ None)) ∧
  (∀ c, new environ fields = Ok c → c = fields).
Proof.
  unfold new.
  rewrite !expand_env_plain, !expand_dict_values_plain by done.
  replace (Make (name fields) (description fields) (command fields)
             (http_url fields) (env fields) (headers fields) (cwd fields)
             (idle_timeout fields) (enabled fields)) with fields
    by by destruct fields.
  unfold create.
  destruct (Z.ltb_spec (idle_timeout fields) 0) as [Hneg|Hpos].
  - split; [|done]. split; [done|]. intros [? _]. lia.
  - split.
    + rewrite ConfigFacts.validate_transport_accepts. split; [by split|].
      by intros [_ ?].
    + intros c. unfold validate_transport.
      destruct (_ && _); [done|]. by intros [= <-].
Qed.

Lemma construction_of_plain_fields_witness :
  (new [("HOME", "/root")] (Demo.stdio_config "x" "run-x") =
     Ok (Demo.stdio_config "x" "run-x") ↔
   0 <= idle_timeout (Demo.stdio_config "x" "run-x") ∧
   (command (Demo.stdio_config "x" "run-x") ≠ None ∨
    http_url (Demo.stdio_config "x" "run-x") ≠ None)) ∧
  (∀ c, new [("HOME", "/root")] (Demo.stdio_config "x" "run-x") = Ok c →
        c = Demo.stdio_config "x" "run-x").
Proof.
  apply (construction_of_plain_fields [("HOME", "/root")]
           (Demo.stdio_config "x" "run-x"));
    first [reflexivity | exact I | constructor].
Defined.

End ConstructFacts.

(** ** Parsing and printing documents *)

Module JsonFacts.

(** *** Induction on documents *)

Section JsonInd.

Variable P : json → Prop.
Hypothesis Hnull : P JNull.
Hypothesis Hbool : ∀ b, P (JBool b).
Hypothesis Hnum : ∀ n, P (JNum n).
Hypothesis Hstr : ∀ s, P (JStr s).
Hypothesis Harr : ∀ items, Forall P items → P (JArr items).
Hypothesis Hobj : ∀ fields, Forall (λ kv, P kv.2) fields → P (JObj fields).

Fixpoint json_nested_ind (j : json) : P j :=
  match j with
  | JNull => Hnull
  | JBool b => Hbool b
  | JNum n => Hnum n
  | JStr s => Hstr s
  | JArr items =>
      Harr items
        ((fix go (l : list json) : Forall P l :=
            match l with
            | [] => @List.Forall_nil _ P
            | x :: l' => @List.Forall_cons _ P x l' (json_nested_ind x) (go l')
            end) items)
  | JObj fields =>
      Hobj fields
        ((fix go (l : list (string * json)) : Forall (λ kv, P kv.2) l :=
            match l with
            | [] => @List.Forall_nil _ (λ kv, P kv.2)
            | x :: l' =>
                @List.Forall_cons _ (λ kv, P kv.2) x l' (json_nested_ind x.2) (go l')
            end) fields)
  end.

End JsonInd.

(** *** The two loops of [load_in] *)

Fixpoint load_list (js : list json) (σ : list pyobj) : list pyval * list pyobj :=
  match js with
  | [] => ([], σ)
  | j :: js' =>
      let '(v, σ1) := Py.load_in j σ in
      let '(vs, σ2) := load_list js' σ1 in
      (v :: vs, σ2)
  end.

Fixpoint load_fields (kjs : list (string * json)) (d : Dict.t) (σ : list pyobj)
  : Dict.t * list pyobj :=
  match kjs with
  | [] => (d, σ)
  | (k, j) :: kjs' =>
      let '(v, σ1) := Py.load_in j σ in
      load_fields kjs' (Dict.set k v d) σ1
  end.

Lemma load_in_arr items σ :
  Py.load_in (JArr items) σ =
    (VRef (List.length (load_list items σ).2),
     (load_list items σ).2 ++ [OList (load_list items σ).1]).
Proof.
  change (Py.load_in (JArr items) σ)
    with (let '(vs, σ1) := load_list items σ in
          (VRef (List.length σ1), σ1 ++ [OList vs])).
  by destruct (load_list items σ).
Qed.

Lemma load_in_obj fields σ :
  Py.load_in (JObj fields) σ =
    (VRef (List.length (load_fields fields [] σ).2),
     (load_fields fields [] σ).2 ++ [ODict (load_fields fields [] σ).1]).
Proof.
  change (Py.load_in (JObj fields) σ)
    with (let '(d, σ1) := load_fields fields [] σ in
          (VRef (List.length σ1), σ1 ++ [ODict d])).
  by destruct (load_fields fields [] σ).
Qed.

(** *** Parsing only adds objects *)

Lemma load_in_extends j : ∀ σ, ∃ new, (Py.load_in j σ).2 = σ ++ new.
Proof.
  induction j as [| | | |items IH|fields IH] using json_nested_ind; intros σ;
    try (exists []; by rewrite app_nil_r).
  - rewrite load_in_arr. cbn [snd].
    assert (Hl : ∃ new, (load_list items σ).2 = σ ++ new).
    { revert σ. induction IH as [|j items Hj _ IHl]; intros σ.
      - exists []. by rewrite app_nil_r.
      - simpl. destruct (Hj σ) as [n1 H1].
        destruct (Py.load_in j σ) as [v σ1]. simpl in H1. subst σ1.
        destruct (IHl (σ ++ n1)) as [n2 H2].
        destruct (load_list items (σ ++ n1)) as [vs σ2]. simpl in *. subst σ2.
        exists (n1 ++ n2). by rewrite app_assoc. }
    destruct Hl as [new ->]. eexists. by rewrite <- app_assoc.
  - rewrite load_in_obj. cbn [snd].
    assert (Hl : ∀ d, ∃ new, (load_fields fields d σ).2 = σ ++ new).
    { revert σ. induction IH as [|[k j] fields Hj _ IHl]; intros σ d.
      - exists []. by rewrite app_nil_r.
      - simpl in *. destruct (Hj σ) as [n1 H1].
        destruct (Py.load_in j σ) as [v σ1]. simpl in H1. subst σ1.
        destruct (IHl (σ ++ n1) (Dict.set k v d)) as [n2 H2].
        rewrite H2. exists (n1 ++ n2). by rewrite app_assoc. }
    destruct (Hl []) as [new ->]. eexists. by rewrite <- app_assoc.
Qed.

Lemma load_in_keeps j σ l o :
  σ !! l = Some o → (Py.load_in j σ).2 !! l = Some o.
Proof.
  intros H. destruct (load_in_extends j σ) as [new ->].
  by apply lookup_app_l_Some.
Qed.

(** *** Parsing and printing *)

(** No object of the document has two items with the same key. *)
Fixpoint fresh_keys (kjs : list (string * json)) : bool :=
  match kjs with
  | [] => true
  | (k, _) :: kjs' =>
      negb (existsb (λ kj, String.eqb k kj.1) kjs') && fresh_keys kjs'
  end.

Fixpoint distinct_keys (j : json) : bool :=
  match j with
  | JArr items => forallb distinct_keys items
  | JObj fields =>
      fresh_keys fields && forallb (λ kj, distinct_keys kj.2) fields
  | _ => true
  end.

(** [v] prints as [j] in [σ] and in every store that extends it. *)
Definition represents (σ : list pyobj) (v : pyval) (j : json) : Prop :=
  ∀ m τ, (List.length σ <= m)%nat → Py.dump_fuel m (σ ++ τ) v = Some j.

Lemma represents_extends (σ ρ : list pyobj) v j :
  represents σ v j → represents (σ ++ ρ) v j.
Proof.
  intros H m τ Hm. rewrite <- app_assoc. apply H.
  rewrite length_app in Hm. lia.
Qed.

Lemma represents_dump_in (σ τ : list pyobj) v j :
  represents σ v j → Py.dump_in (σ ++ τ) v = Some j.
Proof.
  intros H. unfold Py.dump_in. apply H. rewrite length_app. lia.
Qed.

Lemma mapM_opt_Forall2 {A B} (f : A → option B) l l' :
  Forall2 (λ a b, f a = Some b) l l' → Py.mapM_opt f l = Some l'.
Proof.
  induction 1 as [|a b l l' Hab _ IH]; [done|]. simpl. by rewrite Hab, IH.
Qed.

Lemma set_fresh k v (d : Dict.t) :
  existsb (λ kv, String.eqb k kv.1) d = false → Dict.set k v d = d ++ [(k, v)].
Proof.
  induction d as [|[k' v'] d IH]; [done|]. simpl. intros H.
  apply orb_false_iff in H as [-> H]. by rewrite IH.
Qed.

Lemma load_list_represents items :
  Forall (λ j, distinct_keys j = true →
               ∀ σ, represents (Py.load_in j σ).2 (Py.load_in j σ).1 j) items →
  forallb distinct_keys items = true →
  ∀ σ, Forall2 (represents (load_list items σ).2) (load_list items σ).1 items.
Proof.
  induction 1 as [|j items Hj _ IH]; intros Hd σ; [constructor|].
  simpl in Hd. apply andb_true_iff in Hd as [Hdj Hd]. simpl.
  specialize (Hj Hdj σ). specialize (IH Hd).
  destruct (Py.load_in j σ) as [v σ1]. simpl in Hj.
  specialize (IH σ1).
  destruct (load_in_extends (JArr items) σ1) as [new Hnew].
  assert (Hext : ∃ ρ, (load_list items σ1).2 = σ1 ++ ρ).
  { clear. revert σ1. induction items as [|j items IH]; intros σ1.
    - exists []. by rewrite app_nil_r.
    - simpl. destruct (load_in_extends j σ1) as [n1 H1].
      destruct (Py.load_in j σ1) as [v σ2]. simpl in H1. subst σ2.
      destruct (IH (σ1 ++ n1)) as [n2 H2].
      destruct (load_list items (σ1 ++ n1)) as [vs σ3]. simpl in *. subst.
      exists (n1 ++ n2). by rewrite app_assoc. }
  destruct (load_list items σ1) as [vs σ2]. simpl in *.
  destruct Hext as [ρ ->].
  constructor; [by apply represents_extends|done].
Qed.

Lemma load_fields_represents fields :
  Forall (λ kj, distinct_keys kj.2 = true →
                ∀ σ, represents (Py.load_in kj.2 σ).2 (Py.load_in kj.2 σ).1 kj.2)
         fields →
  fresh_keys fields = true →
  forallb (λ kj, distinct_keys kj.2) fields = true →
  ∀ d σ,
    (∀ kj, kj ∈ fields → existsb (λ kv, String.eqb kj.1 kv.1) d = false) →
    ∃ new ρ,
      (load_fields fields d σ).1 = d ++ new ∧
      (load_fields fields d σ).2 = σ ++ ρ ∧
      Forall2 (λ kv kj, kv.1 = kj.1 ∧
                        represents (load_fields fields d σ).2 kv.2 kj.2)
              new fields.
Proof.
  induction 1 as [|[k j] fields Hj _ IH]; intros Hf Hd d σ Hfresh.
  - exists [], []. simpl. rewrite !app_nil_r. repeat split. constructor.
  - simpl in *. apply andb_true_iff in Hf as [Hk Hf].
    apply andb_true_iff in Hd as [Hdj Hd].
    apply negb_true_iff in Hk.
    specialize (Hj Hdj σ). destruct (load_in_extends j σ) as [n1 H1].
    destruct (Py.load_in j σ) as [v σ1]. simpl in *. subst σ1.
    rewrite (set_fresh k v d) by (apply (Hfresh (k, j)); constructor).
    destruct (IH Hf Hd (d ++ [(k, v)]) (σ ++ n1)) as (new & ρ & E1 & E2 & HF).
    { intros [k' j'] Hin. simpl. rewrite existsb_app. apply orb_false_iff.
      split; [apply (Hfresh (k', j')); by constructor|].
      simpl. rewrite orb_false_r.
      destruct (String.eqb_spec k' k) as [->|]; [|done].
      assert (existsb (λ kj, String.eqb k kj.1) fields = true); [|congruence].
      apply existsb_exists. exists (k, j'). split; [|apply String.eqb_refl].
      by apply list_elem_of_In. }
    exists ((k, v) :: new), (n1 ++ ρ).
    split; [by rewrite E1, <- app_assoc|].
    split; [by rewrite E2, <- app_assoc|].
    constructor; [|done]. split; [done|]. simpl.
    rewrite E2. by apply represents_extends.
Qed.

Lemma dump_fuel_scalar m (σ : list pyobj) v :
  match v with VRef _ => False | _ => True end →
  Py.dump_fuel m σ v =
    match v with
    | VNone => Some JNull
    | VBool b => Some (JBool b)
    | VInt z => Some (JNum z)
    | VStr s => Some (JStr s)
    | VRef _ => None
    end.
Proof. by destruct m, v. Qed.

(** What [json.loads] builds prints as the document it was built
    from. *)
Lemma load_represents j :
  distinct_keys j = true →
  ∀ σ, represents (Py.load_in j σ).2 (Py.load_in j σ).1 j.
Proof.
  induction j as [| | | |items IH|fields IH] using json_nested_ind;
    intros Hd σ; try (intros m τ _; by destruct m).
  - rewrite load_in_arr. cbn [fst snd].
    pose proof (load_list_represents items IH Hd σ) as HF.
    destruct (load_list items σ) as [vs σ1]. cbn [fst snd] in *.
    intros m τ Hm. rewrite length_app in Hm. simpl in Hm.
    destruct m as [|m]; [lia|]. cbn [Py.dump_fuel].
    rewrite <- app_assoc. cbn [app]. rewrite list_lookup_middle by done.
    rewrite (mapM_opt_Forall2 _ vs items); [done|].
    eapply Forall2_impl; [exact HF|]. intros v j Hv. apply Hv. lia.
  - rewrite load_in_obj. cbn [fst snd].
    simpl in Hd. apply andb_true_iff in Hd as [Hf Hd].
    destruct (load_fields_represents fields IH Hf Hd [] σ)
      as (new & ρ & E1 & E2 & HF); [done|].
    destruct (load_fields fields [] σ) as [d σ1]. cbn [fst snd] in *.
    simpl in E1. subst d.
    intros m τ Hm. rewrite length_app in Hm. simpl in Hm.
    destruct m as [|m]; [lia|]. cbn [Py.dump_fuel].
    rewrite <- app_assoc. cbn [app]. rewrite list_lookup_middle by done.
    rewrite (mapM_opt_Forall2 _ new fields); [done|].
    eapply Forall2_impl; [exact HF|]. intros [k v] [k' j] [Hk Hv].
    simpl in *. subst k'. rewrite Hv by lia. done.
Qed.

(** *** Printing in a larger store *)

Lemma mapM_opt_impl {A B} (f g : A → option B) l bs :
  (∀ a b, a ∈ l → f a = Some b → g a = Some b) →
  Py.mapM_opt f l = Some bs → Py.mapM_opt g l = Some bs.
Proof.
  revert bs. induction l as [|a l IH]; intros bs Hfg; [done|]. simpl.
  destruct (f a) as [b|] eqn:Hfa; [|done].
  destruct (Py.mapM_opt f l) as [bs'|] eqn:Hl; [|done].
  intros [= <-]. rewrite (Hfg a b) by (done || constructor).
  rewrite (IH bs'); [done| |done].
  intros a' b' Hin. apply Hfg. by constructor.
Qed.

Lemma dump_fuel_mono n : ∀ m (σ τ : list pyobj) v j,
  (n <= m)%nat →
  Py.dump_fuel n σ v = Some j → Py.dump_fuel m (σ ++ τ) v = Some j.
Proof.
  induction n as [|n IH]; intros m σ τ v j Hm.
  - destruct v, m; try done.
  - destruct m as [|m]; [lia|].
    destruct v as [| | | |l]; try done. cbn [Py.dump_fuel].
    destruct (σ !! l) as [o|] eqn:Hl; [|done].
    rewrite (lookup_app_l_Some _ _ _ _ Hl).
    destruct o as [d|vs].
    + destruct (Py.mapM_opt _ d) as [kjs|] eqn:Hd; [|done].
      intros [= <-].
      assert (Hd' :
        Py.mapM_opt (λ kv, match Py.dump_fuel m (σ ++ τ) kv.2 with
                           | Some j => Some (kv.1, j)
                           | None => None
                           end) d = Some kjs).
      { eapply mapM_opt_impl; [|exact Hd].
        intros [k v] kj _. simpl.
        destruct (Py.dump_fuel n σ v) as [j|] eqn:Hv; [|done].
        intros [= <-]. by rewrite (IH m σ τ v j) by (lia || done). }
      by rewrite Hd'.
    + destruct (Py.mapM_opt _ vs) as [js|] eqn:Hvs; [|done].
      intros [= <-].
      assert (Hvs' : Py.mapM_opt (Py.dump_fuel m (σ ++ τ)) vs = Some js).
      { eapply mapM_opt_impl; [|exact Hvs].
        intros v j _ Hv. apply IH; [lia|done]. }
      by rewrite Hvs'.
Qed.

(** What prints as [j] still does after objects were added. *)
Lemma dump_in_extends (σ τ : list pyobj) v j :
  Py.dump_in σ v = Some j → Py.dump_in (σ ++ τ) v = Some j.
Proof.
  unfold Py.dump_in. apply dump_fuel_mono. rewrite length_app. lia.
Qed.

(** *** The items of a parsed object *)

(** [fields[k]] *)
Fixpoint member (k : string) (fields : list (string * json)) : option json :=
  match fields with
  | [] => None
  | (k', j) :: fields' => if String.eqb k k' then Some j else member k fields'
  end.

(** The dict [d] holds, key by key and in the same order, values that
    print as the items of [fields]. *)
Definition holds_fields (σ : list pyobj) (d : Dict.t)
    (fields : list (string * json)) : Prop :=
  Forall2 (λ kv kj, kv.1 = kj.1 ∧ represents σ kv.2 kj.2) d fields.

Lemma load_object fields σ :
  distinct_keys (JObj fields) = true →
  ∃ d ρ,
    Py.load_in (JObj fields) σ =
      (VRef (List.length (σ ++ ρ)), (σ ++ ρ) ++ [ODict d]) ∧
    holds_fields (σ ++ ρ) d fields.
Proof.
  intros Hd. rewrite load_in_obj.
  simpl in Hd. apply andb_true_iff in Hd as [Hf Hd].
  destruct (load_fields_represents fields) with (d := [] : Dict.t) (σ := σ)
    as (new & ρ & E1 & E2 & HF); try done.
  { apply Forall_forall. intros [k j] _ Hj σ0. by apply load_represents. }
  exists new, ρ. rewrite E1, E2. split; [done|]. by rewrite <- E2.
Qed.

Lemma holds_fields_absent (σ : list pyobj) d fields k :
  holds_fields σ d fields → member k fields = None → Dict.get k d = None.
Proof.
  induction 1 as [|[k1 v] [k2 j] d fields [Hk _] _ IH]; [done|].
  simpl in *. subst k2. destruct (String.eqb k k1); [done|exact IH].
Qed.

Lemma holds_fields_present (σ : list pyobj) d fields k j :
  holds_fields σ d fields → member k fields = Some j →
  ∃ v, Dict.get k d = Some v ∧ represents σ v j.
Proof.
  induction 1 as [|[k1 v] [k2 j2] d fields [Hk Hv] _ IH]; [done|].
  simpl in *. subst k2. destruct (String.eqb k k1); [|exact IH].
  intros [= <-]. by exists v.
Qed.

(** A value that prints as a string is that string. *)
Lemma represents_str (σ : list pyobj) v s : represents σ v (JStr s) → v = VStr s.
Proof.
  intros H. specialize (H (S (List.length σ)) [] ltac:(lia)).
  destruct v as [| | | |l]; simpl in H; try congruence.
  rewrite app_nil_r in H.
  destruct (σ !! l) as [[d|vs]|]; [| |done].
  - by destruct (Py.mapM_opt _ d).
  - by destruct (Py.mapM_opt _ vs).
Qed.

End JsonFacts.

(** ** What stays in the store *)

Module StoreFacts.

Import MCPBackend.

(** The object [o] is stored at [l]. *)
Definition stored (l : nat) (o : pyobj) (e : Env) : Prop := heap e !! l = Some o.

(** The same, for a computation that runs on an adapter or on the
    registry. *)
Definition holds {X} (l : nat) (o : pyobj) (s : X * Env) : Prop := stored l o s.2.

(** *** Operations on the store that keep what is stored *)

Lemma alloc_stored l o x : keeps (stored l o) (Py.alloc x).
Proof. intros e H. by apply lookup_app_l_Some. Qed.

Lemma deref_stored l o p : keeps (stored l o) (Py.deref p).
Proof. intros e H. unfold Py.deref. by destruct (heap e !! p). Qed.

Lemma truthy_stored l o v : keeps (stored l o) (Py.truthy v).
Proof. by intros e H. Qed.

Lemma load_stored l o j : keeps (stored l o) (Py.load j).
Proof.
  intros e H. unfold Py.load.
  pose proof (JsonFacts.load_in_keeps j (heap e) l o H) as Hk.
  by destruct (Py.load_in j (heap e)).
Qed.

Lemma dump_stored l o v : keeps (stored l o) (Py.dump v).
Proof. intros e H. unfold Py.dump. by destruct (Py.dump_in (heap e) v). Qed.

#[global] Hint Resolve alloc_stored deref_stored truthy_stored load_stored
  dump_stored : keeps.

Lemma get_stored l o v k : keeps (stored l o) (Py.get v k).
Proof. unfold Py.get. keeps_auto. Qed.
#[global] Hint Resolve get_stored : keeps.

Lemma get_or_none_stored l o v k : keeps (stored l o) (Py.get_or_none v k).
Proof. unfold Py.get_or_none. keeps_auto. Qed.

Lemma contains_stored l o k v : keeps (stored l o) (Py.contains k v).
Proof. unfold Py.contains. keeps_auto. Qed.

Lemma copy_stored l o v : keeps (stored l o) (Py.copy v).
Proof. unfold Py.copy. keeps_auto. Qed.

Lemma pair_of_stored l o i v : keeps (stored l o) (Py.pair_of i v).
Proof. unfold Py.pair_of. keeps_auto. Qed.

Lemma pairs_from_stored l o i vs d : keeps (stored l o) (Py.pairs_from i vs d).
Proof.
  revert i d. induction vs as [|v vs IH]; intros i d; [apply keeps_ret|].
  simpl. apply keeps_bind; [apply pair_of_stored|intros kx; apply IH].
Qed.

Lemma to_dict_stored l o v : keeps (stored l o) (Py.to_dict v).
Proof.
  unfold Py.to_dict.
  destruct v as [| | |s|p]; try apply keeps_raise.
  - destruct s as [|c s]; [apply alloc_stored|apply keeps_raise].
  - apply keeps_bind; [apply deref_stored|intros [d|vs]];
      [apply alloc_stored|].
    apply keeps_bind; [apply pairs_from_stored|intros ?; apply alloc_stored].
Qed.

#[global] Hint Resolve get_or_none_stored contains_stored copy_stored
  to_dict_stored : keeps.

(** *** Computations on an adapter *)

Lemma lift_env_holds {X A} l o (m : M Env A) :
  keeps (stored l o) m → keeps (holds (X:=X) l o) (lift_env m).
Proof.
  intros Hm [x e] H. unfold lift_env, holds in *. simpl in *.
  specialize (Hm e H). by destruct (m e).
Qed.

Lemma io_holds {A} l o op (f : list (string * io_op) → A) :
  keeps (holds l o) (io op f).
Proof. by intros s. Qed.

Lemma self_holds l o : keeps (holds l o) self.
Proof. by intros s. Qed.

Lemma modify_holds l o f : keeps (holds l o) (modify f).
Proof. by intros s. Qed.

Lemma now_holds W l o : keeps (holds l o) (now W).
Proof. by intros s. Qed.

Lemma poll_holds W l o pid : keeps (holds l o) (poll W pid).
Proof. by intros s. Qed.

Lemma observe_holds {A} l o (f : t * Env → A) :
  keeps (holds l o) ((λ s, (Ok (f s), s)) : BM A).
Proof. by intros s. Qed.

#[global] Hint Resolve io_holds self_holds modify_holds now_holds poll_holds
  observe_holds : keeps.
#[global] Hint Extern 1 (keeps (holds _ _) (lift_env _)) =>
  (apply lift_env_holds; solve [eauto with keeps]) : keeps.

Lemma is_running_holds W l o : keeps (holds l o) (is_running W).
Proof. unfold is_running. keeps_auto. Qed.

Lemma cache_if_result_holds l o doc : keeps (holds l o) (cache_if_result doc).
Proof. unfold cache_if_result. keeps_auto. Qed.

Lemma write_line_holds W l o pid j : keeps (holds l o) (write_line W pid j).
Proof. unfold write_line. keeps_auto. Qed.

Lemma read_line_holds W l o pid z : keeps (holds l o) (read_line W pid z).
Proof. unfold read_line. keeps_auto. Qed.

Lemma post_holds W l o u h j z : keeps (holds l o) (post W u h j z).
Proof. unfold post. keeps_auto. Qed.

Lemma spawn_holds W l o a b c : keeps (holds l o) (spawn W a b c).
Proof. unfold spawn. keeps_auto. Qed.

Lemma get_stream_holds W l o u z : keeps (holds l o) (get_stream W u z).
Proof. unfold get_stream. keeps_auto. Qed.

#[global] Hint Resolve is_running_holds cache_if_result_holds write_line_holds
  read_line_holds post_holds spawn_holds get_stream_holds : keeps.

Lemma start_holds W l o : keeps (holds l o) (start W).
Proof.
  unfold start, _init_http_session, _init_sse_session, _init_streamable_http,
    _start_stdio, _mcp_handshake_stdio, _fetch_tools_http, _fetch_tools_stdio.
  keeps_auto.
Qed.

Lemma stop_holds W l o : keeps (holds l o) (stop W).
Proof. unfold stop, terminate, kill, wait. keeps_auto. Qed.

Lemma error_reply_holds l o code message request :
  keeps (holds l o) (error_reply code message request).
Proof. unfold error_reply. keeps_auto. Qed.

#[global] Hint Resolve start_holds stop_holds error_reply_holds : keeps.

End StoreFacts.

(** ** Stopping an adapter *)

Module LifecycleFacts.

Import MCPBackend.

(** *** [stop] *)

(** The adapter that [stop()] leaves. *)
Definition stopped (b : t) : t :=
  if is_http b then
    set_sse_message_url None (set_http_session_id None (set_initialized false b))
  else
    match process b with
    | Some _ => set_initialized false (set_process None b)
    | None => b
    end.

(** The history after [stop()]: [terminate], then [kill] when the
    signal was delivered and the child has not exited in time. *)
Definition stop_trace (W : World) (b : t) (e : Env) : list (string * io_op) :=
  if is_http b then trace e
  else match process b with
       | None => trace e
       | Some pid =>
           let terminated := (name b, ProcTerminate pid) :: trace e in
           match proc_terminate W (trace e) pid with
           | Raise _ => terminated
           | Ok _ =>
               if wait_exits W terminated pid then terminated
               else (name b, ProcKill pid) :: terminated
           end
       end.

(** The exception of the signal that is refused, if one is. *)
Definition refused (W : World) (b : t) (e : Env) : option exn :=
  if is_http b then None
  else match process b with
       | None => None
       | Some pid =>
           let terminated := (name b, ProcTerminate pid) :: trace e in
           match proc_terminate W (trace e) pid with
           | Raise x => Some x
           | Ok _ =>
               if wait_exits W terminated pid then None
               else match proc_kill W terminated pid with
                    | Raise x => Some x
                    | Ok _ => None
                    end
           end
       end.

Lemma stop_run W b e :
  stop W (b, e) =
    match refused W b e with
    | None =>
        (Ok tt, (stopped b, MkEnv (heap e) (stop_trace W b e) (clock_reads e)))
    | Some x =>
        (Raise x, (b, MkEnv (heap e) (stop_trace W b e) (clock_reads e)))
    end.
Proof.
  unfold stop, stopped, stop_trace, refused, terminate, kill, wait, bind,
    self, modify, ret, io, of_result, bind, ret, raise.
  simpl.
  destruct (is_http b) eqn:Hh; simpl; [by destruct e|].
  destruct (process b) as [pid|] eqn:Hp; simpl; [|by destruct e].
  destruct (proc_terminate W (trace e) pid) as [[]|x]; simpl; [|done].
  destruct (wait_exits W _ pid); simpl; [done|].
  by destruct (proc_kill W _ pid) as [[]|x].
Qed.

Lemma refused_delivered W b e :
  refused W b e = None ↔ BackendFacts.delivered W b e.
Proof.
  unfold refused, BackendFacts.delivered.
  destruct (is_http b); [done|].
  destruct (process b) as [pid|]; [|done]. simpl.
  destruct (proc_terminate W (trace e) pid) as [[]|x].
  - destruct (wait_exits W _ pid).
    + split; [intros _; split; [done|by left]|done].
    + destruct (proc_kill W _ pid) as [[]|y].
      * split; [intros _; split; [done|by right]|done].
      * split; [done|]. by intros [_ [|]].
  - split; [done|]. by intros [? _].
Qed.

Lemma stopped_idle b : SearchFacts.idle (stopped b).
Proof.
  destruct b as [c p lu rc i tc sid url].
  unfold SearchFacts.idle, stopped, is_http. simpl.
  destruct (BackendConfig.is_not_none (BackendConfig.http_url c)) eqn:Hh;
    simpl; [by rewrite Hh|].
  destruct p; simpl; by rewrite Hh.
Qed.

Lemma stopped_stopped b : stopped (stopped b) = stopped b.
Proof.
  destruct b as [c p lu rc i tc sid url].
  unfold stopped, is_http. simpl.
  destruct (BackendConfig.is_not_none (BackendConfig.http_url c)) eqn:Hh;
    simpl; [by rewrite Hh|].
  destruct p; simpl; by rewrite Hh.
Qed.

Lemma refused_stopped W b e : refused W (stopped b) e = None.
Proof.
  pose proof (stopped_idle b) as Hidle. unfold SearchFacts.idle in Hidle.
  unfold refused. destruct (is_http (stopped b)); [done|]. by rewrite Hidle.
Qed.

Lemma stop_stopped W b e : stop W (stopped b, e) = (Ok tt, (stopped b, e)).
Proof.
  rewrite stop_run, refused_stopped, stopped_stopped.
  pose proof (stopped_idle b) as Hidle. unfold SearchFacts.idle in Hidle.
  unfold stop_trace.
  destruct (is_http (stopped b)); [by destruct e|].
  rewrite Hidle. by destruct e.
Qed.

(** X6: [stop()] raises exactly when a signal is refused: [terminate()],
    or [kill()], which is sent only after a delivered [terminate()] and
    a wait that ran out.  The exception is the one of the signal, and the
    adapter is then left as it was, child included, so that the adapter
    still reports what the child does.  A [stop()] that returns leaves
    an adapter that is not running, whatever happens next, and on which
    a further [stop()] returns without any operation.  An HTTP adapter
    and an adapter without a child are stopped without any operation. *)
Theorem stop_terminates_then_kills W b e :
  let out := stop W (b, e) in
  (out.1 = Ok tt ↔ BackendFacts.delivered W b e) ∧
  (∀ x, out.1 = Raise x →
     out.2.1 = b ∧
     ∃ pid,
       is_http b = false ∧ process b = Some pid ∧
       (proc_terminate W (trace e) pid = Raise x ∧
        trace out.2.2 = (name b, ProcTerminate pid) :: trace e
        ∨
        proc_terminate W (trace e) pid = Ok tt ∧
        wait_exits W ((name b, ProcTerminate pid) :: trace e) pid = false ∧
        proc_kill W ((name b, ProcTerminate pid) :: trace e) pid = Raise x ∧
        trace out.2.2 =
          (name b, ProcKill pid) :: (name b, ProcTerminate pid) :: trace e)) ∧
  (out.1 = Ok tt →
     (∀ e', BackendFacts.running W out.2.1 e' = false) ∧
     stop W out.2 = (Ok tt, out.2) ∧
     trace out.2.2 =
       match is_http b, process b with
       | false, Some pid =>
           let terminated := (name b, ProcTerminate pid) :: trace e in
           if wait_exits W terminated pid then terminated
           else (name b, ProcKill pid) :: terminated
       | _, _ => trace e
       end) ∧
  heap out.2.2 = heap e.
Proof.
  intros out. subst out. rewrite stop_run.
  pose proof (refused_delivered W b e) as Hiff.
  destruct (refused W b e) as [x|] eqn:Href; cbn [fst snd heap trace].
  - split; [split; [done|intros Hd; apply Hiff in Hd; done]|].
    split; [|split; [done|done]].
    intros y [= <-]. split; [done|].
    revert Href. unfold refused, stop_trace.
    destruct (is_http b); [done|].
    destruct (process b) as [pid|]; [|done]. simpl.
    intros Href. exists pid. split; [done|]. split; [done|].
    destruct (proc_terminate W (trace e) pid) as [[]|z].
    + right. destruct (wait_exits W _ pid); [done|].
      destruct (proc_kill W _ pid) as [[]|z]; [done|].
      by simplify_eq.
    + left. by simplify_eq.
  - split; [split; [intros _; by apply Hiff|done]|].
    split; [done|]. split; [|done]. intros _.
    split; [intros e'; apply SearchFacts.idle_not_running, stopped_idle|].
    split; [apply stop_stopped|].
    revert Href. unfold refused, stop_trace.
    destruct (is_http b); [done|].
    destruct (process b) as [pid|]; [|done]. simpl.
    destruct (proc_terminate W (trace e) pid) as [[]|z]; [|done].
    done.
Qed.

(** The child that cannot be signalled, as the sample world has it after
    [start()]. *)
Definition rooted : t * Env :=
  Eval vm_compute in
    (start Demo.world
       (Demo.fresh (Demo.stdio_config "root" "run-root"), Demo.empty_env)).2.

Example stop_refused :
  process rooted.1 = Some 4%nat ∧
  stop Demo.world rooted =
    (Raise (Exn "PermissionError" "[Errno 1] Operation not permitted"),
     (rooted.1,
      MkEnv (heap rooted.2) (("root", ProcTerminate 4) :: trace rooted.2)
            (clock_reads rooted.2))) ∧
  BackendFacts.running Demo.world rooted.1 rooted.2 = true.
Proof. repeat split; vm_compute; reflexivity. Qed.

End LifecycleFacts.

(** ** Starting an adapter: outcomes *)

Module StartupFacts.

Import MCPBackend.

(** *** Computations that do not raise *)

Definition total {S A} (m : M S A) : Prop := ∀ s, ∃ a, (m s).1 = Ok a.

Lemma total_ret {S A} (a : A) : total (ret a : M S A).
Proof. intros s. by exists a. Qed.

Lemma total_bind {S A B} (m : M S A) (k : A → M S B) :
  total m → (∀ a, total (k a)) → total (bind m k).
Proof.
  intros Hm Hk s. unfold bind. destruct (Hm s) as [a Ha].
  destruct (m s) as [[a'|x] s']; simpl in *; [apply Hk|done].
Qed.

Lemma total_try {S A} (m : M S A) (h : exn → M S A) :
  (∀ x, total (h x)) → total (try_except m h).
Proof.
  intros Hh s. unfold try_except.
  destruct (m s) as [[a|x] s']; [by exists a|apply Hh].
Qed.

Lemma total_modify f : total (modify f).
Proof. intros s. by exists tt. Qed.

Lemma total_self : total self.
Proof. intros s. by eexists. Qed.

Lemma total_poll W pid : total (poll W pid).
Proof. intros s. by eexists. Qed.

Ltac total_step :=
  first
    [ apply total_ret | apply total_self | apply total_modify
    | apply total_poll
    | apply total_try; intros ?
    | apply total_bind; [|intros ?]
    | match goal with
      | |- total (if ?c then _ else _) => destruct c
      | |- total (match ?x with _ => _ end) => destruct x
      end ].

Lemma init_http_session_total W : total (_init_http_session W).
Proof.
  unfold _init_http_session, _init_sse_session, _init_streamable_http.
  repeat total_step.
Qed.

(** [shlex.split] accepts the command of the adapter, if it has one. *)
Definition splittable (W : World) (b : t) : Prop :=
  ∃ words, BackendConfig.command_list (shlex_split W) (config b) = Ok words.

Lemma start_running_noop W b e :
  BackendFacts.running W b e = true → start W (b, e) = (Ok true, (b, e)).
Proof.
  intros Hrun. unfold BackendFacts.running in Hrun.
  unfold start, _start_stdio, bind, self, ret, poll. simpl.
  destruct (is_http b); [by rewrite Hrun|]. simpl.
  destruct (process b) as [pid|]; [|done]. simpl. by rewrite Hrun.
Qed.

(** [start()] and the command: what [shlex.split] raises, [start()]
    raises, before anything is done; nothing else makes it raise. *)
Lemma start_split W b e :
  is_http b = false →
  BackendFacts.running W b e = false →
  match BackendConfig.command_list (shlex_split W) (config b) with
  | Raise x => start W (b, e) = (Raise x, (b, e))
  | Ok _ => ∃ ok, (start W (b, e)).1 = Ok ok
  end.
Proof.
  intros Hh Hdown. unfold BackendFacts.running in Hdown. rewrite Hh in Hdown.
  unfold start, bind, self, ret. simpl. rewrite Hh.
  unfold _start_stdio, bind, self, ret, poll. simpl.
  destruct (process b) as [p|]; simpl; [rewrite Hdown; simpl|];
    (destruct (BackendConfig.command_list (shlex_split W) (config b))
       as [[[|a argv]|]|x]; simpl; try done; try (by eexists);
     unfold try_except;
     match goal with
     | |- ∃ ok, (match ?m with _ => _ end).1 = Ok ok =>
         destruct m as [[ok|y] s'']; by eexists
     end).
Qed.

Lemma start_total W b e :
  splittable W b → ∃ ok, (start W (b, e)).1 = Ok ok.
Proof.
  intros [words Hsplit].
  destruct (is_http b) eqn:Hh.
  - unfold start, bind, self. simpl. rewrite Hh.
    destruct (_initialized b); simpl; [by eexists|].
    apply init_http_session_total.
  - destruct (BackendFacts.running W b e) eqn:Hrun.
    + rewrite (start_running_noop W b e Hrun). by eexists.
    + pose proof (start_split W b e Hh Hrun) as H. by rewrite Hsplit in H.
Qed.

(** X9: [start()] raises in one case only: the adapter is a stdio
    adapter that is not running and [shlex.split] rejects its command
    (an open quotation, a trailing escape).  It then raises what
    [shlex.split] raised, before anything is done: the adapter is as it
    was and no operation is performed.  Every other failure on the way
    (the spawn, the handshake, the HTTP session) is reported as a result
    or dropped. *)
Theorem start_raises_only_unsplit W b e :
  (∀ x,
     (start W (b, e)).1 = Raise x ↔
     is_http b = false ∧ BackendFacts.running W b e = false ∧
     BackendConfig.command_list (shlex_split W) (config b) = Raise x) ∧
  (∀ x, (start W (b, e)).1 = Raise x → (start W (b, e)).2 = (b, e)) ∧
  ((∃ words,
      BackendConfig.command_list (shlex_split W) (config b) = Ok words) →
   ∃ ok, (start W (b, e)).1 = Ok ok).
Proof.
  assert (Hiff : ∀ x,
     (start W (b, e)).1 = Raise x →
     is_http b = false ∧ BackendFacts.running W b e = false ∧
     BackendConfig.command_list (shlex_split W) (config b) = Raise x).
  { intros x Hx.
    destruct (BackendConfig.command_list (shlex_split W) (config b))
      as [words|y] eqn:Hsplit.
    { destruct (start_total W b e (ex_intro _ words Hsplit)) as [ok Hok].
      congruence. }
    destruct (is_http b) eqn:Hh.
    { exfalso. revert Hx. unfold start, bind, self. simpl. rewrite Hh.
      destruct (_initialized b); simpl; [done|].
      destruct (init_http_session_total W (b, e)) as [ok Hok]. congruence. }
    destruct (BackendFacts.running W b e) eqn:Hrun.
    { by rewrite (start_running_noop W b e Hrun) in Hx. }
    pose proof (start_split W b e Hh Hrun) as H. rewrite Hsplit in H.
    rewrite H in Hx. simpl in Hx. by simplify_eq. }
  split; [|split].
  - intros x. split; [apply Hiff|].
    intros (Hh & Hrun & Hsplit).
    pose proof (start_split W b e Hh Hrun) as H. rewrite Hsplit in H.
    by rewrite H.
  - intros x Hx. destruct (Hiff x Hx) as (Hh & Hrun & Hsplit).
    pose proof (start_split W b e Hh Hrun) as H. rewrite Hsplit in H.
    by rewrite H.
  - apply start_total.
Qed.

(** The command of this adapter has an open quotation. *)
Definition quoted : t := Demo.fresh (Demo.stdio_config "quoted" "echo 'abc").

Example start_unsplit :
  start Demo.world (quoted, Demo.empty_env) =
    (Raise (ValueError "No closing quotation"), (quoted, Demo.empty_env)).
Proof. vm_compute. reflexivity. Qed.

(** *** What the handshake leaves alone *)

(** The adapter of [s] differs from [b0] at most in the initialized
    flag and the tools cache. *)
Definition same_child (b0 : t) (s : t * Env) : Prop :=
  config s.1 = config b0 ∧ process s.1 = process b0 ∧
  last_used s.1 = last_used b0 ∧ restart_count s.1 = restart_count b0 ∧
  _http_session_id s.1 = _http_session_id b0 ∧
  _sse_message_url s.1 = _sse_message_url b0.

Lemma lift_env_same {A} b0 (m : M Env A) : keeps (same_child b0) (lift_env m).
Proof. intros [b e] H. unfold lift_env. simpl. by destruct (m e). Qed.

Lemma io_same {A} b0 op (f : list (string * io_op) → A) :
  keeps (same_child b0) (io op f).
Proof. by intros s. Qed.

Lemma self_same b0 : keeps (same_child b0) self.
Proof. by intros s. Qed.

Lemma initialized_same b0 i : keeps (same_child b0) (modify (set_initialized i)).
Proof. by intros [b e] H. Qed.

Lemma cache_same b0 c : keeps (same_child b0) (modify (set_tools_cache c)).
Proof. by intros [b e] H. Qed.

#[local] Hint Resolve lift_env_same io_same self_same initialized_same
  cache_same : keeps.

Lemma handshake_same W b0 : keeps (same_child b0) (_mcp_handshake_stdio W).
Proof.
  unfold _mcp_handshake_stdio, _fetch_tools_stdio, cache_if_result,
    write_line, read_line.
  keeps_auto.
Qed.

Lemma handshake_total W : total (_mcp_handshake_stdio W).
Proof.
  unfold _mcp_handshake_stdio.
  apply total_bind; [apply total_self|intros b].
  destruct (process b); [|apply total_ret].
  apply total_try. intros x. apply total_ret.
Qed.

(** *** [start()] on a stdio adapter *)

(** X7: [start()] on an adapter that is running returns success and
    does nothing: no child is spawned, no request is sent. *)
Theorem start_when_running W b e
    (Hrun : BackendFacts.running W b e = true) :
  start W (b, e) = (Ok true, (b, e)).
Proof. by apply start_running_noop. Qed.

(** X8: [start()] on a stdio adapter that is not running.  Without a
    command to run it reports failure and does nothing; when the spawn
    raises it reports failure and leaves the adapter as it was; when a
    child is spawned it reports success whatever becomes of the
    handshake, and the adapter holds the child, has counted one more
    start and has its [last_used] read from the clock.  When the command
    cannot be split, it raises what [shlex.split] raised and does
    nothing. *)
Theorem start_stdio_outcome W b e
    (Hstdio : is_http b = false)
    (Hdown : BackendFacts.running W b e = false) :
  match BackendConfig.command_list (shlex_split W) (config b) with
  | Raise x => start W (b, e) = (Raise x, (b, e))
  | Ok None | Ok (Some []) => start W (b, e) = (Ok false, (b, e))
  | Ok (Some argv) =>
      match popen W (trace e) argv
              (SDict.update (environ W) (BackendConfig.env (config b)))
              (if BackendConfig.truthy (BackendConfig.cwd (config b))
               then BackendConfig.cwd (config b) else None) with
      | Raise _ =>
          start W (b, e) =
            (Ok false, (b, StartFacts.log b (StartFacts.spawn_op W b argv) e))
      | Ok pid =>
          ∃ b' e',
            start W (b, e) = (Ok true, (b', e')) ∧
            process b' = Some pid ∧
            restart_count b' = S (restart_count b) ∧
            last_used b' = clock W (clock_reads e) ∧
            config b' = config b
      end
  end.
Proof.
  unfold BackendFacts.running in Hdown. rewrite Hstdio in Hdown.
  unfold start, bind, self, ret. simpl. rewrite Hstdio.
  unfold _start_stdio, bind, self, ret, poll. simpl.
  destruct (process b) as [p|] eqn:Hp; simpl; [rewrite Hdown; simpl|];
    (destruct (BackendConfig.command_list (shlex_split W) (config b))
       as [[[|a argv]|]|x]; simpl; [done| |done|done]);
    unfold try_except, bind, spawn, io, of_result, bind, ret, raise, modify;
    simpl;
    (destruct (popen W (trace e) (a :: argv) _ _) as [pid|x]; simpl; [|done]);
    match goal with
    | |- context [_mcp_handshake_stdio W ?s] =>
        pose proof (handshake_same W (fst s) s
                      (conj eq_refl (conj eq_refl (conj eq_refl
                         (conj eq_refl (conj eq_refl eq_refl)))))) as Hsame;
        destruct (handshake_total W s) as [[] Hok];
        destruct (_mcp_handshake_stdio W s) as [r [b' e']]
    end;
    simpl in *; subst r; destruct Hsame as (Hc & Hp' & Hl & Hr & _);
    by exists b', e'.
Qed.

Lemma start_when_running_witness :
  start Demo.world (Demo.started_x.1, Demo.started_x.2) =
    (Ok true, (Demo.started_x.1, Demo.started_x.2)).
Proof. apply start_when_running. reflexivity. Defined.

Lemma start_stdio_outcome_witness :
  ∃ b' e',
    start Demo.world (SearchFacts.fresh_x, Demo.empty_env) = (Ok true, (b', e')) ∧
    process b' = Some 1%nat ∧
    restart_count b' = S (restart_count SearchFacts.fresh_x) ∧
    last_used b' = clock Demo.world (clock_reads Demo.empty_env) ∧
    config b' = config SearchFacts.fresh_x.
Proof.
  exact (start_stdio_outcome Demo.world SearchFacts.fresh_x Demo.empty_env
           eq_refl eq_refl).
Defined.

End StartupFacts.

(** ** When a request gets a reply *)

Module RequestFacts.

Import MCPBackend.
Import StoreFacts.

(** [m] keeps the invariant [I] and, started where [I] holds, does not
    raise. *)
Definition safe {S A} (I : S → Prop) (m : M S A) : Prop :=
  ∀ s, I s → I (m s).2 ∧ ∃ a, (m s).1 = Ok a.

Lemma safe_bind {S A B} (I : S → Prop) (m : M S A) (k : A → M S B) :
  safe I m → (∀ a, safe I (k a)) → safe I (bind m k).
Proof.
  intros Hm Hk s Hs. unfold bind. destruct (Hm s Hs) as [HI [a Ha]].
  destruct (m s) as [[a'|x] s']; simpl in *; [by apply Hk|done].
Qed.

Lemma safe_try {S A} (I : S → Prop) (m : M S A) (h : exn → M S A) :
  keeps I m → (∀ x, safe I (h x)) → safe I (try_except m h).
Proof.
  intros Hm Hh s Hs. unfold try_except. specialize (Hm s Hs).
  destruct (m s) as [[a|x] s']; simpl in *; [by eauto|by apply Hh].
Qed.

Lemma safe_total {S A} (I : S → Prop) (m : M S A) :
  keeps I m → StartupFacts.total m → safe I m.
Proof. intros Hk Ht s Hs. split; [by apply Hk|apply Ht]. Qed.

Lemma safe_ret {S A} (I : S → Prop) (a : A) : safe I (ret a).
Proof. intros s Hs. split; [done|by exists a]. Qed.

(** An error reply to a request that is a stored dict is built without
    raising. *)
Lemma error_reply_safe code message rl rq :
  safe (holds rl (ODict rq)) (error_reply code message (VRef rl)).
Proof.
  intros [b e] H. split; [by apply error_reply_holds|].
  destruct (IdFacts.error_reply_id code message rl rq b e H) as (v & σ & -> & _).
  by exists v.
Qed.

Lemma send_http_safe W rl rq :
  safe (holds rl (ODict rq)) (_send_http_request W (VRef rl)).
Proof.
  unfold _send_http_request. apply safe_try.
  - keeps_auto.
  - intros x. apply error_reply_safe.
Qed.

(** What [_send_stdio_request] does once the adapter is ready or not. *)
Definition after_start (W : World) (request : pyval) (ready : bool) : BM pyval :=
  if negb ready then error_reply (-32000) "Backend unavailable" request
  else
    let* has_id := lift_env (Py.contains "id" request) in
    let is_notification := negb has_id in
    try_except
      (let* b := self in
       match process b with
       | None => raise AssertionError
       | Some pid =>
           let* request_bytes := lift_env (Py.dump request) in
           write_line W pid request_bytes >>
           if is_notification then
             lift_env (Py.alloc (ODict [("jsonrpc", VStr "2.0");
                                        ("result", VNone)]))
           else
             let* r := read_line W pid 30 in
             match r with
             | RdLine doc =>
                 let* j := of_result doc in
                 lift_env (Py.load j)
             | RdTimeout | RdEOF =>
                 error_reply (-32000) "Timeout waiting for response" request
             | RdError e => raise e
             end
       end)
      (λ e, error_reply (-32000) (exn_msg e) request).

Lemma send_stdio_unfold W request s :
  _send_stdio_request W request s =
    match (if BackendFacts.running W s.1 s.2 then ret true else start W) s with
    | (Ok ready, s') => after_start W request ready s'
    | (Raise x, s') => (Raise x, s')
    end.
Proof.
  destruct s as [b e]. unfold _send_stdio_request, bind at 1.
  rewrite BackendFacts.is_running_eq. unfold bind at 1. done.
Qed.

Lemma after_start_safe W rl rq ready :
  safe (holds rl (ODict rq)) (after_start W (VRef rl) ready).
Proof.
  unfold after_start.
  destruct ready; simpl; [|apply error_reply_safe].
  apply safe_bind.
  { intros [b e] H.
    split; [exact (lift_env_holds rl (ODict rq) _
                     (contains_stored rl (ODict rq) "id" (VRef rl)) (b, e) H)|].
    unfold lift_env, Py.contains, Py.deref, bind, ret. simpl.
    unfold holds, stored in H. simpl in H. rewrite H. by eexists. }
  intros has_id. apply safe_try.
  - keeps_auto.
  - intros x. apply error_reply_safe.
Qed.

Lemma send_stdio_safe W rl rq b e :
  StartupFacts.splittable W b →
  heap e !! rl = Some (ODict rq) →
  ∃ v, (_send_stdio_request W (VRef rl) (b, e)).1 = Ok v.
Proof.
  intros Hsplit H. rewrite send_stdio_unfold. cbn [fst snd].
  destruct (BackendFacts.running W b e).
  - unfold ret. apply (after_start_safe W rl rq true (b, e) H).
  - destruct (StartupFacts.start_total W b e Hsplit) as [ok Hok].
    pose proof (start_holds W rl (ODict rq) (b, e) H) as Hkept.
    destruct (start W (b, e)) as [r s1]. simpl in Hok. subst r.
    apply (after_start_safe W rl rq ok s1 Hkept).
Qed.

(** The cache is absent, or a dict of the store. *)
Definition cache_ok (b : t) (e : Env) : Prop :=
  match _tools_cache b with
  | VNone => True
  | VRef cl => ∃ d, heap e !! cl = Some (ODict d)
  | _ => False
  end.

(** The request is answered from the cache. *)
Definition from_cache (b : t) (e : Env) (rq : Dict.t) : bool :=
  pyval_eqb (default VNone (Dict.get "method" rq)) (VStr "tools/list")
  && Py.truthy_in (heap e) (_tools_cache b).

(** X11: a request that is a dict, sent to an adapter whose cache is
    absent or a dict, gets a reply whatever goes wrong on the way to
    the peer, unless the adapter is a stdio adapter whose command
    [shlex.split] rejects: [send_request] then raises what
    [shlex.split] raised, when the child is not alive and the request
    is not answered from the cache. *)
Theorem send_request_raises_only_unsplit W b e rl rq
    (Hrq : heap e !! rl = Some (ODict rq))
    (Hcache : cache_ok b e) :
  (is_http b = true ∨ StartupFacts.splittable W b →
   ∃ reply, (send_request W (VRef rl) (b, e)).1 = Ok reply) ∧
  (∀ x,
     is_http b = false →
     BackendFacts.running W b e = false →
     BackendConfig.command_list (shlex_split W) (config b) = Raise x →
     from_cache b e rq = false →
     (send_request W (VRef rl) (b, e)).1 = Raise x).
Proof.
  unfold cache_ok in Hcache. unfold from_cache.
  destruct (pyval_eqb (default VNone (Dict.get "method" rq)) (VStr "tools/list")
            && Py.truthy_in (heap e) (_tools_cache b)) eqn:Hhit.
  - split; [intros _|done].
    apply andb_true_iff in Hhit as [Hm Hpop].
    destruct (_tools_cache b) as [| | | |cl] eqn:Hc; try done.
    destruct Hcache as [d Hd].
    assert (Hne : d ≠ []).
    { intros ->. simpl in Hpop. by rewrite Hd in Hpop. }
    assert (Hmethod : Dict.get "method" rq = Some (VStr "tools/list")).
    { destruct (Dict.get "method" rq) as [[| | |m|]|]; try done.
      simpl in Hm. by apply String.eqb_eq in Hm as ->. }
    rewrite (CachedReply.send_request_from_cache W b e rl rq cl d) by done.
    by eexists.
  - unfold send_request, bind, now, modify, lift_env, self, ret,
      Py.get_or_none, Py.get, Py.truthy, Py.deref, bind, ret.
    simpl. rewrite Hrq. simpl. rewrite Hhit.
    change (is_http (set_last_used (clock W (clock_reads e)) b))
      with (is_http b).
    split.
    + intros Hsplit.
      destruct (is_http b) eqn:Hh.
      * match goal with
        | |- ∃ reply, (_ ?s).1 = _ =>
            destruct (send_http_safe W rl rq s Hrq) as [_ [v Hv]]
        end.
        by exists v.
      * destruct Hsplit as [|Hsplit]; [done|].
        by apply (send_stdio_safe W rl rq).
    + intros x Hh Hdown Hraise _. rewrite Hh.
      rewrite send_stdio_unfold. cbn [fst snd].
      change (BackendFacts.running W (set_last_used _ b) _)
        with (BackendFacts.running W b e).
      rewrite Hdown.
      pose proof (StartupFacts.start_split W
                    (set_last_used (clock W (clock_reads e)) b)
                    (MkEnv (heap e) (trace e) (S (clock_reads e))) Hh Hdown)
        as Hstart.
      change (config (set_last_used _ b)) with (config b) in Hstart.
      rewrite Hraise in Hstart. by rewrite Hstart.
Qed.

Lemma send_request_raises_only_unsplit_witness :
  ∃ reply,
    (send_request Demo.world (VRef 5) (IdFacts.called.2.1, IdFacts.called.2.2)).1
      = Ok reply.
Proof.
  apply (send_request_raises_only_unsplit Demo.world IdFacts.called.2.1
           IdFacts.called.2.2 5
           [("jsonrpc", VStr "2.0"); ("method", VStr "tools/call");
            ("id", VInt 5)]);
    [reflexivity| |].
  - by exists [("jsonrpc", VStr "2.0"); ("id", VInt 1); ("result", VRef 3)].
  - right. eexists. reflexivity.
Defined.

(** A request to the adapter whose command has an open quotation. *)
Example send_request_unsplit :
  (send_request Demo.world (VRef 0)
     (StartupFacts.quoted,
      MkEnv [ODict [("jsonrpc", VStr "2.0"); ("method", VStr "tools/call");
                    ("id", VInt 5)]] [] 0)).1 =
    Raise (ValueError "No closing quotation").
Proof. vm_compute. reflexivity. Qed.

End RequestFacts.

(** ** Replies to failed requests *)

Module FailureFacts.

Import MCPBackend.

Lemma error_reply_run code message rl rq b e :
  heap e !! rl = Some (ODict rq) →
  ∃ v σ,
    error_reply code message (VRef rl) (b, e) =
      (Ok v, (b, MkEnv σ (trace e) (clock_reads e))) ∧
    MetaFacts.is_error_reply σ v code message
      (default VNone (Dict.get "id" rq)) ∧
    (∀ l o, heap e !! l = Some o → σ !! l = Some o).
Proof.
  intros Hrq.
  unfold error_reply, bind, lift_env, Py.alloc, Py.get_or_none, Py.get,
    Py.deref, bind, ret. simpl.
  rewrite (lookup_app_l_Some _ _ _ _ Hrq). simpl.
  eexists _, _. split; [reflexivity|].
  split; [apply MetaFacts.error_reply_built|].
  intros l o Hl. by repeat apply lookup_app_l_Some.
Qed.

(** X12: The child does not answer: the line is written, the read runs out
    (or meets the end of the stream), and the caller gets the error
    [-32000] with the id of the request.  The adapter keeps the child. *)
Theorem stdio_no_answer W b e rl rq pid line
    (Halive : IdFacts.alive W b e pid)
    (Hrq : heap e !! rl = Some (ODict rq))
    (Hid : Dict.get "id" rq ≠ None)
    (Hdump : Py.dump_in (heap e) (VRef rl) = Some line)
    (Hwrite : stdin_write W (trace e) pid line = Ok tt)
    (Hread : match stdout_readline W ((name b, StdinWrite pid line) :: trace e)
                     pid 30 with
             | RdTimeout | RdEOF => True
             | _ => False
             end) :
  ∃ v σ,
    _send_stdio_request W (VRef rl) (b, e) =
      (Ok v,
       (b, MkEnv σ ((name b, StdoutReadline pid 30)
                      :: (name b, StdinWrite pid line) :: trace e)
                 (clock_reads e))) ∧
    MetaFacts.is_error_reply σ v (-32000) "Timeout waiting for response"
      (default VNone (Dict.get "id" rq)).
Proof.
  destruct Halive as (Hh & Hp & Ha).
  destruct (Dict.get "id" rq) as [id|] eqn:Hid'; [|done].
  unfold _send_stdio_request, bind. rewrite BackendFacts.is_running_eq.
  unfold BackendFacts.running. rewrite Hh, Hp, Ha. unfold ret.
  unfold lift_env, Py.contains, Py.deref, bind, ret. simpl.
  rewrite Hrq. simpl. unfold Dict.has. rewrite Hid'. simpl.
  unfold try_except, bind, self, lift_env, Py.dump, write_line, read_line,
    io, of_result, bind, ret. simpl.
  rewrite Hp. simpl. rewrite Hdump. simpl. rewrite Hwrite. simpl.
  destruct (stdout_readline W _ pid 30); try done;
    match goal with
    | |- context [error_reply ?c ?m (VRef rl) (b, ?e1)] =>
        destruct (error_reply_run c m rl rq b e1 Hrq) as (v & σ & Hrun & Herr & _);
        rewrite Hrun
    end;
    simpl; exists v, σ; by rewrite Hid' in Herr.
Qed.

(** X13: The line cannot be written: the exception becomes the message of
    the error [-32000]; nothing is read, and the adapter keeps the
    child. *)
Theorem stdio_write_error W b e rl rq pid line x
    (Halive : IdFacts.alive W b e pid)
    (Hrq : heap e !! rl = Some (ODict rq))
    (Hdump : Py.dump_in (heap e) (VRef rl) = Some line)
    (Hwrite : stdin_write W (trace e) pid line = Raise x) :
  ∃ v σ,
    _send_stdio_request W (VRef rl) (b, e) =
      (Ok v,
       (b, MkEnv σ ((name b, StdinWrite pid line) :: trace e) (clock_reads e))) ∧
    MetaFacts.is_error_reply σ v (-32000) (exn_msg x)
      (default VNone (Dict.get "id" rq)).
Proof.
  destruct Halive as (Hh & Hp & Ha).
  unfold _send_stdio_request, bind. rewrite BackendFacts.is_running_eq.
  unfold BackendFacts.running. rewrite Hh, Hp, Ha. unfold ret.
  unfold lift_env, Py.contains, Py.deref, bind, ret. simpl.
  rewrite Hrq. simpl.
  unfold try_except, bind, self, lift_env, Py.dump, write_line,
    io, of_result, bind, ret, raise. simpl.
  rewrite Hp. simpl. rewrite Hdump. simpl. rewrite Hwrite. simpl.
  match goal with
  | |- context [error_reply ?c ?m (VRef rl) (b, ?e1)] =>
      destruct (error_reply_run c m rl rq b e1 Hrq) as (v & σ & Hrun & Herr & _);
      rewrite Hrun
  end.
  by exists v, σ.
Qed.

(** X14: A stdio adapter that is not running and cannot be started: the
    caller gets the error [-32000], "Backend unavailable", with the id
    of the request; the request is not written to any child. *)
Theorem stdio_unavailable W b e rl rq
    (Hstdio : is_http b = false)
    (Hdown : BackendFacts.running W b e = false)
    (Hrq : heap e !! rl = Some (ODict rq))
    (Hstart : (start W (b, e)).1 = Ok false) :
  ∃ v σ,
    _send_stdio_request W (VRef rl) (b, e) =
      (Ok v,
       ((start W (b, e)).2.1,
        MkEnv σ (trace (start W (b, e)).2.2) (clock_reads (start W (b, e)).2.2))) ∧
    MetaFacts.is_error_reply σ v (-32000) "Backend unavailable"
      (default VNone (Dict.get "id" rq)).
Proof.
  unfold _send_stdio_request, bind. rewrite BackendFacts.is_running_eq.
  rewrite Hdown. unfold ret.
  pose proof (StoreFacts.start_holds W rl (ODict rq) (b, e) Hrq) as Hkept.
  destruct (start W (b, e)) as [r [b1 e1]]. simpl in *. subst r. simpl.
  destruct (error_reply_run (-32000) "Backend unavailable" rl rq b1 e1 Hkept)
    as (v & σ & Hrun & Herr & _).
  rewrite Hrun. by exists v, σ.
Qed.

(** X15: An HTTP adapter whose peer cannot be reached: the exception becomes
    the message of the error [-32000], with the id of the request. *)
Theorem http_transport_error W b e rl rq url body x
    (Hinit : _initialized b = true)
    (Hurl : request_url b = Some url)
    (Hrq : heap e !! rl = Some (ODict rq))
    (Hdump : Py.dump_in (heap e) (VRef rl) = Some body)
    (Hpost : http_post W (trace e) url (request_headers b) body 30 = Raise x) :
  ∃ v σ,
    _send_http_request W (VRef rl) (b, e) =
      (Ok v,
       (b, MkEnv σ ((name b, HttpPost url (request_headers b) body 30) :: trace e)
                 (clock_reads e))) ∧
    MetaFacts.is_error_reply σ v (-32000) (exn_msg x)
      (default VNone (Dict.get "id" rq)).
Proof.
  unfold _send_http_request, try_except, bind, self, ret. simpl.
  rewrite Hinit. simpl. unfold lift_env, Py.dump. simpl. rewrite Hdump. simpl.
  rewrite Hurl. unfold post, bind, io, of_result, raise. simpl.
  rewrite Hpost. simpl.
  match goal with
  | |- context [error_reply ?c ?m (VRef rl) (b, ?e1)] =>
      destruct (error_reply_run c m rl rq b e1 Hrq) as (v & σ & Hrun & Herr & _);
      rewrite Hrun
  end.
  by exists v, σ.
Qed.

(** The sample world with children that never answer. *)
Definition silent : World := {|
  clock := clock Demo.world;
  environ := environ Demo.world;
  shlex_split := shlex_split Demo.world;
  py_str := py_str Demo.world;
  json_dumps_indent := json_dumps_indent Demo.world;
  popen := popen Demo.world;
  poll_alive := poll_alive Demo.world;
  stdin_write := stdin_write Demo.world;
  stdout_readline := λ _ _ _, RdTimeout;
  proc_terminate := proc_terminate Demo.world;
  wait_exits := wait_exits Demo.world;
  proc_kill := proc_kill Demo.world;
  http_post := http_post Demo.world;
  http_get := http_get Demo.world;
|}.

Definition call_five : json := Demo.request "tools/call" (JNum 5).

Definition call_items : Dict.t :=
  [("jsonrpc", VStr "2.0"); ("method", VStr "tools/call"); ("id", VInt 5)].

Lemma stdio_no_answer_witness :
  ∃ v σ,
    _send_stdio_request silent (VRef 5) (IdFacts.called.2.1, IdFacts.called.2.2) =
      (Ok v,
       (IdFacts.called.2.1,
        MkEnv σ ((name IdFacts.called.2.1, StdoutReadline 1 30)
                   :: (name IdFacts.called.2.1, StdinWrite 1 call_five)
                   :: trace IdFacts.called.2.2)
              (clock_reads IdFacts.called.2.2))) ∧
    MetaFacts.is_error_reply σ v (-32000) "Timeout waiting for response"
      (default VNone (Dict.get "id" call_items)).
Proof.
  apply (stdio_no_answer silent IdFacts.called.2.1 IdFacts.called.2.2 5
           call_items 1 call_five);
    [by repeat split|reflexivity|discriminate|reflexivity|reflexivity|exact I].
Defined.

(** The child [mute] of the sample world, started, and a call for it. *)
Definition mute_called : pyval * (t * Env) :=
  Eval vm_compute in Demo.receive call_five StartFacts.mute_started.2.

Lemma stdio_write_error_witness :
  ∃ v σ,
    _send_stdio_request Demo.world (VRef 0) (mute_called.2.1, mute_called.2.2) =
      (Ok v,
       (mute_called.2.1,
        MkEnv σ ((name mute_called.2.1, StdinWrite 3 call_five)
                   :: trace mute_called.2.2)
              (clock_reads mute_called.2.2))) ∧
    MetaFacts.is_error_reply σ v (-32000)
      (exn_msg (Exn "BrokenPipeError" "Broken pipe"))
      (default VNone (Dict.get "id" call_items)).
Proof.
  apply (stdio_write_error Demo.world mute_called.2.1 mute_called.2.2 0
           call_items 3 call_five (Exn "BrokenPipeError" "Broken pipe"));
    [by repeat split|reflexivity|reflexivity|reflexivity].
Defined.

(** A backend whose command does not exist, and a call for it. *)
Definition lost : t := Demo.fresh (Demo.stdio_config "lost" "no-such-command").

Definition lost_called : pyval * (t * Env) :=
  Eval vm_compute in Demo.receive call_five (lost, Demo.empty_env).

Lemma stdio_unavailable_witness :
  ∃ v σ,
    _send_stdio_request Demo.world (VRef 0) (lost_called.2.1, lost_called.2.2) =
      (Ok v,
       ((start Demo.world (lost_called.2.1, lost_called.2.2)).2.1,
        MkEnv σ (trace (start Demo.world (lost_called.2.1, lost_called.2.2)).2.2)
              (clock_reads (start Demo.world (lost_called.2.1, lost_called.2.2)).2.2))) ∧
    MetaFacts.is_error_reply σ v (-32000) "Backend unavailable"
      (default VNone (Dict.get "id" call_items)).
Proof.
  apply (stdio_unavailable Demo.world lost_called.2.1 lost_called.2.2 0
           call_items); reflexivity.
Defined.

(** The peer [down] of the sample world after [start()], and a call for
    it. *)
Definition down_called : pyval * (t * Env) :=
  Eval vm_compute in
    Demo.receive call_five
      (start Demo.world (StartFacts.down, Demo.empty_env)).2.

Lemma http_transport_error_witness :
  ∃ v σ,
    _send_http_request Demo.world (VRef 0) (down_called.2.1, down_called.2.2) =
      (Ok v,
       (down_called.2.1,
        MkEnv σ ((name down_called.2.1,
                  HttpPost "http://down/mcp" (request_headers down_called.2.1)
                    call_five 30) :: trace down_called.2.2)
              (clock_reads down_called.2.2))) ∧
    MetaFacts.is_error_reply σ v (-32000)
      (exn_msg (Exn "ClientConnectorError" "Cannot connect to host"))
      (default VNone (Dict.get "id" call_items)).
Proof.
  apply (http_transport_error Demo.world down_called.2.1 down_called.2.2 0
           call_items "http://down/mcp" call_five
           (Exn "ClientConnectorError" "Cannot connect to host"));
    reflexivity.
Defined.

End FailureFacts.

(** ** The session id of an HTTP peer *)

Module SessionFacts.

Import MCPBackend.

Lemma sdict_get_set_eq k v d : SDict.get k (SDict.set k v d) = Some v.
Proof.
  induction d as [|[k' v'] d IH]; simpl.
  - by rewrite String.eqb_refl.
  - destruct (String.eqb k k') eqn:E; simpl.
    + by rewrite String.eqb_refl.
    + by rewrite E.
Qed.

(** *** Computations that perform no transport operation *)

Definition quiet_env (h : list (string * io_op)) (e : Env) : Prop :=
  trace e = h.

Definition quiet (h : list (string * io_op)) (s : t * Env) : Prop :=
  trace s.2 = h.

Lemma alloc_quiet h o : keeps (quiet_env h) (Py.alloc o).
Proof. by intros e H. Qed.

Lemma deref_quiet h l : keeps (quiet_env h) (Py.deref l).
Proof. intros e H. unfold Py.deref. by destruct (heap e !! l). Qed.

Lemma load_quiet h j : keeps (quiet_env h) (Py.load j).
Proof. intros e H. unfold Py.load. by destruct (Py.load_in j (heap e)). Qed.

#[local] Hint Resolve alloc_quiet deref_quiet load_quiet : keeps.

Lemma get_quiet h v k : keeps (quiet_env h) (Py.get v k).
Proof. unfold Py.get. keeps_auto. Qed.
#[local] Hint Resolve get_quiet : keeps.

Lemma get_or_none_quiet h v k : keeps (quiet_env h) (Py.get_or_none v k).
Proof. unfold Py.get_or_none. keeps_auto. Qed.

Lemma pair_of_quiet h i v : keeps (quiet_env h) (Py.pair_of i v).
Proof. unfold Py.pair_of. keeps_auto. Qed.

Lemma pairs_from_quiet h i vs d : keeps (quiet_env h) (Py.pairs_from i vs d).
Proof.
  revert i d. induction vs as [|v vs IH]; intros i d; [apply keeps_ret|].
  simpl. apply keeps_bind; [apply pair_of_quiet|intros kx; apply IH].
Qed.
#[local] Hint Resolve pairs_from_quiet get_or_none_quiet : keeps.

Lemma to_dict_quiet h v : keeps (quiet_env h) (Py.to_dict v).
Proof. unfold Py.to_dict. keeps_auto. Qed.
#[local] Hint Resolve to_dict_quiet : keeps.

Lemma lift_env_quiet {A} h (m : M Env A) :
  keeps (quiet_env h) m → keeps (quiet h) (lift_env m).
Proof.
  intros Hm [b e] H. unfold lift_env, quiet in *. simpl in *.
  specialize (Hm e H). by destruct (m e).
Qed.

Lemma self_quiet h : keeps (quiet h) self.
Proof. by intros s. Qed.

Lemma modify_quiet h f : keeps (quiet h) (modify f).
Proof. by intros s. Qed.

#[local] Hint Resolve self_quiet modify_quiet : keeps.
#[local] Hint Extern 1 (keeps (quiet _) (lift_env _)) =>
  (apply lift_env_quiet; solve [eauto with keeps]) : keeps.

Lemma error_reply_quiet h code message request :
  keeps (quiet h) (error_reply code message request).
Proof. unfold error_reply. keeps_auto. Qed.

(** What [_send_http_request] makes of the response of the peer. *)
Definition after_post (resp : http_response) : BM pyval :=
  match SDict.get_ci "mcp-session-id" (resp_headers resp) with
  | Some sid => modify (set_http_session_id (Some sid))
  | None => ret tt
  end >>
  match (if Str.contains "text/event-stream" (content_type resp)
         then first_data_line (content resp) else None) with
  | Some data =>
      let* j := of_result data in
      lift_env (Py.load j)
  | None =>
      let* j := of_result (body_json resp) in
      let* result := lift_env (Py.load j) in
      lift_env (Py.to_dict result)
  end.

Lemma after_post_quiet h resp : keeps (quiet h) (after_post resp).
Proof. unfold after_post. keeps_auto. Qed.

#[local] Arguments after_post : simpl never.

(** An initialized adapter posts the request once, with its headers,
    whatever becomes of the request. *)
Lemma send_http_posts W request b e body url :
  _initialized b = true →
  Py.dump_in (heap e) request = Some body →
  request_url b = Some url →
  trace (_send_http_request W request (b, e)).2.2 =
    (name b, HttpPost url (request_headers b) body 30) :: trace e.
Proof.
  intros Hinit Hdump Hurl.
  change (_send_http_request W request) with
    (try_except
       (let* b := self in
        (if negb (_initialized b) then start W >> ret tt else ret tt) >>
        let* b := self in
        let headers := request_headers b in
        let url := request_url b in
        let* body := lift_env (Py.dump request) in
        let* resp := post W url headers body 30 in
        after_post resp)
       (λ e, error_reply (-32000) (exn_msg e) request)).
  unfold try_except, bind, self, ret. simpl. rewrite Hinit. simpl.
  unfold lift_env, Py.dump. simpl. rewrite Hdump. simpl. rewrite Hurl.
  unfold post, bind, io, of_result, raise, ret. simpl.
  set (h := (name b, HttpPost url (request_headers b) body 30) :: trace e).
  destruct (http_post W (trace e) url (request_headers b) body 30)
    as [resp|x]; simpl.
  - pose proof (after_post_quiet h resp
                  (b, MkEnv (heap e) h (clock_reads e)) eq_refl) as Hq.
    destruct (after_post resp (b, MkEnv (heap e) h (clock_reads e)))
      as [[v|y] s']; simpl in *; [done|].
    by apply (error_reply_quiet h).
  - by apply (error_reply_quiet h _ _ _ (b, MkEnv (heap e) h (clock_reads e))).
Qed.


(** The sample world with a peer that hands out the session [s-1]. *)
Definition with_sessions : World := {|
  clock := clock Demo.world;
  environ := environ Demo.world;
  shlex_split := shlex_split Demo.world;
  py_str := py_str Demo.world;
  json_dumps_indent := json_dumps_indent Demo.world;
  popen := popen Demo.world;
  poll_alive := poll_alive Demo.world;
  stdin_write := stdin_write Demo.world;
  stdout_readline := stdout_readline Demo.world;
  proc_terminate := proc_terminate Demo.world;
  wait_exits := wait_exits Demo.world;
  proc_kill := proc_kill Demo.world;
  http_post := λ _ _ _ body _,
    Ok (HttpResponse 200 [("Mcp-Session-Id", "s-1")] "application/json" []
          (Ok (Demo.answer [Demo.tool "ping" "pong"] body)));
  http_get := http_get Demo.world;
|}.

Definition remote : t := Demo.fresh (Demo.http_config "remote" "http://remote/mcp").


(** The adapter [remote] after the handshake, and a call sent to it. *)
Example session_sample :
  let s := (start with_sessions (remote, Demo.empty_env)).2 in
  let asked := Demo.receive (Demo.request "tools/call" (JNum 5)) s in
  trace (send_request with_sessions asked.1 asked.2).2.2 =
    [("remote",
      HttpPost "http://remote/mcp"
        [("Content-Type", "application/json");
         ("Accept", "application/json, text/event-stream");
         ("mcp-session-id", "s-1")]
        (Demo.request "tools/call" (JNum 5)) 30);
     ("remote",
      HttpPost "http://remote/mcp"
        [("Content-Type", "application/json");
         ("Accept", "application/json, text/event-stream");
         ("mcp-session-id", "s-1")]
        tools_request 10);
     ("remote",
      HttpPost "http://remote/mcp"
        [("Content-Type", "application/json");
         ("Accept", "application/json, text/event-stream")]
        init_request 10)].
Proof. vm_compute. reflexivity. Qed.

End SessionFacts.

(** ** The registry and its construction *)

Module RegistryFacts.

Import Gateway.

(** *** Loops over the registry *)

(** What a loop with the body [body] makes of the adapters [bs], one
    after the other: the loop ends at the first adapter on which the
    body raises. *)
Fixpoint run_each (body : MCPBackend.BM unit)
    (bs : list (string * MCPBackend.t)) (e : Env)
  : result unit * (list (string * MCPBackend.t) * Env) :=
  match bs with
  | [] => (Ok tt, ([], e))
  | (n, b) :: bs' =>
      let out := body (b, e) in
      match out.1 with
      | Ok _ =>
          let r := run_each body bs' out.2.2 in
          (r.1, ((n, out.2.1) :: r.2.1, r.2.2))
      | Raise x => (Raise x, ((n, out.2.1) :: bs', out.2.2))
      end
  end.

Lemma for_each_from body c run pre suf e :
  for_each_backend body
    (imap (λ i nb, ((List.length pre + i)%nat, nb.1)) suf)
    (Make c (pre ++ suf) run, e) =
    ((run_each body suf e).1,
     (Make c (pre ++ (run_each body suf e).2.1) run,
      (run_each body suf e).2.2)).
Proof.
  revert pre e.
  induction suf as [|[n b] suf IH]; intros pre e; [done|].
  cbn [imap for_each_backend run_each]. unfold bind, with_backend.
  cbn [fst snd backends]. rewrite Nat.add_0_r, list_lookup_middle by done.
  destruct (body (b, e)) as [r [b' e1]]. cbn [fst snd] in *.
  unfold set_backends. cbn [config backends _running].
  replace (<[List.length pre:=(n, b')]> (pre ++ (n, b) :: suf))
    with ((pre ++ [(n, b')]) ++ suf).
  2:{ rewrite <- app_assoc. simpl.
      replace (List.length pre) with (List.length pre + 0)%nat at 1 by lia.
      by rewrite insert_app_r. }
  destruct r as [u|x]; cbn [fst snd].
  - rewrite (imap_ext _
               (λ i nb, ((List.length (pre ++ [(n, b')]) + i)%nat, nb.1))).
    2:{ intros i x _. simpl. rewrite length_app. simpl. f_equal. lia. }
    rewrite IH. by rewrite <- app_assoc.
  - by rewrite <- app_assoc.
Qed.

Lemma for_each_items body g e :
  for_each_backend body (items g) (g, e) =
    ((run_each body (backends g) e).1,
     (set_backends (run_each body (backends g) e).2.1 g,
      (run_each body (backends g) e).2.2)).
Proof. destruct g as [c bs run]. apply (for_each_from body c run [] bs e). Qed.

Lemma run_each_names body bs e : (run_each body bs e).2.1.*1 = bs.*1.
Proof.
  revert e. induction bs as [|[n b] bs IH]; intros e; [done|].
  cbn [run_each]. destruct (body (b, e)) as [[u|x] [b' e1]]; cbn [fst snd].
  - cbn [fmap list_fmap fst]. by rewrite IH.
  - done.
Qed.

(** The visit of a loop.  The adapters before position [k] were
    visited, each in some environment that satisfies the invariant [I]
    of the body (the first one in the environment of the start), and the
    body returned; the adapters after position [k] are as they were; the
    loop either came to its end, or the body raised on the adapter at
    position [k]. *)
Lemma run_each_visits body (I : Env → Prop) bs e :
  (∀ b e, I e → I (body (b, e)).2.2) →
  I e →
  let out := run_each body bs e in
  I out.2.2 ∧
  ∃ k,
    (k ≤ List.length bs)%nat ∧
    (∀ j, (k < j)%nat → out.2.1 !! j = bs !! j) ∧
    (∀ i n b, (i < k)%nat → bs !! i = Some (n, b) →
       ∃ e_i, I e_i ∧ (i = 0%nat → e_i = e) ∧
              (∃ u, (body (b, e_i)).1 = Ok u) ∧
              out.2.1 !! i = Some (n, (body (b, e_i)).2.1)) ∧
    match out.1 with
    | Ok _ => k = List.length bs
    | Raise x =>
        ∃ n b e_k,
          bs !! k = Some (n, b) ∧ I e_k ∧ (k = 0%nat → e_k = e) ∧
          (body (b, e_k)).1 = Raise x ∧
          out.2.1 !! k = Some (n, (body (b, e_k)).2.1)
    end.
Proof.
  intros Hbody. revert e.
  induction bs as [|[n b] bs IH]; intros e He.
  { simpl. split; [done|]. exists 0%nat.
    repeat split; try done; intros; lia. }
  intros out. subst out. cbn [run_each].
  pose proof (Hbody b e He) as He1.
  destruct (body (b, e)) as [[u|x] [b1 e1]] eqn:Hrun; cbn [fst snd] in *.
  - destruct (IH e1 He1) as (HI & k & Hk & Hafter & Hbefore & Hend).
    split; [done|]. exists (S k).
    split; [simpl; lia|].
    split; [intros [|j] Hj; [lia|]; simpl; apply Hafter; lia|].
    split.
    + intros [|i] n' b' Hi Hl; simpl in Hl.
      * injection Hl as <- <-. exists e.
        split; [done|]. split; [done|]. rewrite Hrun. simpl. eauto.
      * destruct (Hbefore i n' b') as (e_i & HIi & _ & Hok & Hl');
          [lia|done|].
        exists e_i. split; [done|]. split; [lia|]. by split.
    + destruct (run_each body bs e1).1 as [u'|x].
      * simpl. by f_equal.
      * destruct Hend as (n' & b' & e_k & Hl & HIk & _ & Hraise & Hl').
        exists n', b', e_k. split; [done|]. split; [done|].
        split; [lia|]. by split.
  - split; [done|]. exists 0%nat.
    split; [lia|].
    split; [intros [|j] Hj; [lia|done]|].
    split; [intros i n' b' Hi; lia|].
    exists n, b, e. rewrite Hrun. by repeat split.
Qed.

(** *** [__init__] *)

Lemma init_backends_run W configs e :
  init_backends W configs e =
    (Ok (imap (λ i nc, (nc.1, MCPBackend.create nc.2
                                (clock W (clock_reads e + i)))) configs),
     MkEnv (heap e) (trace e) (clock_reads e + List.length configs)).
Proof.
  revert e. induction configs as [|[n c] configs IH]; intros e.
  - simpl. unfold ret. rewrite Nat.add_0_r. by destruct e.
  - cbn [init_backends imap]. unfold bind, time_time. rewrite IH.
    unfold ret. cbn [heap trace clock_reads fst snd List.length].
    rewrite Nat.add_0_r.
    replace (S (clock_reads e) + List.length configs)%nat
      with (clock_reads e + S (List.length configs))%nat by lia.
    do 3 f_equal.
    apply imap_ext. intros i [n' c'] _. simpl. do 3 f_equal. lia.
Qed.

(** X16: [Gateway(config)] registers the enabled backends, in the order of
    the configuration and under their names, each with an adapter that
    has no child, no session and no cache; nothing is started, and no
    transport operation is performed.  A name that is not the name of an
    enabled backend is not registered. *)
Theorem init_registers_enabled W cfg e :
  ∃ g e',
    __init__ W cfg e = (Ok g, e') ∧
    Gateway.config g = cfg ∧ _running g = false ∧
    (backends g).*1 = (GatewayConfig.get_enabled_backends cfg).*1 ∧
    heap e' = heap e ∧ trace e' = trace e ∧
    (∀ i n b, backends g !! i = Some (n, b) →
       GatewayConfig.get_enabled_backends cfg !! i =
         Some (n, MCPBackend.config b) ∧
       BackendConfig.enabled (MCPBackend.config b) = true ∧
       MCPBackend.process b = None ∧ MCPBackend._initialized b = false ∧
       MCPBackend._tools_cache b = VNone ∧ MCPBackend.restart_count b = 0%nat ∧
       MCPBackend._http_session_id b = None ∧
       MCPBackend._sse_message_url b = None) ∧
    (∀ n, n ∉ (GatewayConfig.get_enabled_backends cfg).*1 →
          index_of n (backends g) 0 = None).
Proof.
  unfold __init__, bind. rewrite init_backends_run. unfold ret.
  eexists _, _. split; [reflexivity|]. cbn [Gateway.config _running backends heap trace].
  set (enabled := GatewayConfig.get_enabled_backends cfg).
  assert (Hnames :
    (imap (λ i nc, (nc.1, MCPBackend.create nc.2 (clock W (clock_reads e + i))))
          enabled).*1 = enabled.*1).
  { generalize (clock_reads e). induction enabled as [|[n c] l IH]; intros k;
      [done|].
    cbn [imap fmap list_fmap fst]. f_equal.
    rewrite <- (IH (S k)). f_equal. apply imap_ext. intros i x _. simpl.
    do 3 f_equal. lia. }
  repeat split; try done.
  - apply list_lookup_imap_Some in H as ([n' c] & Hl & Heq).
    simpl in Heq. injection Heq as -> ->. done.
  - apply list_lookup_imap_Some in H as ([n' c] & Hl & Heq).
    simpl in Heq. injection Heq as -> ->. simpl.
    apply list_elem_of_lookup_2 in Hl.
    unfold enabled, GatewayConfig.get_enabled_backends in Hl.
    by apply list_elem_of_filter in Hl as [Hl _].
  - by apply list_lookup_imap_Some in H as ([n' c] & Hl & [= -> ->]).
  - by apply list_lookup_imap_Some in H as ([n' c] & Hl & [= -> ->]).
  - by apply list_lookup_imap_Some in H as ([n' c] & Hl & [= -> ->]).
  - by apply list_lookup_imap_Some in H as ([n' c] & Hl & [= -> ->]).
  - by apply list_lookup_imap_Some in H as ([n' c] & Hl & [= -> ->]).
  - by apply list_lookup_imap_Some in H as ([n' c] & Hl & [= -> ->]).
  - intros n Hn. rewrite <- Hnames in Hn.
    generalize dependent (imap (λ i nc, (nc.1, MCPBackend.create nc.2
                                  (clock W (clock_reads e + i)))) enabled).
    intros bs _ Hn. generalize 0%nat.
    induction bs as [|[n' b] bs IH]; intros k; [done|].
    simpl in *. apply not_elem_of_cons in Hn as [Hne Hn].
    destruct (String.eqb_spec n n'); [done|]. by apply IH.
Qed.

End RegistryFacts.

(** ** Stopping the gateway *)

Module ShutdownFacts.

Import Gateway.
Import RegistryFacts.

Lemma stop_heap W b e : heap (MCPBackend.stop W (b, e)).2.2 = heap e.
Proof.
  rewrite LifecycleFacts.stop_run. by destruct (LifecycleFacts.refused W b e).
Qed.

(** A [stop()] that returns has stopped the adapter; one that raises
    has left it as it was. *)
Lemma stop_outcome W b e :
  (MCPBackend.stop W (b, e)).2.1 =
    match (MCPBackend.stop W (b, e)).1 with
    | Ok _ => LifecycleFacts.stopped b
    | Raise _ => b
    end.
Proof.
  rewrite LifecycleFacts.stop_run. by destruct (LifecycleFacts.refused W b e).
Qed.

Lemma stopped_kept b :
  let b' := LifecycleFacts.stopped b in
  MCPBackend.config b' = MCPBackend.config b ∧
  MCPBackend._tools_cache b' = MCPBackend._tools_cache b ∧
  MCPBackend.restart_count b' = MCPBackend.restart_count b ∧
  MCPBackend.last_used b' = MCPBackend.last_used b.
Proof.
  unfold LifecycleFacts.stopped.
  destruct (MCPBackend.is_http b); [done|]. by destruct (MCPBackend.process b).
Qed.

(** Stopping adapters that are stopped does nothing. *)
Lemma stop_again W bs e :
  (∀ i n b, bs !! i = Some (n, b) → ∃ b0, b = LifecycleFacts.stopped b0) →
  run_each (MCPBackend.stop W) bs e = (Ok tt, (bs, e)).
Proof.
  revert e. induction bs as [|[n b] bs IH]; intros e Hall; [done|].
  destruct (Hall 0%nat n b eq_refl) as [b0 ->].
  cbn [run_each]. rewrite LifecycleFacts.stop_stopped. cbn [fst snd].
  rewrite IH; [done|]. intros i n' b' Hi. by apply (Hall (S i) n' b').
Qed.

Lemma run_each_length body bs e :
  List.length (run_each body bs e).2.1 = List.length bs.
Proof.
  rewrite <- (length_fmap fst (run_each body bs e).2.1), run_each_names.
  apply length_fmap.
Qed.

(** The children of the registry accept the signals of [stop()]. *)
Definition signalled (W : World) (g : t) : Prop :=
  ∀ i n b pid,
    backends g !! i = Some (n, b) → MCPBackend.process b = Some pid →
    ∀ h, proc_terminate W h pid = Ok tt ∧ proc_kill W h pid = Ok tt.

(** X17: [Gateway.stop()] clears the running flag and stops the adapters
    in the order of the registry.  Whatever happens, the registry keeps
    its names, their order and the configurations, the caches survive
    and the store is not touched.  When it returns, no adapter is
    running, whatever happens next, and a second [Gateway.stop()]
    changes nothing and performs no operation.  It raises only when a
    child refuses a signal: the exception is the one [stop()] raised on
    that adapter, the adapters before it are stopped, and that adapter
    and all the adapters after it are left as they were, running or
    not.  It returns whenever the children of the registry accept their
    signals. *)
Theorem stop_stops_every_backend W g e :
  ∃ r g' e',
    stop W (g, e) = (r, (g', e')) ∧
    _running g' = false ∧ config g' = config g ∧
    (backends g').*1 = (backends g).*1 ∧
    heap e' = heap e ∧
    (∀ i n b, backends g !! i = Some (n, b) →
       ∃ b', backends g' !! i = Some (n, b') ∧
             MCPBackend.config b' = MCPBackend.config b ∧
             MCPBackend._tools_cache b' = MCPBackend._tools_cache b ∧
             MCPBackend.restart_count b' = MCPBackend.restart_count b) ∧
    (r = Ok tt →
       (∀ i n b', backends g' !! i = Some (n, b') →
                  ∀ e'', BackendFacts.running W b' e'' = false) ∧
       stop W (g', e') = (Ok tt, (g', e'))) ∧
    (∀ x, r = Raise x →
       ∃ k n b e_k,
         backends g !! k = Some (n, b) ∧
         heap e_k = heap e ∧
         (MCPBackend.stop W (b, e_k)).1 = Raise x ∧
         (∀ j, (k ≤ j)%nat → backends g' !! j = backends g !! j) ∧
         (∀ j n' b', (j < k)%nat → backends g' !! j = Some (n', b') →
                     ∀ e'', BackendFacts.running W b' e'' = false)) ∧
    (signalled W g → r = Ok tt).
Proof.
  set (out := run_each (MCPBackend.stop W) (backends g) e).
  assert (Hrun : ∀ g0 e0,
    stop W (g0, e0) =
      ((run_each (MCPBackend.stop W) (backends g0) e0).1,
       (Make (config g0) (run_each (MCPBackend.stop W) (backends g0) e0).2.1
             false,
        (run_each (MCPBackend.stop W) (backends g0) e0).2.2))).
  { intros g0 e0. unfold stop, bind, modify, self. cbn [fst snd].
    rewrite for_each_items. by destruct g0. }
  destruct (run_each_visits (MCPBackend.stop W) (λ e', heap e' = heap e)
              (backends g) e)
    as (Hheap & k & Hk & Hafter & Hbefore & Hend);
    [intros b0 e0 H0; by rewrite stop_heap|done|].
  fold out in Hheap, Hafter, Hbefore, Hend.
  assert (Hlen : List.length out.2.1 = List.length (backends g))
    by apply run_each_length.
  assert (Hpt : ∀ i n b, backends g !! i = Some (n, b) →
     out.2.1 !! i =
       Some (n, if decide (i < k)%nat then LifecycleFacts.stopped b else b)).
  { intros i n b Hi. destruct (decide (i < k)%nat) as [Hlt|Hge].
    - destruct (Hbefore i n b Hlt Hi) as (e_i & _ & _ & [u Hok] & Hl).
      rewrite Hl. rewrite stop_outcome, Hok. done.
    - destruct (decide (i = k)) as [->|Hne].
      + destruct out.1 as [u|x]; [apply lookup_lt_Some in Hi; lia|].
        destruct Hend as (n' & b' & e_k & Hl & _ & _ & Hraise & Hl').
        rewrite Hi in Hl. injection Hl as <- <-.
        rewrite Hl'. rewrite stop_outcome, Hraise. done.
      + rewrite Hafter by lia. done. }
  assert (Hback : ∀ i n b', out.2.1 !! i = Some (n, b') →
     ∃ b, backends g !! i = Some (n, b) ∧
          b' = if decide (i < k)%nat then LifecycleFacts.stopped b else b).
  { intros i n b' Hi.
    destruct (backends g !! i) as [[n0 b0]|] eqn:Hi0.
    - rewrite (Hpt i n0 b0 Hi0) in Hi. injection Hi as <- <-. by exists b0.
    - apply lookup_ge_None in Hi0. apply lookup_lt_Some in Hi. lia. }
  exists out.1, (Make (config g) out.2.1 false), out.2.2.
  split; [apply Hrun|]. cbn [_running config backends].
  split; [done|]. split; [done|]. split; [apply run_each_names|].
  split; [done|].
  split.
  { intros i n b Hi. eexists. split; [by apply Hpt|].
    destruct (decide _); [|done].
    by destruct (stopped_kept b) as (? & ? & ? & _). }
  split.
  { intros Hr. rewrite Hr in Hend. subst k.
    assert (Hall : ∀ i n b', out.2.1 !! i = Some (n, b') →
                             ∃ b0, b' = LifecycleFacts.stopped b0).
    { intros i n b' Hi. destruct (Hback i n b' Hi) as (b0 & Hi0 & ->).
      apply lookup_lt_Some in Hi0. exists b0.
      by destruct (decide _); [|lia]. }
    split.
    - intros i n b' Hi e''. destruct (Hall i n b' Hi) as [b0 ->].
      apply SearchFacts.idle_not_running, LifecycleFacts.stopped_idle.
    - rewrite Hrun. cbn [config backends]. by rewrite stop_again. }
  split.
  { intros x Hr. rewrite Hr in Hend.
    destruct Hend as (n & b & e_k & Hl & Hh & _ & Hraise & _).
    exists k, n, b, e_k. split; [done|]. split; [done|]. split; [done|].
    split.
    - intros j Hj. destruct (backends g !! j) as [[n' b']|] eqn:Hj'.
      + rewrite (Hpt j n' b' Hj'). by destruct (decide _); [lia|].
      + apply lookup_ge_None. apply lookup_ge_None in Hj'. lia.
    - intros j n' b' Hj Hl' e''.
      destruct (Hback j n' b' Hl') as (b0 & _ & ->).
      destruct (decide _); [|lia].
      apply SearchFacts.idle_not_running, LifecycleFacts.stopped_idle. }
  intros Hsig. destruct out.1 as [[]|x] eqn:Hr; [done|]. exfalso.
  destruct Hend as (n & b & e_k & Hl & _ & _ & Hraise & _).
  destruct (MCPBackend.stop W (b, e_k)) as [r' s'] eqn:Hs.
  simpl in Hraise. subst r'.
  destruct (BackendFacts.stop_raises W b e_k x s' Hs) as [Hnd _].
  apply Hnd. unfold BackendFacts.delivered.
  destruct (MCPBackend.is_http b); [done|].
  destruct (MCPBackend.process b) as [pid|] eqn:Hp; [|done].
  simpl. split; [apply (Hsig k n b pid Hl Hp)|right; apply (Hsig k n b pid Hl Hp)].
Qed.

(** In the sample world: [x] is stopped, then the child of [root]
    refuses the signal, and [y] is left running. *)
Definition three_running : t * Env :=
  Eval vm_compute in
    let s1 := (with_backend 0 (MCPBackend.start Demo.world)
                 (Make Demo.gateway_config
                    [("x", SearchFacts.fresh_x);
                     ("root", Demo.fresh (Demo.stdio_config "root" "run-root"));
                     ("y", SearchFacts.fresh_y)] true,
                  Demo.empty_env)).2 in
    let s2 := (with_backend 1 (MCPBackend.start Demo.world) s1).2 in
    (with_backend 2 (MCPBackend.start Demo.world) s2).2.

Definition three_stopped : result unit * (t * Env) :=
  Eval vm_compute in stop Demo.world three_running.

Example stop_interrupted :
  map (λ nb, BackendFacts.running Demo.world nb.2 three_running.2)
      (backends three_running.1) = [true; true; true] ∧
  stop Demo.world three_running = three_stopped ∧
  three_stopped.1 =
    Raise (Exn "PermissionError" "[Errno 1] Operation not permitted") ∧
  _running three_stopped.2.1 = false ∧
  map (λ nb, BackendFacts.running Demo.world nb.2 three_stopped.2.2)
      (backends three_stopped.2.1) = [false; true; true].
Proof. repeat split; vm_compute; reflexivity. Qed.

End ShutdownFacts.

(** ** Hibernation of idle backends *)

Module IdleFacts.

Import Gateway.
Import RegistryFacts.

(** The adapter has been idle for longer than its timeout. *)
Definition overdue (now : Z) (b : MCPBackend.t) : bool :=
  BackendConfig.idle_timeout (MCPBackend.config b) <? now - MCPBackend.last_used b.

Lemma hibernate_run W now b e :
  hibernate_if_idle W now (b, e) =
    if BackendFacts.running W b e && overdue now b
    then MCPBackend.stop W (b, e)
    else (Ok tt, (b, e)).
Proof.
  unfold hibernate_if_idle, bind. rewrite BackendFacts.is_running_eq.
  destruct (BackendFacts.running W b e); [|done].
  unfold MCPBackend.self, overdue. simpl.
  by destruct (_ <? _).
Qed.

Lemma hibernate_heap W now b e :
  heap (hibernate_if_idle W now (b, e)).2.2 = heap e.
Proof.
  rewrite hibernate_run. destruct (_ && _); [apply ShutdownFacts.stop_heap|done].
Qed.


(** In the sample world: a remote adapter with the timeout 0 is
    initialized, and not any more after a round. *)
Definition impatient : MCPBackend.t :=
  Demo.fresh (BackendConfig.Make "remote" "" None (Some "http://remote/mcp")
                [] [] None 0 true).

Definition impatient_started : t * Env :=
  Eval vm_compute in
    (with_backend 0 (MCPBackend.start Demo.world)
       (Make Demo.gateway_config [("remote", impatient)] true,
        Demo.empty_env)).2.

Example idle_round_sample :
  map (λ nb, MCPBackend._initialized nb.2) (backends impatient_started.1)
    = [true] ∧
  (_idle_checker_round Demo.world impatient_started).1 = Ok tt ∧
  map (λ nb, MCPBackend._initialized nb.2)
      (backends (_idle_checker_round Demo.world impatient_started).2.1)
    = [false].
Proof. repeat split; vm_compute; reflexivity. Qed.

End IdleFacts.

(** ** Handlers that only read *)

Module ReadFacts.

Import Gateway.

(** A method that only reads leaves the registry as it is. *)
Lemma with_backend_read {A} (m : MCPBackend.BM A) c run bs i n b e r :
  bs !! i = Some (n, b) →
  m (b, e) = (r, (b, e)) →
  with_backend i m (Make c bs run, e) = (r, (Make c bs run, e)).
Proof.
  intros Hi Hm. unfold with_backend. cbn [fst snd backends]. rewrite Hi, Hm.
  unfold set_backends. cbn [config backends _running].
  by rewrite list_insert_id.
Qed.

Lemma get_cached_tools_read s :
  MCPBackend.get_cached_tools s = ((MCPBackend.get_cached_tools s).1, s).
Proof.
  rewrite <- (SearchFacts.get_cached_tools_state s) at 3.
  by destruct (MCPBackend.get_cached_tools s).
Qed.

(** The status [_handle_health] reports of an adapter. *)
Definition status_doc (W : World) (e : Env) (b : MCPBackend.t) (tools : list pyval)
  : json :=
  JObj [("running", JBool (BackendFacts.running W b e));
        ("restart_count", JNum (Z.of_nat (MCPBackend.restart_count b)));
        ("tools_cached", JNum (Z.of_nat (List.length tools)))].

Fixpoint status_list (W : World) (e : Env) (bs : list (string * MCPBackend.t))
  : result (list (string * json)) :=
  match bs with
  | [] => Ok []
  | (n, b) :: bs' =>
      match (MCPBackend.get_cached_tools (b, e)).1 with
      | Raise x => Raise x
      | Ok tools =>
          match status_list W e bs' with
          | Raise x => Raise x
          | Ok rest => Ok ((n, status_doc W e b tools) :: rest)
          end
      end
  end.

Lemma backends_status_from W c run pre suf e :
  backends_status W (imap (λ i nb, ((List.length pre + i)%nat, nb.1)) suf)
    (Make c (pre ++ suf) run, e) =
    (status_list W e suf, (Make c (pre ++ suf) run, e)).
Proof.
  revert pre. induction suf as [|[n b] suf IH]; intros pre; [done|].
  cbn [imap backends_status status_list]. unfold bind.
  rewrite Nat.add_0_r.
  rewrite (with_backend_read _ c run _ _ n b e (Ok (BackendFacts.running W b e))).
  2:{ by apply list_lookup_middle. }
  2:{ apply BackendFacts.is_running_eq. }
  rewrite (with_backend_read _ c run _ _ n b e (Ok b)).
  2:{ by apply list_lookup_middle. }
  2:{ done. }
  rewrite (with_backend_read _ c run _ _ n b e
             (MCPBackend.get_cached_tools (b, e)).1).
  2:{ by apply list_lookup_middle. }
  2:{ apply get_cached_tools_read. }
  destruct (MCPBackend.get_cached_tools (b, e)).1 as [tools|x]; [|done].
  rewrite (imap_ext _ (λ i nb, ((List.length (pre ++ [(n, b)]) + i)%nat, nb.1))).
  2:{ intros i x _. simpl. rewrite length_app. simpl. f_equal. lia. }
  replace (pre ++ (n, b) :: suf) with ((pre ++ [(n, b)]) ++ suf)
    by by rewrite <- app_assoc.
  rewrite IH. fold (status_doc W e b tools).
  by destruct (status_list W e suf).
Qed.

(** X19: [/health] only reads: it starts nothing, performs no transport
    operation and changes neither the registry nor the store, whatever
    it answers.  When the cached tool lists can be read it answers 200
    with the status ["healthy"], whichever backends are running, and
    with one entry for each registered backend, in the order of the
    registry. *)
Theorem health_reads_only W request g e :
  (_handle_health W request (g, e)).2 = (g, e) ∧
  ((∀ n b, (n, b) ∈ backends g →
           ∃ tools, (MCPBackend.get_cached_tools (b, e)).1 = Ok tools) →
   ∃ status,
     (_handle_health W request (g, e)).1 =
       Ok (WebResponse 200
             (JObj [("status", JStr "healthy"); ("backends", JObj status)])) ∧
     status.*1 = (backends g).*1 ∧
     ∀ i n b, backends g !! i = Some (n, b) →
       ∃ tools,
         (MCPBackend.get_cached_tools (b, e)).1 = Ok tools ∧
         status !! i = Some (n, status_doc W e b tools)).
Proof.
  unfold _handle_health, bind, self. cbn [fst snd].
  destruct g as [c bs run]. unfold items. cbn [backends].
  pose proof (backends_status_from W c run [] bs e) as Hrun.
  cbn [List.length app Nat.add] in Hrun. rewrite Hrun. clear Hrun.
  split; [by destruct (status_list W e bs)|].
  intros Hread.
  assert (Hlist : ∃ status,
    status_list W e bs = Ok status ∧ status.*1 = bs.*1 ∧
    ∀ i n b, bs !! i = Some (n, b) →
      ∃ tools, (MCPBackend.get_cached_tools (b, e)).1 = Ok tools ∧
               status !! i = Some (n, status_doc W e b tools)).
  { induction bs as [|[n b] bs IH]; [by exists []|].
    destruct (Hread n b) as [tools Ht]; [constructor|].
    destruct IH as (rest & Hrest & Hnames & Hl).
    { intros n' b' Hin. apply (Hread n'). by constructor. }
    exists ((n, status_doc W e b tools) :: rest).
    cbn [status_list]. rewrite Ht, Hrest.
    split; [done|]. split; [by rewrite !fmap_cons, Hnames|].
    intros [|i] n' b' Hi; simpl in *.
    - injection Hi as <- <-. by exists tools.
    - by apply Hl. }
  destruct Hlist as (status & -> & Hnames & Hl). by exists status.
Qed.

(** The entry [gateway_list_servers] reports of a backend. *)
Definition server_doc (W : World) (e : Env) (n : string) (b : MCPBackend.t)
    (tools : list pyval) : json :=
  JObj [("name", JStr n);
        ("description", JStr (BackendConfig.description (MCPBackend.config b)));
        ("transport", JStr (BackendConfig.transport_type (MCPBackend.config b)));
        ("running", JBool (BackendFacts.running W b e));
        ("tools_count", JNum (Z.of_nat (List.length tools)))].

Fixpoint server_list (W : World) (e : Env) (bs : list (string * MCPBackend.t))
  : result (list json) :=
  match bs with
  | [] => Ok []
  | (n, b) :: bs' =>
      match (MCPBackend.get_cached_tools (b, e)).1 with
      | Raise x => Raise x
      | Ok tools =>
          match server_list W e bs' with
          | Raise x => Raise x
          | Ok rest => Ok (server_doc W e n b tools :: rest)
          end
      end
  end.

Lemma list_servers_from W c run pre suf e :
  list_servers W (imap (λ i nb, ((List.length pre + i)%nat, nb.1)) suf)
    (Make c (pre ++ suf) run, e) =
    (server_list W e suf, (Make c (pre ++ suf) run, e)).
Proof.
  revert pre. induction suf as [|[n b] suf IH]; intros pre; [done|].
  cbn [imap list_servers server_list]. unfold bind.
  rewrite Nat.add_0_r.
  rewrite (with_backend_read _ c run _ _ n b e (Ok b)).
  2:{ by apply list_lookup_middle. }
  2:{ done. }
  rewrite (with_backend_read _ c run _ _ n b e (Ok (BackendFacts.running W b e))).
  2:{ by apply list_lookup_middle. }
  2:{ apply BackendFacts.is_running_eq. }
  rewrite (with_backend_read _ c run _ _ n b e
             (MCPBackend.get_cached_tools (b, e)).1).
  2:{ by apply list_lookup_middle. }
  2:{ apply get_cached_tools_read. }
  destruct (MCPBackend.get_cached_tools (b, e)).1 as [tools|x]; [|done].
  rewrite (imap_ext _ (λ i nb, ((List.length (pre ++ [(n, b)]) + i)%nat, nb.1))).
  2:{ intros i x _. simpl. rewrite length_app. simpl. f_equal. lia. }
  replace (pre ++ (n, b) :: suf) with ((pre ++ [(n, b)]) ++ suf)
    by by rewrite <- app_assoc.
  rewrite IH. fold (server_doc W e n b tools).
  by destruct (server_list W e suf).
Qed.

#[local] Opaque text_response.

(** X20: [gateway_list_servers] only reads: it starts no backend, performs
    no transport operation and leaves the registry as it is.  When the
    cached tool lists can be read, the text of its reply lists every
    registered backend, in the order of the registry, with its name,
    description, transport type, whether it is running and the number of
    its cached tools; the reply has the id of the request. *)
Theorem list_servers_reads_only W request_id g e :
  (_call_list_servers W request_id (g, e)).2.1 = g ∧
  trace (_call_list_servers W request_id (g, e)).2.2 = trace e ∧
  ((∀ n b, (n, b) ∈ backends g →
           ∃ tools, (MCPBackend.get_cached_tools (b, e)).1 = Ok tools) →
   ∃ v servers,
     (_call_list_servers W request_id (g, e)).1 = Ok v ∧
     let σ := heap (_call_list_servers W request_id (g, e)).2.2 in
     SearchFacts.response_text σ v =
       Some (json_dumps_indent W (JObj [("servers", JArr servers)])) ∧
     SearchFacts.item σ v "id" = Some request_id ∧
     List.length servers = List.length (backends g) ∧
     ∀ i n b, backends g !! i = Some (n, b) →
       ∃ tools,
         (MCPBackend.get_cached_tools (b, e)).1 = Ok tools ∧
         servers !! i = Some (server_doc W e n b tools)).
Proof.
  unfold _call_list_servers, bind, self. cbn [fst snd].
  destruct g as [c bs run]. unfold items. cbn [backends].
  pose proof (list_servers_from W c run [] bs e) as Hrun.
  cbn [List.length app Nat.add] in Hrun. rewrite Hrun. clear Hrun.
  assert (Hreply : ∀ servers,
    ∃ v σ,
      lift_env (text_response
                  (json_dumps_indent W (JObj [("servers", JArr servers)]))
                  request_id) (Make c bs run, e) =
        (Ok v, (Make c bs run, MkEnv σ (trace e) (clock_reads e))) ∧
      SearchFacts.response_text σ v =
        Some (json_dumps_indent W (JObj [("servers", JArr servers)])) ∧
      SearchFacts.item σ v "id" = Some request_id).
  { intros servers. unfold lift_env. cbn [fst snd].
    destruct (SearchFacts.text_response_run
                (json_dumps_indent W (JObj [("servers", JArr servers)]))
                request_id e) as (v & σ & -> & Ht & Hid).
    by exists v, σ. }
  split; [|split].
  - destruct (server_list W e bs) as [servers|x]; [|done].
    by destruct (Hreply servers) as (v & σ & -> & _).
  - destruct (server_list W e bs) as [servers|x]; [|done].
    by destruct (Hreply servers) as (v & σ & -> & _).
  - intros Hread.
    assert (Hlist : ∃ servers,
      server_list W e bs = Ok servers ∧
      List.length servers = List.length bs ∧
      ∀ i n b, bs !! i = Some (n, b) →
        ∃ tools, (MCPBackend.get_cached_tools (b, e)).1 = Ok tools ∧
                 servers !! i = Some (server_doc W e n b tools)).
    { clear Hreply. induction bs as [|[n b] bs IH]; [by exists []|].
      destruct (Hread n b) as [tools Ht]; [constructor|].
      destruct IH as (rest & Hrest & Hlen & Hl).
      { intros n' b' Hin. apply (Hread n'). by constructor. }
      exists (server_doc W e n b tools :: rest).
      cbn [server_list]. rewrite Ht, Hrest.
      split; [done|]. split; [simpl; by rewrite Hlen|].
      intros [|i] n' b' Hi; simpl in *.
      - injection Hi as <- <-. by exists tools.
      - by apply Hl. }
    destruct Hlist as (servers & -> & Hlen & Hl).
    destruct (Hreply servers) as (v & σ & -> & Ht & Hid).
    by exists v, servers.
Qed.

End ReadFacts.

(** ** Refusals of the two routes *)

Module RouterFacts.

Import Gateway.

Lemma dump_flat_dict (σ : list pyobj) k s :
  Py.dump_in (σ ++ [ODict [(k, VStr s)]]) (VRef (List.length σ)) =
    Some (JObj [(k, JStr s)]).
Proof.
  unfold Py.dump_in. cbn [Py.dump_fuel]. rewrite list_lookup_middle by done.
  simpl. by rewrite SearchFacts.dump_fuel_str.
Qed.

(** X21: With the meta facade disabled, [/mcp] answers 403 to every request,
    parsable or not, and touches nothing. *)
Theorem meta_disabled_forbidden W request g e
    (Hoff : GatewayConfig.enable_meta_mcp (config g) = false) :
  ∃ e',
    _handle_meta_mcp W request (g, e) =
      (Ok (WebResponse 403 (JObj [("error", JStr "Meta-MCP disabled")])),
       (g, e')) ∧
    trace e' = trace e.
Proof.
  unfold _handle_meta_mcp, bind, self. cbn [fst snd]. rewrite Hoff.
  cbn [negb]. unfold lift_env, Py.alloc, json_response, bind, lift_env, Py.dump,
    ret. cbn [fst snd heap].
  rewrite dump_flat_dict. by eexists.
Qed.

Lemma parse_error_run g e :
  ∃ e',
    parse_error (g, e) =
      (Ok (WebResponse 400 (IdFacts.error_doc (-32700) "Parse error" JNull)),
       (g, e')) ∧
    trace e' = trace e.
Proof.
  unfold parse_error, bind, lift_env, error_response, bind, Py.alloc,
    json_response, bind, lift_env, Py.dump, ret. simpl.
  rewrite (IdFacts.dump_error_reply _ _ (-32700) "Parse error").
  2:{ apply MetaFacts.error_reply_built. }
  simpl. by eexists.
Qed.

(** X22: A body that is not JSON: the meta facade answers 400 with the error
    [-32700] and the id [null], and touches nothing. *)
Theorem meta_parse_error W request g e x
    (Hon : GatewayConfig.enable_meta_mcp (config g) = true)
    (Hbody : request_json request = Raise x)
    (Hclass : exn_class x = "JSONDecodeError") :
  ∃ e',
    _handle_meta_mcp W request (g, e) =
      (Ok (WebResponse 400 (IdFacts.error_doc (-32700) "Parse error" JNull)),
       (g, e')) ∧
    trace e' = trace e.
Proof.
  unfold _handle_meta_mcp, bind, self. cbn [fst snd]. rewrite Hon.
  cbn [negb]. unfold except_json_decode_error, try_except, bind, of_result.
  rewrite Hbody. unfold raise. rewrite Hclass. cbn [String.eqb]. simpl.
  unfold ret. apply parse_error_run.
Qed.

(** X23: The router starts the backend before it looks at the body.  When
    the backend cannot be started it answers 503 with the error
    [-32000] and the id [null] without parsing the body; when the
    backend is started and the body is not JSON it answers 400 with the
    error [-32700], and the backend stays started. *)
Theorem router_starts_before_parsing W request g e i
    (Hname : match_name request ≠ "")
    (Hfound : index_of (match_name request) (backends g) 0 = Some i) :
  let started := with_backend i (MCPBackend.start W) (g, e) in
  (started.1 = Ok false →
   ∃ e',
     _handle_mcp W request (g, e) =
       (Ok (WebResponse 503
              (IdFacts.error_doc (-32000)
                 ("Backend unavailable: " +:+ match_name request) JNull)),
        (started.2.1, e')) ∧
     trace e' = trace started.2.2) ∧
  (∀ x, started.1 = Ok true →
        request_json request = Raise x →
        exn_class x = "JSONDecodeError" →
   ∃ e',
     _handle_mcp W request (g, e) =
       (Ok (WebResponse 400 (IdFacts.error_doc (-32700) "Parse error" JNull)),
        (started.2.1, e')) ∧
     trace e' = trace started.2.2).
Proof.
  intros started. unfold _handle_mcp.
  destruct (String.eqb_spec (match_name request) ""); [done|].
  unfold bind, self. cbn [fst snd]. rewrite Hfound.
  fold started. destruct started as [r [g1 e1]]. cbn [fst snd].
  split.
  - intros ->. cbn [negb].
    unfold bind, lift_env, error_response, bind, Py.alloc,
      json_response, bind, lift_env, Py.dump, ret. simpl.
    rewrite (IdFacts.dump_error_reply _ _ (-32000)
               ("Backend unavailable: " +:+ match_name request)).
    2:{ apply MetaFacts.error_reply_built. }
    simpl. by eexists.
  - intros x -> Hbody Hclass. cbn [negb].
    unfold except_json_decode_error, try_except, bind, of_result.
    rewrite Hbody. unfold raise. rewrite Hclass. simpl.
    apply parse_error_run.
Qed.

(** The sample gateway with the meta facade switched off. *)
Definition direct_only : t :=
  Make (GatewayConfig.Make "127.0.0.1" 39400 false [] "INFO" 30 30)
       (backends Demo.gateway_xy) true.

Definition garbled (name : string) : web_request :=
  WebRequest name (Raise (Exn "JSONDecodeError" "Expecting value")).

Lemma meta_disabled_forbidden_witness :
  ∃ e',
    _handle_meta_mcp Demo.world (garbled "") (direct_only, Demo.empty_env) =
      (Ok (WebResponse 403 (JObj [("error", JStr "Meta-MCP disabled")])),
       (direct_only, e')) ∧
    trace e' = trace Demo.empty_env.
Proof. apply meta_disabled_forbidden. reflexivity. Defined.

Lemma meta_parse_error_witness :
  ∃ e',
    _handle_meta_mcp Demo.world (garbled "") (Demo.gateway_xy, Demo.empty_env) =
      (Ok (WebResponse 400 (IdFacts.error_doc (-32700) "Parse error" JNull)),
       (Demo.gateway_xy, e')) ∧
    trace e' = trace Demo.empty_env.
Proof.
  apply (meta_parse_error Demo.world (garbled "") Demo.gateway_xy Demo.empty_env
           (Exn "JSONDecodeError" "Expecting value")); reflexivity.
Defined.


Lemma router_starts_before_parsing_witness :
  ∃ e',
    _handle_mcp Demo.world (garbled "x") (Demo.gateway_xy, Demo.empty_env) =
      (Ok (WebResponse 400 (IdFacts.error_doc (-32700) "Parse error" JNull)),
       ((with_backend 0 (MCPBackend.start Demo.world)
           (Demo.gateway_xy, Demo.empty_env)).2.1, e')) ∧
    trace e' =
      trace (with_backend 0 (MCPBackend.start Demo.world)
               (Demo.gateway_xy, Demo.empty_env)).2.2.
Proof.
  destruct (router_starts_before_parsing Demo.world (garbled "x")
              Demo.gateway_xy Demo.empty_env 0) as [_ Hparse];
    [discriminate|reflexivity|].
  apply (Hparse (Exn "JSONDecodeError" "Expecting value")); reflexivity.
Defined.

End RouterFacts.

(** ** Arguments of the meta tools *)

Module ArgumentFacts.

Import Gateway.

Lemma error_response_adds code message id e :
  ∃ v τ,
    error_response code message id e =
      (Ok v, MkEnv (heap e ++ τ) (trace e) (clock_reads e)) ∧
    MetaFacts.is_error_reply (heap e ++ τ) v code message id.
Proof.
  unfold error_response, bind, Py.alloc. simpl.
  eexists _, [_; _]. rewrite <- app_assoc. simpl. split; [reflexivity|].
  pose proof (MetaFacts.error_reply_built (heap e) code message id) as H.
  simpl in H. by rewrite <- app_assoc in H.
Qed.

Lemma error_response_run code message id e :
  ∃ v σ,
    error_response code message id e =
      (Ok v, MkEnv σ (trace e) (clock_reads e)) ∧
    MetaFacts.is_error_reply σ v code message id.
Proof.
  destruct (error_response_adds code message id e) as (v & τ & Hrun & Herr).
  by exists v, (heap e ++ τ).
Qed.

(** The error reply of a meta-tool, sent without touching the registry
    or the transports. *)
Definition rejected (W : World) (m : GM pyval) (g : t) (e : Env)
    (code : Z) (message : string) (id : pyval) : Prop :=
  ∃ v e',
    m (g, e) = (Ok v, (g, e')) ∧ trace e' = trace e ∧
    MetaFacts.is_error_reply (heap e') v code message id.

Lemma lift_error_response W code message id g e :
  rejected W (lift_env (error_response code message id)) g e code message id.
Proof.
  destruct (error_response_run code message id e) as (v & σ & Hrun & Herr).
  exists v, (MkEnv σ (trace e) (clock_reads e)).
  unfold lift_env. cbn [fst snd]. by rewrite Hrun.
Qed.

(** The parameter is absent, [None] or the empty string. *)
Definition missing (v : option pyval) : Prop :=
  v = None ∨ v = Some VNone ∨ v = Some (VStr "").

Lemma missing_falsy v (σ : list pyobj) :
  missing v → Py.truthy_in σ (default VNone v) = false.
Proof. by intros [->|[->| ->]]. Qed.

#[local] Opaque error_response.

(** X25: [gateway_list_tools]: without a server name the reply is the error
    [-32602]; with the name of a server that is not registered it is the
    error [-32001].  In both cases no backend is started. *)
Theorem list_tools_rejects W g e la ad rid
    (Ha : heap e !! la = Some (ODict ad)) :
  (missing (Dict.get "server" ad) →
   rejected W (_call_list_tools W (VRef la) rid) g e
     (-32602) "Missing 'server' parameter" rid) ∧
  (∀ s, Dict.get "server" ad = Some (VStr s) → s ≠ "" →
        index_of s (backends g) 0 = None →
   rejected W (_call_list_tools W (VRef la) rid) g e
     (-32001) ("Unknown server: " +:+ s) rid).
Proof.
  split.
  - intros Hmiss. unfold rejected, _call_list_tools, bind, lift_env,
      Py.get_or_none, Py.get, Py.deref, Py.truthy, bind, ret.
    cbn [fst snd]. rewrite Ha. cbn [fst snd].
    rewrite (missing_falsy _ _ Hmiss). cbn [negb].
    apply (lift_error_response W).
  - intros s Hs Hne Hnone. unfold rejected, _call_list_tools, bind, lift_env,
      Py.get_or_none, Py.get, Py.deref, Py.truthy, bind, ret.
    cbn [fst snd]. rewrite Ha. cbn [fst snd]. rewrite Hs.
    change (default VNone (Some (VStr s))) with (VStr s).
    cbn [Py.truthy_in]. apply String.eqb_neq in Hne. rewrite Hne.
    cbn [negb]. unfold find_server, bind, self, ret, format. cbn [fst snd].
    rewrite Hnone. unfold lift_env, ret. cbn [fst snd].
    destruct (error_response_run (-32001) ("Unknown server: " +:+ s) rid e)
      as (v & σ & Hrun & Herr).
    rewrite Hrun. cbn [fst snd]. by eexists v, _.
Qed.

(** X26: [gateway_invoke] checks its parameters in a fixed order: a missing
    server name is reported first, whatever the tool name is; then a
    missing tool name, even when the server is not registered; then a
    server that is not registered.  In all three cases no backend is
    started and nothing is sent. *)
Theorem invoke_rejects W g e la ad rid
    (Ha : heap e !! la = Some (ODict ad)) :
  (missing (Dict.get "server" ad) →
   rejected W (_call_invoke W (VRef la) rid) g e
     (-32602) "Missing 'server' parameter" rid) ∧
  (∀ s, Dict.get "server" ad = Some (VStr s) → s ≠ "" →
        missing (Dict.get "tool" ad) →
   rejected W (_call_invoke W (VRef la) rid) g e
     (-32602) "Missing 'tool' parameter" rid) ∧
  (∀ s tool, Dict.get "server" ad = Some (VStr s) → s ≠ "" →
             Dict.get "tool" ad = Some (VStr tool) → tool ≠ "" →
             index_of s (backends g) 0 = None →
   rejected W (_call_invoke W (VRef la) rid) g e
     (-32001) ("Unknown server: " +:+ s) rid).
Proof.
  assert (Hargs : ∀ s0 : t * Env,
    heap s0.2 !! la = Some (ODict ad) →
    ∃ v σ, lift_env (get_or_empty_dict (VRef la) "arguments") s0 =
             (Ok v, (s0.1, MkEnv σ (trace s0.2) (clock_reads s0.2)))).
  { intros [g0 e0] H0. cbn [fst snd] in H0. unfold lift_env, get_or_empty_dict, bind, Py.get,
      Py.deref, bind, ret, Py.alloc. cbn [fst snd]. rewrite H0. cbn [fst snd].
    destruct (Dict.get "arguments" ad); [destruct e0|]; by eexists _, _. }
  repeat split.
  - intros Hmiss. unfold rejected, _call_invoke, bind.
    unfold lift_env at 1 2, Py.get_or_none, Py.get, Py.deref, bind, ret.
    cbn [fst snd]. rewrite Ha. cbn [fst snd]. rewrite Ha. cbn [fst snd].
    destruct (Hargs (g, e) Ha) as (va & σ & ->). cbn [fst snd].
    unfold lift_env at 1, Py.truthy. cbn [fst snd heap].
    rewrite (missing_falsy _ _ Hmiss). cbn [negb].
    destruct (lift_error_response W (-32602) "Missing 'server' parameter" rid
                g (MkEnv σ (trace e) (clock_reads e)))
      as (v & e' & Hrun & Htrace & Herr).
    rewrite Hrun. by exists v, e'.
  - intros s Hs Hne Hmiss. unfold rejected, _call_invoke, bind.
    unfold lift_env at 1 2, Py.get_or_none, Py.get, Py.deref, bind, ret.
    cbn [fst snd]. rewrite Ha. cbn [fst snd]. rewrite Ha. cbn [fst snd].
    destruct (Hargs (g, e) Ha) as (va & σ & ->). cbn [fst snd].
    unfold lift_env at 1, Py.truthy. cbn [fst snd heap]. rewrite Hs.
    change (default VNone (Some (VStr s))) with (VStr s).
    cbn [Py.truthy_in]. apply String.eqb_neq in Hne. rewrite Hne. cbn [negb].
    unfold lift_env at 1. cbn [fst snd heap].
    rewrite (missing_falsy _ _ Hmiss). cbn [negb].
    destruct (lift_error_response W (-32602) "Missing 'tool' parameter" rid
                g (MkEnv σ (trace e) (clock_reads e)))
      as (v & e' & Hrun & Htrace & Herr).
    rewrite Hrun. by exists v, e'.
  - intros s tool Hs Hne Ht Htne Hnone. unfold rejected, _call_invoke, bind.
    unfold lift_env at 1 2, Py.get_or_none, Py.get, Py.deref, bind, ret.
    cbn [fst snd]. rewrite Ha. cbn [fst snd]. rewrite Ha. cbn [fst snd].
    destruct (Hargs (g, e) Ha) as (va & σ & ->). cbn [fst snd].
    unfold lift_env at 1, Py.truthy. cbn [fst snd heap]. rewrite Hs.
    change (default VNone (Some (VStr s))) with (VStr s).
    cbn [Py.truthy_in]. apply String.eqb_neq in Hne. rewrite Hne. cbn [negb].
    unfold lift_env at 1. cbn [fst snd heap]. rewrite Ht.
    change (default VNone (Some (VStr tool))) with (VStr tool).
    cbn [Py.truthy_in]. apply String.eqb_neq in Htne. rewrite Htne.
    cbn [negb].
    unfold find_server, bind, self, ret, format. cbn [fst snd].
    rewrite Hnone. unfold lift_env, ret. cbn [fst snd].
    destruct (error_response_run (-32001) ("Unknown server: " +:+ s) rid
                (MkEnv σ (trace e) (clock_reads e)))
      as (v & σ' & Hrun & Herr).
    rewrite Hrun. cbn [fst snd]. by eexists v, _.
Qed.

(** X27: [gateway_search_tools]: a query that is absent or empty is answered
    with the error [-32602], and no backend is started. *)
Theorem search_rejects_empty_query W g e la ad rid q
    (Ha : heap e !! la = Some (ODict ad))
    (Hq : default (VStr "") (Dict.get "query" ad) = VStr q)
    (Hempty : Str.lower q = "") :
  rejected W (_call_search_tools W (VRef la) rid) g e
    (-32602) "Missing 'query' parameter" rid.
Proof.
  unfold rejected, _call_search_tools, bind.
  unfold lift_env at 1 2 3, get_or_empty_str, lower, Py.get, Py.deref,
    bind, ret.
  cbn [fst snd]. rewrite Ha. cbn [fst snd]. rewrite Hq. cbn [fst snd].
  rewrite Ha. cbn [fst snd]. rewrite Hempty. cbn [String.eqb].
  apply (lift_error_response W).
Qed.

(** The store with one dict of arguments. *)
Definition given (arguments : Dict.t) : Env := MkEnv [ODict arguments] [] 0.

Lemma list_tools_rejects_witness :
  rejected Demo.world (_call_list_tools Demo.world (VRef 0) (VInt 7))
    Demo.gateway_xy (given [("server", VStr "z")])
    (-32001) ("Unknown server: " +:+ "z") (VInt 7).
Proof.
  destruct (list_tools_rejects Demo.world Demo.gateway_xy
              (given [("server", VStr "z")]) 0 [("server", VStr "z")] (VInt 7))
    as [_ Hunknown]; [reflexivity|].
  apply Hunknown; [reflexivity|discriminate|reflexivity].
Defined.

Lemma invoke_rejects_witness :
  rejected Demo.world (_call_invoke Demo.world (VRef 0) (VInt 7))
    Demo.gateway_xy (given [("server", VStr "z")])
    (-32602) "Missing 'tool' parameter" (VInt 7).
Proof.
  destruct (invoke_rejects Demo.world Demo.gateway_xy
              (given [("server", VStr "z")]) 0 [("server", VStr "z")] (VInt 7))
    as (_ & Htool & _); [reflexivity|].
  apply (Htool "z"); [reflexivity|discriminate|by left].
Defined.

Lemma search_rejects_empty_query_witness :
  rejected Demo.world (_call_search_tools Demo.world (VRef 0) (VInt 7))
    Demo.gateway_xy (given [("limit", VInt 3)])
    (-32602) "Missing 'query' parameter" (VInt 7).
Proof.
  apply (search_rejects_empty_query Demo.world Demo.gateway_xy
           (given [("limit", VInt 3)]) 0 [("limit", VInt 3)] (VInt 7) "");
    reflexivity.
Defined.

End ArgumentFacts.

(** ** Methods of the meta facade *)

Module MethodFacts.

Import Gateway.
Import JsonFacts.

(** What the handler has after it parsed the body [JObj fields]. *)
Lemma receive_object fields e :
  distinct_keys (JObj fields) = true →
  ∃ lb d σ,
    Py.load (JObj fields) e = (Ok (VRef lb), MkEnv σ (trace e) (clock_reads e)) ∧
    σ !! lb = Some (ODict d) ∧
    lb = (List.length σ - 1)%nat ∧
    (∀ l o, heap e !! l = Some o → σ !! l = Some o) ∧
    (∀ k, member k fields = None → Dict.get k d = None) ∧
    (∀ k j, member k fields = Some j →
            ∃ v, Dict.get k d = Some v ∧
                 ∀ τ, Py.dump_fuel (List.length (σ ++ τ)) (σ ++ τ) v = Some j ∧
                      Py.dump_in (σ ++ τ) v = Some j) ∧
    (∀ k s, member k fields = Some (JStr s) → Dict.get k d = Some (VStr s)) ∧
    (∀ τ, Py.dump_in (σ ++ τ) (VRef lb) = Some (JObj fields)).
Proof.
  intros Hd. destruct (load_object fields (heap e) Hd) as (d & ρ & Hload & HF).
  unfold Py.load. rewrite Hload.
  exists (List.length (heap e ++ ρ)), d. eexists. split; [reflexivity|].
  split; [by apply list_lookup_middle|].
  split; [rewrite !length_app; simpl; lia|].
  split; [intros l o Hl; by repeat apply lookup_app_l_Some|].
  split; [intros k; by apply (holds_fields_absent (heap e ++ ρ))|].
  split.
  { intros k j Hk.
    destruct (holds_fields_present _ _ _ k j HF Hk) as (v & Hv & Hrep).
    exists v. split; [done|]. intros τ.
    apply (represents_extends _ [ODict d]) in Hrep.
    split; [apply Hrep; rewrite !length_app; lia|by apply represents_dump_in]. }
  split.
  { intros k s Hk.
    destruct (holds_fields_present _ _ _ k (JStr s) HF Hk) as (v & Hv & Hrep).
    by apply represents_str in Hrep as ->. }
  intros τ. pose proof (load_represents (JObj fields) Hd (heap e)) as Hrep.
  rewrite Hload in Hrep. by apply represents_dump_in.
Qed.

Lemma dump_error_reply_id (σ : list pyobj) v code message id jid :
  MetaFacts.is_error_reply σ v code message id →
  Py.dump_fuel (List.length σ) σ id = Some jid →
  Py.dump_in σ v = Some (IdFacts.error_doc code message jid).
Proof.
  intros (l & le & -> & Hl & Hle) Hid. unfold Py.dump_in.
  cbn [Py.dump_fuel]. rewrite Hl.
  destruct (List.length σ) as [|n] eqn:Hn.
  { apply length_zero_iff_nil in Hn. by subst. }
  cbn [Py.mapM_opt snd fst]. rewrite SearchFacts.dump_fuel_str.
  cbn [Py.dump_fuel]. rewrite Hle. cbn [Py.mapM_opt snd fst].
  rewrite SearchFacts.dump_fuel_str.
  replace (Py.dump_fuel n σ (VInt code)) with (Some (JNum code)) by by destruct n.
  cbn [Py.dump_fuel] in Hid. by rewrite Hid.
Qed.

Lemma dump_result_reply (σ : list pyobj) l r id jr jid :
  σ !! l = Some (ODict [("jsonrpc", VStr "2.0"); ("result", r); ("id", id)]) →
  Py.dump_fuel (List.length σ) σ r = Some jr →
  Py.dump_fuel (List.length σ) σ id = Some jid →
  Py.dump_in σ (VRef l) =
    Some (JObj [("jsonrpc", JStr "2.0"); ("result", jr); ("id", jid)]).
Proof.
  intros Hl Hr Hid. unfold Py.dump_in. cbn [Py.dump_fuel]. rewrite Hl.
  cbn [Py.mapM_opt snd fst]. rewrite SearchFacts.dump_fuel_str, Hr, Hid. done.
Qed.

(** The names of the methods the meta facade serves itself. *)
Definition served : list string := ["initialize"; "tools/list"; "tools/call"].

(** The id the meta facade answers with: the one of the request,
    [null] when it has none. *)
Definition reply_id (fields : list (string * json)) : json :=
  default JNull (member "id" fields).

(** X24: A request whose method is none of [initialize], [tools/list] and
    [tools/call] is answered without touching a backend, with the
    status 200 and the id of the request: a method that starts with
    ["notifications/"] gets the result [null], every other method,
    the empty one of a request without ["method"] included, gets the
    error [-32601]. *)
Theorem meta_other_methods W request g e fields m
    (Hon : GatewayConfig.enable_meta_mcp (config g) = true)
    (Hbody : request_json request = Ok (JObj fields))
    (Hkeys : distinct_keys (JObj fields) = true)
    (Hmethod : default (JStr "") (member "method" fields) = JStr m)
    (Hother : m ∉ served) :
  ∃ e',
    _handle_meta_mcp W request (g, e) =
      (Ok (WebResponse 200
             (if Str.startswith "notifications/" m
              then JObj [("jsonrpc", JStr "2.0"); ("result", JNull);
                         ("id", reply_id fields)]
              else IdFacts.error_doc (-32601) ("Unknown method: " +:+ m)
                     (reply_id fields))),
       (g, e')) ∧
    trace e' = trace e.
Proof.
  assert (Hm1 : String.eqb m "initialize" = false).
  { apply String.eqb_neq. intros ->. apply Hother. repeat constructor. }
  assert (Hm2 : String.eqb m "tools/list" = false).
  { apply String.eqb_neq. intros ->. apply Hother. repeat constructor. }
  assert (Hm3 : String.eqb m "tools/call" = false).
  { apply String.eqb_neq. intros ->. apply Hother. repeat constructor. }
  destruct (receive_object fields e Hkeys)
    as (lb & d & σ & Hload & Hlb & _ & _ & Habsent & Hpresent & Hstr & _).
  unfold _handle_meta_mcp, bind, self. cbn [fst snd]. rewrite Hon.
  cbn [negb]. unfold except_json_decode_error, try_except, bind, of_result.
  rewrite Hbody. unfold ret at 1. unfold lift_env at 1. cbn [fst snd].
  rewrite Hload. unfold ret at 1. cbn [fst snd].
  unfold lift_env at 1 2, get_or_empty_str, Py.get_or_none, Py.get, Py.deref,
    bind, ret. cbn [fst snd heap]. rewrite Hlb. cbn [fst snd heap].
  rewrite Hlb. cbn [fst snd].
  assert (Hdm : default (VStr "") (Dict.get "method" d) = VStr m).
  { destruct (member "method" fields) as [j|] eqn:Hj.
    - simpl in Hmethod. subst j. by rewrite (Hstr "method" m Hj).
    - simpl in Hmethod. injection Hmethod as <-.
      by rewrite (Habsent "method" Hj). }
  rewrite Hdm. cbn [pyval_eqb]. rewrite Hm1, Hm2, Hm3.
  set (rid := default VNone (Dict.get "id" d)).
  assert (Hrid : ∀ τ, Py.dump_fuel (List.length (σ ++ τ)) (σ ++ τ) rid =
                      Some (reply_id fields)).
  { intros τ. unfold rid, reply_id.
    destruct (member "id" fields) as [j|] eqn:Hj.
    - destruct (Hpresent "id" j Hj) as (v & -> & Hv). apply Hv.
    - rewrite (Habsent "id" Hj). by destruct (List.length (σ ++ τ)). }
  destruct (Str.startswith "notifications/" m).
  - unfold lift_env at 1, result_response, Py.alloc. cbn [fst snd heap trace clock_reads].
    unfold json_response, bind, lift_env, Py.dump. cbn [fst snd heap].
    rewrite (dump_result_reply _ _ VNone rid JNull (reply_id fields)).
    + unfold ret. by eexists.
    + by apply list_lookup_middle.
    + by destruct (List.length _).
    + apply Hrid.
  - unfold lift_env at 1. cbn [fst snd].
    destruct (ArgumentFacts.error_response_adds (-32601)
                ("Unknown method: " +:+ m) rid
                (MkEnv σ (trace e) (clock_reads e)))
      as (v & τ & Hrun & Herr).
    rewrite Hrun. cbn [fst snd heap] in *.
    unfold json_response, bind, lift_env, Py.dump. cbn [fst snd heap].
    rewrite (dump_error_reply_id _ v (-32601) ("Unknown method: " +:+ m) rid
               (reply_id fields) Herr (Hrid τ)).
    unfold ret. by eexists.
Qed.

Definition initialized_fields : list (string * json) :=
  [("jsonrpc", JStr "2.0"); ("method", JStr "notifications/initialized")].

Lemma meta_other_methods_witness :
  ∃ e',
    _handle_meta_mcp Demo.world (WebRequest "" (Ok (JObj initialized_fields)))
      (Demo.gateway_xy, Demo.empty_env) =
      (Ok (WebResponse 200
             (if Str.startswith "notifications/" "notifications/initialized"
              then JObj [("jsonrpc", JStr "2.0"); ("result", JNull);
                         ("id", reply_id initialized_fields)]
              else IdFacts.error_doc (-32601)
                     ("Unknown method: " +:+ "notifications/initialized")
                     (reply_id initialized_fields))),
       (Demo.gateway_xy, e')) ∧
    trace e' = trace Demo.empty_env.
Proof.
  apply (meta_other_methods Demo.world
           (WebRequest "" (Ok (JObj initialized_fields)))
           Demo.gateway_xy Demo.empty_env initialized_fields
           "notifications/initialized");
    try reflexivity.
  unfold served. intros H.
  repeat (apply elem_of_cons in H as [H|H]; [discriminate|]).
  by apply elem_of_nil in H.
Defined.

End MethodFacts.

(** ** The limit of a search *)

Module LimitFacts.

Import Gateway.

#[local] Arguments Str.take : simpl never.
#[local] Arguments Str.lower : simpl never.

Lemma reached_int ms n e : reached ms (VInt n) e = (Ok (n <=? Z.of_nat (List.length ms)), e).
Proof. done. Qed.

(** A scan that starts below the limit ends at the limit at most. *)
Lemma scan_tools_bound name q n tools m e ms e' :
  scan_tools name q (VInt n) tools m e = (Ok ms, e') →
  Z.of_nat (List.length m) < n →
  Z.of_nat (List.length ms) <= n.
Proof.
  revert m e. induction tools as [|tool tools IH]; intros m e.
  - intros [= <- <-]. lia.
  - unfold scan_tools; fold scan_tools. unfold bind.
    destruct (get_or_empty_str tool "name" e) as [[tn|x] e1]; [|done].
    destruct (get_or_empty_str tool "description" e1) as [[td|x] e2]; [|done].
    destruct (lower tn e2) as [[ln|x] e3]; [|done].
    match goal with
    | |- context [match ?hit e3 with _ => _ end] =>
        destruct (hit e3) as [[h|x] e4]; [|done]
    end.
    assert (Hadd : ∀ m' e5,
      (if h
       then let* short := slice200 td in
            let* m0 := Py.alloc (ODict [("server", VStr name); ("tool", tn);
                                        ("description", short)]) in
            ret (m ++ [m0])
       else ret m) e4 = (Ok m', e5) →
      (List.length m' <= S (List.length m))%nat).
    { intros m' e5. destruct h.
      - unfold bind. destruct (slice200 td e4) as [[short|x] e6]; [|done].
        unfold Py.alloc, ret. intros [= <- <-]. rewrite length_app. simpl. lia.
      - intros [= <- <-]. lia. }
    match goal with
    | |- context [match ?add e4 with _ => _ end] =>
        destruct (add e4) as [[m'|x] e5] eqn:Hm; [|done]
    end.
    apply Hadd in Hm. rewrite reached_int.
    destruct (Z.leb_spec n (Z.of_nat (List.length m'))) as [Hfull|Hshort].
    + intros [= <- <-] Hlt. lia.
    + intros Hrun _. by apply (IH m' e5).
Qed.

Lemma search_backends_bound W q n entries m s ms s' :
  search_backends W q (VInt n) entries m s = (Ok ms, s') →
  Z.of_nat (List.length m) < n →
  Z.of_nat (List.length ms) <= n.
Proof.
  revert m s. induction entries as [|[i name] entries IH]; intros m s.
  - intros [= <- <-]. lia.
  - simpl. unfold bind.
    destruct (with_backend i (MCPBackend.start W) s) as [[ok|x] s1]; [|done].
    destruct (with_backend i MCPBackend.get_cached_tools s1)
      as [[tools|x] s2]; [|done].
    unfold lift_env.
    destruct (scan_tools name q (VInt n) tools m s2.2) as [[m'|x] e3] eqn:Hscan;
      [|done].
    unfold ret. cbn [fst snd].
    destruct (Z.leb_spec n (Z.of_nat (List.length m'))) as [Hfull|Hshort].
    + intros [= <- <-] Hlt. by apply (scan_tools_bound _ _ _ _ _ _ _ _ Hscan).
    + intros Hrun _. by apply (IH m' (s2.1, e3)).
Qed.

Lemma dump_all_length ms e js e' :
  dump_all ms e = (Ok js, e') → List.length js = List.length ms.
Proof.
  revert js e. induction ms as [|v ms IH]; intros js e.
  - by intros [= <- <-].
  - simpl. unfold bind. destruct (Py.dump v e) as [[j|x] e1]; [|done].
    destruct (dump_all ms e1) as [[js'|x] e2] eqn:Hd; [|done].
    unfold ret. intros [= <- <-]. simpl. f_equal. by apply (IH js' e1).
Qed.

#[local] Opaque text_response.

(** X28: A search with a limit of at least 1 (10 when none is given) returns
    at most that many matches, and the total it reports is their
    number. *)
Theorem search_respects_limit W g e la ad rid q n v s'
    (Ha : heap e !! la = Some (ODict ad))
    (Hq : default (VStr "") (Dict.get "query" ad) = VStr q)
    (Hne : Str.lower q ≠ "")
    (Hlim : default (VInt 10) (Dict.get "limit" ad) = VInt n)
    (Hpos : 1 <= n)
    (Hrun : _call_search_tools W (VRef la) rid (g, e) = (Ok v, s')) :
  ∃ found,
    SearchFacts.response_text (heap s'.2) v =
      Some (json_dumps_indent W
              (JObj [("query", JStr (Str.lower q)); ("matches", JArr found);
                     ("total", JNum (Z.of_nat (List.length found)))])) ∧
    Z.of_nat (List.length found) <= n.
Proof.
  revert Hrun. unfold _call_search_tools, bind.
  unfold lift_env at 1 2 3, get_or_empty_str, lower, Py.get, Py.deref,
    bind, ret.
  cbn [fst snd]. rewrite Ha. cbn [fst snd]. rewrite Hq. cbn [fst snd].
  rewrite Ha. cbn [fst snd]. rewrite Hlim.
  destruct (String.eqb_spec (Str.lower q) ""); [done|].
  unfold self. cbn [fst snd].
  destruct (search_backends W (Str.lower q) (VInt n) (items g) [] (g, e))
    as [[ms|x] [g1 e1]] eqn:Hsearch; [|done].
  apply search_backends_bound in Hsearch; [|simpl; lia].
  unfold lift_env at 1. cbn [fst snd].
  destruct (dump_all ms e1) as [[found|x] e2] eqn:Hdump; [|done].
  apply dump_all_length in Hdump. unfold lift_env. cbn [fst snd].
  match goal with
  | |- context [text_response ?text ?id ?env] =>
      destruct (SearchFacts.text_response_run text id env)
        as (v' & σ & Hrun & Htext & _);
      rewrite Hrun
  end.
  intros [= <- <-]. cbn [fst snd heap]. exists found.
  rewrite Hdump. split; [done|lia].
Qed.

(** The search of the sample registry for ["t"], with the limit 2. *)
Definition two_found : result pyval * (t * Env) :=
  Eval vm_compute in
    _call_search_tools Demo.world (VRef 0) (VInt 7)
      (Demo.gateway_xy, SearchFacts.search_env 2).

Lemma search_respects_limit_witness :
  ∃ found,
    SearchFacts.response_text (heap two_found.2.2) (VRef 11) =
      Some (json_dumps_indent Demo.world
              (JObj [("query", JStr (Str.lower "t")); ("matches", JArr found);
                     ("total", JNum (Z.of_nat (List.length found)))])) ∧
    Z.of_nat (List.length found) <= 2.
Proof.
  apply (search_respects_limit Demo.world Demo.gateway_xy
           (SearchFacts.search_env 2) 0
           [("query", VStr "t"); ("limit", VInt 2)] (VInt 7) "t" 2
           (VRef 11) two_found.2);
    first [reflexivity | discriminate | lia | (vm_compute; reflexivity)].
Defined.

End LimitFacts.

(** ** Forwarding to a stdio child *)

Module ForwardFacts.

Import Gateway.
Import JsonFacts.

(** A request that is not answered from the cache goes to the
    transport, after [last_used] was read from the clock. *)
Lemma send_request_path W b e rl rq :
  heap e !! rl = Some (ODict rq) →
  Dict.get "method" rq ≠ Some (VStr "tools/list") →
  MCPBackend.send_request W (VRef rl) (b, e) =
    (if MCPBackend.is_http b
     then MCPBackend._send_http_request W (VRef rl)
     else MCPBackend._send_stdio_request W (VRef rl))
      (MCPBackend.set_last_used (clock W (clock_reads e)) b,
       MkEnv (heap e) (trace e) (S (clock_reads e))).
Proof.
  intros Hrq Hm.
  unfold MCPBackend.send_request, bind, MCPBackend.now, MCPBackend.modify,
    lift_env, MCPBackend.self, ret, Py.get_or_none, Py.get, Py.truthy,
    Py.deref, bind, ret.
  cbn [fst snd heap]. rewrite Hrq. cbn [fst snd heap].
  assert (Hneq : pyval_eqb (default VNone (Dict.get "method" rq))
                           (VStr "tools/list") = false).
  { destruct (Dict.get "method" rq) as [[| | |m|]|]; try done. simpl.
    apply String.eqb_neq. intros ->. done. }
  rewrite Hneq. cbn [andb]. by destruct b.
Qed.

(** X29: The router passes a request on as it came and the answer back as
    it comes: a request with an ["id"], other than [tools/list], for a
    running stdio backend is written to the child as the document the
    client sent, and the document the child answers is the body of the
    response, with the status 200.  The backend is not restarted, and
    its [last_used] is read from the clock. *)
Theorem router_forwards_unchanged W request g e i n b pid fields doc
    (Hname : match_name request ≠ "")
    (Hfound : index_of (match_name request) (backends g) 0 = Some i)
    (Hb : backends g !! i = Some (n, b))
    (Halive : IdFacts.alive W b e pid)
    (Hbody : request_json request = Ok (JObj fields))
    (Hkeys : distinct_keys (JObj fields) = true)
    (Hid : member "id" fields ≠ None)
    (Hmethod : member "method" fields ≠ Some (JStr "tools/list"))
    (Hwrite : stdin_write W (trace e) pid (JObj fields) = Ok tt)
    (Hread : stdout_readline W
               ((MCPBackend.name b, StdinWrite pid (JObj fields)) :: trace e)
               pid 30 = RdLine (Ok doc))
    (Hdoc : distinct_keys doc = true) :
  ∃ g' e',
    _handle_mcp W request (g, e) = (Ok (WebResponse 200 doc), (g', e')) ∧
    trace e' =
      (MCPBackend.name b, StdoutReadline pid 30)
        :: (MCPBackend.name b, StdinWrite pid (JObj fields)) :: trace e ∧
    backends g' !! i =
      Some (n, MCPBackend.set_last_used (clock W (clock_reads e)) b).
Proof.
  destruct g as [c bs run]. cbn [backends] in *.
  assert (Hrunning : BackendFacts.running W b e = true).
  { destruct Halive as (Hh & Hp & Ha). unfold BackendFacts.running.
    by rewrite Hh, Hp. }
  destruct (MethodFacts.receive_object fields e Hkeys)
    as (lb & d & σ & Hload & Hlb & _ & _ & Habsent & Hpresent & Hstr & Hdump).
  unfold _handle_mcp.
  destruct (String.eqb_spec (match_name request) ""); [done|].
  unfold bind, self. cbn [fst snd backends]. rewrite Hfound.
  rewrite (ReadFacts.with_backend_read _ c run bs i n b e (Ok true) Hb
             (StartupFacts.start_running_noop W b e Hrunning)).
  cbn [negb].
  unfold except_json_decode_error, try_except, bind, of_result.
  rewrite Hbody. unfold ret at 1. unfold lift_env at 1. cbn [fst snd].
  rewrite Hload. cbn [fst snd].
  unfold with_backend at 1. cbn [fst snd backends]. rewrite Hb.
  assert (Hd_id : ∃ id, Dict.get "id" d = Some id).
  { destruct (member "id" fields) as [j|] eqn:Hj; [|done].
    destruct (Hpresent "id" j Hj) as (v & Hv & _). by exists v. }
  destruct Hd_id as [id Hd_id].
  assert (Hd_method : Dict.get "method" d ≠ Some (VStr "tools/list")).
  { destruct (member "method" fields) as [j|] eqn:Hj.
    - destruct (Hpresent "method" j Hj) as (v & Hv & Hrep).
      rewrite Hv. intros [= ->]. destruct (Hrep []) as [_ Hrep'].
      unfold Py.dump_in in Hrep'. simpl in Hrep'. congruence.
    - by rewrite (Habsent "method" Hj). }
  rewrite (send_request_path W b (MkEnv σ (trace e) (clock_reads e)) lb d
             Hlb Hd_method).
  destruct Halive as (Hh & Hp & Ha). rewrite Hh. cbn [heap trace clock_reads].
  pose proof (Hdump []) as Hline. rewrite app_nil_r in Hline.
  rewrite (IdFacts.forwarded_reply W _ _ lb d pid (JObj fields) id doc);
    try done.
  cbn [fst snd heap trace clock_reads].
  unfold json_response, bind, lift_env, Py.dump. cbn [fst snd heap].
  pose proof (load_represents doc Hdoc σ) as Hrep.
  apply (represents_dump_in _ []) in Hrep. rewrite app_nil_r in Hrep.
  rewrite Hrep. unfold ret. cbn [fst snd].
  eexists _, _. split; [reflexivity|]. cbn [trace backends set_backends].
  split; [by destruct b|].
  apply list_lookup_insert_eq. by apply lookup_lt_Some in Hb.
Qed.

(** The request [gateway_invoke] builds for the backend. *)
Definition call_doc (id : json) (tool : string) (arguments : json) : json :=
  JObj [("jsonrpc", JStr "2.0"); ("method", JStr "tools/call"); ("id", id);
        ("params", JObj [("name", JStr tool); ("arguments", arguments)])].

Lemma dump_call_request (σ : list pyobj) lp lc id tool args jid jargs :
  σ !! lc = Some (ODict [("jsonrpc", VStr "2.0"); ("method", VStr "tools/call");
                         ("id", id); ("params", VRef lp)]) →
  σ !! lp = Some (ODict [("name", VStr tool); ("arguments", args)]) →
  Py.dump_fuel (List.length σ) σ id = Some jid →
  Py.dump_fuel (List.length σ - 1) σ args = Some jargs →
  Py.dump_in σ (VRef lc) = Some (call_doc jid tool jargs).
Proof.
  intros Hc Hp Hid Hargs. unfold Py.dump_in. cbn [Py.dump_fuel]. rewrite Hc.
  cbn [Py.mapM_opt snd fst]. rewrite !SearchFacts.dump_fuel_str, Hid.
  destruct (List.length σ) as [|k] eqn:Hk.
  { apply length_zero_iff_nil in Hk. by subst. }
  cbn [Py.dump_fuel]. rewrite Hp. cbn [Py.mapM_opt snd fst].
  rewrite SearchFacts.dump_fuel_str.
  replace (S k - 1)%nat with k in Hargs by lia. by rewrite Hargs.
Qed.

(** X30: [gateway_invoke] on a running stdio backend writes one
    [tools/call] request to the child, with the id of the meta request,
    the tool name and the arguments as given (an empty object when none
    are given), and returns what the child answers, as the child
    answers it. *)
Theorem invoke_forwards_call W g e la ad rid s tool i n b pid jid jargs doc
    (Ha : heap e !! la = Some (ODict ad))
    (Hs : Dict.get "server" ad = Some (VStr s))
    (Hsne : s ≠ "")
    (Ht : Dict.get "tool" ad = Some (VStr tool))
    (Htne : tool ≠ "")
    (Hargs : match Dict.get "arguments" ad with
             | Some va => Py.dump_in (heap e) va = Some jargs
             | None => jargs = JObj []
             end)
    (Hid : Py.dump_in (heap e) rid = Some jid)
    (Hfound : index_of s (backends g) 0 = Some i)
    (Hb : backends g !! i = Some (n, b))
    (Halive : IdFacts.alive W b e pid)
    (Hwrite : stdin_write W (trace e) pid (call_doc jid tool jargs) = Ok tt)
    (Hread : stdout_readline W
               ((MCPBackend.name b, StdinWrite pid (call_doc jid tool jargs))
                  :: trace e) pid 30 = RdLine (Ok doc)) :
  ∃ v g' e',
    _call_invoke W (VRef la) rid (g, e) = (Ok v, (g', e')) ∧
    trace e' =
      (MCPBackend.name b, StdoutReadline pid 30)
        :: (MCPBackend.name b, StdinWrite pid (call_doc jid tool jargs))
        :: trace e ∧
    (distinct_keys doc = true → Py.dump_in (heap e') v = Some doc).
Proof.
  destruct g as [c bs run]. cbn [backends] in *.
  destruct Halive as (Hh & Hp & Halive).
  apply String.eqb_neq in Hsne, Htne.
  unfold _call_invoke, bind.
  unfold lift_env at 1 2, Py.get_or_none, Py.get, Py.deref, bind, ret.
  cbn [fst snd]. rewrite Ha. cbn [fst snd]. rewrite Ha. cbn [fst snd].
  rewrite Hs, Ht.
  change (default VNone (Some (VStr s))) with (VStr s).
  change (default VNone (Some (VStr tool))) with (VStr tool).
  assert (Hgo : ∀ (ρ : list pyobj) args,
    (∀ τ, Py.dump_fuel (S (List.length (heap e ++ ρ ++ τ)))
            (heap e ++ ρ ++ τ) args = Some jargs) →
    ∃ v g' e',
      (let* params := lift_env (Py.alloc (ODict [("name", VStr tool);
                                                 ("arguments", args)])) in
       let* call_request :=
         lift_env (Py.alloc (ODict [("jsonrpc", VStr "2.0");
                                    ("method", VStr "tools/call");
                                    ("id", rid); ("params", params)])) in
       with_backend i (MCPBackend.send_request W call_request))
        (Make c bs run, MkEnv (heap e ++ ρ) (trace e) (clock_reads e)) =
        (Ok v, (g', e')) ∧
      trace e' =
        (MCPBackend.name b, StdoutReadline pid 30)
          :: (MCPBackend.name b, StdinWrite pid (call_doc jid tool jargs))
          :: trace e ∧
      (distinct_keys doc = true → Py.dump_in (heap e') v = Some doc)).
  { intros ρ args Hdargs.
    unfold bind, lift_env, Py.alloc. cbn [fst snd heap trace clock_reads].
    unfold with_backend. cbn [fst snd backends]. rewrite Hb.
    set (σ := heap e ++ ρ).
    set (params := [("name", VStr tool); ("arguments", args)]).
    set (call := [("jsonrpc", VStr "2.0"); ("method", VStr "tools/call");
                  ("id", rid); ("params", VRef (List.length σ))]).
    set (σ2 := (σ ++ [ODict params]) ++ [ODict call]).
    assert (Hcall : σ2 !! List.length (σ ++ [ODict params]) = Some (ODict call))
      by by apply list_lookup_middle.
    assert (Hparams : σ2 !! List.length σ = Some (ODict params)).
    { apply lookup_app_l_Some. by apply list_lookup_middle. }
    assert (Hσ2 : σ2 = heap e ++ ρ ++ [ODict params; ODict call]).
    { unfold σ2, σ. by rewrite <- !app_assoc. }
    assert (Hline : Py.dump_in σ2 (VRef (List.length (σ ++ [ODict params]))) =
                    Some (call_doc jid tool jargs)).
    { apply (dump_call_request σ2 (List.length σ) _ rid tool args);
        try done.
      - rewrite Hσ2. unfold Py.dump_in in Hid.
        eapply dump_fuel_mono; [|exact Hid]. rewrite !length_app. simpl. lia.
      - specialize (Hdargs []). rewrite app_nil_r in Hdargs.
        replace σ2 with ((heap e ++ ρ) ++ [ODict params; ODict call])
          by (rewrite Hσ2; by rewrite <- !app_assoc).
        eapply dump_fuel_mono; [|exact Hdargs]. rewrite !length_app. simpl. lia. }
    rewrite (send_request_path W b (MkEnv σ2 (trace e) (clock_reads e))
               (List.length (σ ++ [ODict params])) call Hcall); [|done].
    rewrite Hh.
    rewrite (IdFacts.forwarded_reply W _ _ _ call pid (call_doc jid tool jargs)
               rid doc); try done.
    cbn [fst snd heap trace clock_reads].
    eexists _, _, _. split; [reflexivity|]. cbn [trace heap].
    split; [by destruct b|].
    intros Hdoc. pose proof (load_represents doc Hdoc σ2) as Hrep.
    apply (represents_dump_in _ []) in Hrep. by rewrite app_nil_r in Hrep. }
  destruct (Dict.get "arguments" ad) as [va|] eqn:Hva.
  - unfold lift_env at 1, get_or_empty_dict, bind, Py.get, Py.deref, bind, ret.
    cbn [fst snd]. rewrite Ha. cbn [fst snd]. rewrite Hva. cbn [fst snd].
    unfold lift_env at 1, Py.truthy. cbn [fst snd Py.truthy_in].
    rewrite Hsne. cbn [negb].
    unfold lift_env at 1. cbn [fst snd Py.truthy_in]. rewrite Htne. cbn [negb].
    unfold find_server, bind, self, ret. cbn [fst snd backends].
    rewrite Hfound. cbn [fst snd].
    specialize (Hgo [] va). rewrite app_nil_r in Hgo.
    destruct e as [σ tr cr]. cbn [heap trace clock_reads] in *.
    apply Hgo. intros τ. unfold Py.dump_in in Hargs.
    eapply dump_fuel_mono; [|exact Hargs]. rewrite length_app. lia.
  - subst jargs.
    unfold lift_env at 1, get_or_empty_dict, bind, Py.get, Py.deref, bind, ret,
      Py.alloc.
    cbn [fst snd]. rewrite Ha. cbn [fst snd]. rewrite Hva.
    cbn [fst snd heap trace clock_reads].
    unfold lift_env at 1, Py.truthy. cbn [fst snd Py.truthy_in].
    rewrite Hsne. cbn [negb].
    unfold lift_env at 1. cbn [fst snd Py.truthy_in]. rewrite Htne. cbn [negb].
    unfold find_server, bind, self, ret. cbn [fst snd backends].
    rewrite Hfound. cbn [fst snd].
    apply (Hgo [ODict []] (VRef (List.length (heap e)))).
    intros τ. cbn [Py.dump_fuel]. cbn [app].
    by rewrite list_lookup_middle.
Qed.

(** The sample gateway with [x] started. *)
Definition x_running : t :=
  Make Demo.gateway_config [("x", Demo.started_x.1)] true.

Definition call_fields : list (string * json) :=
  [("jsonrpc", JStr "2.0"); ("method", JStr "tools/call"); ("id", JNum 5)].

Definition x_answer : json :=
  JObj [("jsonrpc", JStr "2.0"); ("id", JNum 99); ("result", JObj [])].

Lemma router_forwards_unchanged_witness :
  ∃ g' e',
    _handle_mcp Demo.world (WebRequest "x" (Ok (JObj call_fields)))
      (x_running, Demo.started_x.2) =
      (Ok (WebResponse 200 x_answer), (g', e')) ∧
    trace e' =
      (MCPBackend.name Demo.started_x.1, StdoutReadline 1 30)
        :: (MCPBackend.name Demo.started_x.1, StdinWrite 1 (JObj call_fields))
        :: trace Demo.started_x.2 ∧
    backends g' !! 0%nat =
      Some ("x", MCPBackend.set_last_used
                   (clock Demo.world (clock_reads Demo.started_x.2))
                   Demo.started_x.1).
Proof.
  apply (router_forwards_unchanged Demo.world
           (WebRequest "x" (Ok (JObj call_fields)))
           x_running Demo.started_x.2 0 "x" Demo.started_x.1 1 call_fields
           x_answer);
    first [reflexivity | discriminate | by repeat split].
Defined.

(** The arguments of [gateway_invoke] for the tool [t1] of [x], in the
    store of the running [x]. *)
Definition invoke_items : Dict.t := [("server", VStr "x"); ("tool", VStr "t1")].

Definition invoke_env : Env :=
  Eval vm_compute in
    MkEnv (heap Demo.started_x.2 ++ [ODict invoke_items])
          (trace Demo.started_x.2) (clock_reads Demo.started_x.2).

Lemma invoke_forwards_call_witness :
  ∃ v g' e',
    _call_invoke Demo.world (VRef 5) (VInt 7) (x_running, invoke_env) =
      (Ok v, (g', e')) ∧
    trace e' =
      (MCPBackend.name Demo.started_x.1, StdoutReadline 1 30)
        :: (MCPBackend.name Demo.started_x.1,
            StdinWrite 1 (call_doc (JNum 7) "t1" (JObj [])))
        :: trace invoke_env ∧
    (JsonFacts.distinct_keys x_answer = true →
     Py.dump_in (heap e') v = Some x_answer).
Proof.
  apply (invoke_forwards_call Demo.world x_running invoke_env 5 invoke_items
           (VInt 7) "x" "t1" 0 "x" Demo.started_x.1 1 (JNum 7) (JObj [])
           x_answer);
    first [reflexivity | discriminate | by repeat split].
Defined.

End ForwardFacts.

(** ** Unknown tools at the meta route (C10) *)

Module ToolFacts.

Import Gateway.
Import JsonFacts.

(** *** What a parsed value is, given what it prints as *)

Lemma dump_fuel_str_inv n (σ : list pyobj) v s :
  Py.dump_fuel n σ v = Some (JStr s) → v = VStr s.
Proof.
  destruct v as [| | | |l], n as [|n]; simpl; try congruence.
  destruct (σ !! l) as [[d|vs]|]; [| |done].
  - by destruct (Py.mapM_opt _ d).
  - by destruct (Py.mapM_opt _ vs).
Qed.

Lemma dump_fuel_obj_inv n (σ : list pyobj) v fields :
  Py.dump_fuel n σ v = Some (JObj fields) →
  ∃ l d n',
    v = VRef l ∧ n = S n' ∧ σ !! l = Some (ODict d) ∧
    Py.mapM_opt (λ kv, match Py.dump_fuel n' σ kv.2 with
                       | Some j => Some (kv.1, j)
                       | None => None
                       end) d = Some fields.
Proof.
  destruct v as [| | | |l], n as [|n]; simpl; try congruence.
  destruct (σ !! l) as [[d|vs]|] eqn:Hl; [| |done].
  - destruct (Py.mapM_opt _ d) as [kjs|] eqn:Hd; [|done].
    intros [= <-]. by exists l, d, n.
  - by destruct (Py.mapM_opt _ vs).
Qed.

(** The items of a dict that prints as the object [fields]. *)
Lemma printed_items n (σ : list pyobj) d fields k :
  Py.mapM_opt (λ kv, match Py.dump_fuel n σ kv.2 with
                     | Some j => Some (kv.1, j)
                     | None => None
                     end) d = Some fields →
  match member k fields with
  | None => Dict.get k d = None
  | Some j => ∃ v, Dict.get k d = Some v ∧ Py.dump_fuel n σ v = Some j
  end.
Proof.
  revert fields. induction d as [|[k1 v1] d IH]; intros fields.
  - simpl. by intros [= <-].
  - simpl. destruct (Py.dump_fuel n σ v1) as [j1|] eqn:H1; [|done].
    destruct (Py.mapM_opt _ d) as [rest|] eqn:Hd; [|done].
    intros [= <-]. simpl.
    destruct (String.eqb k k1); [by exists v1|]. by apply IH.
Qed.

(** The tool the request names: [params.get("name", "")]. *)
Definition tool_name (pfields : list (string * json)) : json :=
  default (JStr "") (member "name" pfields).

(** [f"{name}"] *)
Definition shown (W : World) (name : json) : string :=
  match name with
  | JStr s => s
  | _ => py_str W name
  end.

Lemma format_shown W v j e :
  Py.dump_in (heap e) v = Some j → format W v e = (Ok (shown W j), e).
Proof.
  intros Hdump. unfold format, shown.
  destruct v as [| | |s|l];
    try (unfold bind, Py.dump; rewrite Hdump;
         unfold Py.dump_in in Hdump; simpl in Hdump;
         injection Hdump as <-; reflexivity).
  - unfold Py.dump_in in Hdump. simpl in Hdump. by injection Hdump as <-.
  - unfold bind, Py.dump. rewrite Hdump.
    assert (Hj : ∀ s, j ≠ JStr s).
    { intros s ->. by apply dump_fuel_str_inv in Hdump. }
    destruct j; try done. by destruct (Hj s).
Qed.

Lemma name_not_meta v j (σ : list pyobj) n :
  Py.dump_fuel n σ v = Some j →
  (∀ s, s ∈ MetaFacts.meta_tool_names → j ≠ JStr s) →
  pyval_eqb v (VStr "gateway_list_servers") = false ∧
  pyval_eqb v (VStr "gateway_list_tools") = false ∧
  pyval_eqb v (VStr "gateway_search_tools") = false ∧
  pyval_eqb v (VStr "gateway_invoke") = false.
Proof.
  intros Hdump Hnot.
  destruct v as [| | |s|l]; try done.
  assert (j = JStr s) as -> by (destruct n; simpl in Hdump; congruence).
  apply MetaFacts.not_meta_tool. intros Hin. by apply (Hnot s Hin).
Qed.

(** *** The dispatch on the name of the tool *)

(** The reply to a call whose params are the stored dict [dp], or are
    absent ([dp] is then empty). *)
Lemma unknown_tool_reply W g e lb db dp rid jn
    (Hb : heap e !! lb = Some (ODict db))
    (Hparams :
       match Dict.get "params" db with
       | None => dp = []
       | Some v => ∃ lp, v = VRef lp ∧ heap e !! lp = Some (ODict dp)
       end)
    (Hname : Py.dump_fuel (List.length (heap e)) (heap e)
               (default (VStr "") (Dict.get "name" dp)) = Some jn)
    (Hother : ∀ s, s ∈ MetaFacts.meta_tool_names → jn ≠ JStr s) :
  ∃ v τ,
    _meta_tools_call W (VRef lb) rid (g, e) =
      (Ok v, (g, MkEnv (heap e ++ τ) (trace e) (clock_reads e))) ∧
    MetaFacts.is_error_reply (heap e ++ τ) v (-32601)
      ("Unknown tool: " +:+ shown W jn) rid.
Proof.
  destruct (name_not_meta _ _ _ _ Hname Hother) as (H1 & H2 & H3 & H4).
  set (nv := default (VStr "") (Dict.get "name" dp)) in *.
  (* the store after [params] and [arguments] were read *)
  assert (Hread : ∃ ρ,
    (let* params := lift_env (get_or_empty_dict (VRef lb) "params") in
     let* tool_name := lift_env (get_or_empty_str params "name") in
     let* arguments := lift_env (get_or_empty_dict params "arguments") in
     ret tool_name) (g, e) =
    (Ok nv, (g, MkEnv (heap e ++ ρ) (trace e) (clock_reads e)))).
  { unfold bind, lift_env, get_or_empty_dict, get_or_empty_str, Py.get,
      Py.deref, Py.alloc, bind, ret.
    cbn [fst snd]. rewrite Hb. cbn [fst snd].
    destruct (Dict.get "params" db) as [v|].
    - destruct Hparams as (lp & -> & Hp). cbn [fst snd]. rewrite Hp.
      cbn [fst snd]. rewrite Hp. cbn [fst snd]. fold nv.
      destruct (Dict.get "arguments" dp) as [a|]; cbn [fst snd].
      + exists []. rewrite app_nil_r. by destruct e.
      + by exists [ODict []].
    - subst dp. cbn [fst snd heap]. rewrite list_lookup_middle by done.
      cbn [fst snd heap]. rewrite list_lookup_middle by done.
      cbn [fst snd Dict.get default heap].
      exists [ODict []; ODict []]. by rewrite <- app_assoc. }
  destruct Hread as [ρ Hread].
  assert (Hshown :
    format W nv (MkEnv (heap e ++ ρ) (trace e) (clock_reads e)) =
      (Ok (shown W jn), MkEnv (heap e ++ ρ) (trace e) (clock_reads e))).
  { apply format_shown. cbn [heap]. unfold Py.dump_in.
    eapply dump_fuel_mono; [|exact Hname]. rewrite length_app. lia. }
  destruct (ArgumentFacts.error_response_adds (-32601)
              ("Unknown tool: " +:+ shown W jn) rid
              (MkEnv (heap e ++ ρ) (trace e) (clock_reads e)))
    as (v & τ & Hrun & Herr).
  cbn [heap trace clock_reads] in Hrun, Herr.
  exists v, (ρ ++ τ). rewrite app_assoc. split; [|done].
  revert Hread.
  unfold _meta_tools_call, bind.
  destruct (lift_env (get_or_empty_dict (VRef lb) "params") (g, e))
    as [[params|x] s1]; [|done].
  destruct (lift_env (get_or_empty_str params "name") s1)
    as [[tn|x] s2]; [|done].
  destruct (lift_env (get_or_empty_dict params "arguments") s2)
    as [[args|x] s3]; [|done].
  unfold ret. intros [= -> ->].
  rewrite H1, H2, H3, H4.
  unfold lift_env at 1. cbn [fst snd]. rewrite Hshown. cbn [fst snd].
  unfold lift_env. cbn [fst snd]. by rewrite Hrun.
Qed.

(** *** The handler *)

(** A call without a name for the tool, and one whose params are
    [null]. *)
Definition call_null_params : json :=
  JObj [("jsonrpc", JStr "2.0"); ("method", JStr "tools/call"); ("id", JNum 7);
        ("params", JNull)].

Definition null_params_reply : result web_response * (t * Env) :=
  Eval vm_compute in
    _handle_meta_mcp Demo.world (WebRequest "" (Ok call_null_params))
      (Demo.gateway_xy, Demo.empty_env).

(** C10 fails as stated: a [tools/call] whose [params] are [null] names
    none of the four meta-tools, and it is not answered with the error
    [-32601]: the handler raises [AttributeError], leaving the request
    without a JSON-RPC reply. *)
Lemma null_params_not_answered :
  request_json (WebRequest "" (Ok call_null_params)) = Ok call_null_params ∧
  member "params" [("jsonrpc", JStr "2.0"); ("method", JStr "tools/call");
                   ("id", JNum 7); ("params", JNull)] = Some JNull ∧
  _handle_meta_mcp Demo.world (WebRequest "" (Ok call_null_params))
    (Demo.gateway_xy, Demo.empty_env) = null_params_reply ∧
  null_params_reply.1 =
    Raise (AttributeError "object has no attribute 'get'") ∧
  _handle_mcp Demo.world (WebRequest "" (Ok call_null_params))
    (Demo.gateway_xy, Demo.empty_env) = null_params_reply.
Proof. repeat split; vm_compute; reflexivity. Qed.

(** C10, amended: a [tools/call] request at the meta route whose
    [params] are absent or an object, and whose [params.name] (the empty
    string when absent) is none of the four meta-tool names, is answered
    with the status 200 and the error [-32601], "Unknown tool: " followed
    by the name as [str] shows it, with the id of the request ([null]
    when it has none); the registry is left as it was and no transport
    operation is performed. *)
Theorem unknown_tool_rejected W request g e fields pfields
    (Hon : GatewayConfig.enable_meta_mcp (config g) = true)
    (Hbody : request_json request = Ok (JObj fields))
    (Hkeys : distinct_keys (JObj fields) = true)
    (Hmethod : member "method" fields = Some (JStr "tools/call"))
    (Hparams : default (JObj []) (member "params" fields) = JObj pfields)
    (Hother : ∀ s, s ∈ MetaFacts.meta_tool_names →
                   tool_name pfields ≠ JStr s) :
  ∃ e',
    _handle_meta_mcp W request (g, e) =
      (Ok (WebResponse 200
             (IdFacts.error_doc (-32601)
                ("Unknown tool: " +:+ shown W (tool_name pfields))
                (MethodFacts.reply_id fields))),
       (g, e')) ∧
    trace e' = trace e ∧
    (match_name request = "" →
     _handle_mcp W request (g, e) = _handle_meta_mcp W request (g, e)).
Proof.
  destruct (MethodFacts.receive_object fields e Hkeys)
    as (lb & d & σ & Hload & Hlb & _ & _ & Habsent & Hpresent & Hstr & _).
  (* the params, as stored *)
  assert (Hp : ∃ dp,
    match Dict.get "params" d with
    | None => dp = []
    | Some v => ∃ lp, v = VRef lp ∧ σ !! lp = Some (ODict dp)
    end ∧
    Py.dump_fuel (List.length σ) σ
      (default (VStr "") (Dict.get "name" dp)) = Some (tool_name pfields)).
  { destruct (member "params" fields) as [j|] eqn:Hj.
    - simpl in Hparams. subst j.
      destruct (Hpresent "params" _ Hj) as (v & Hv & Hdump).
      specialize (Hdump []) as [Hdump _]. rewrite app_nil_r in Hdump.
      apply dump_fuel_obj_inv in Hdump as (lp & dp & n' & -> & Hn & Hlp & Hitems).
      exists dp. rewrite Hv. split; [by exists lp|].
      pose proof (printed_items _ _ _ _ "name" Hitems) as Hname.
      unfold tool_name.
      destruct (member "name" pfields) as [jn|].
      + destruct Hname as (nv & -> & Hnv). simpl.
        replace σ with (σ ++ []) at 2 by apply app_nil_r.
        eapply dump_fuel_mono; [|exact Hnv]. lia.
      + rewrite Hname. simpl. by destruct (List.length σ).
    - simpl in Hparams. injection Hparams as <-.
      exists []. rewrite (Habsent "params" Hj). split; [done|].
      simpl. by destruct (List.length σ). }
  destruct Hp as (dp & Hp & Hname).
  set (rid := default VNone (Dict.get "id" d)).
  assert (Hrid : ∀ τ, Py.dump_fuel (List.length (σ ++ τ)) (σ ++ τ) rid =
                      Some (MethodFacts.reply_id fields)).
  { intros τ. unfold rid, MethodFacts.reply_id.
    destruct (member "id" fields) as [j|] eqn:Hj.
    - destruct (Hpresent "id" j Hj) as (v & -> & Hv). apply Hv.
    - rewrite (Habsent "id" Hj). by destruct (List.length (σ ++ τ)). }
  destruct (unknown_tool_reply W g (MkEnv σ (trace e) (clock_reads e))
              lb d dp rid (tool_name pfields) Hlb Hp Hname Hother)
    as (v & τ & Hrun & Herr).
  cbn [heap trace clock_reads] in Hrun, Herr.
  assert (Hhandler :
    _handle_meta_mcp W request (g, e) =
      (Ok (WebResponse 200
             (IdFacts.error_doc (-32601)
                ("Unknown tool: " +:+ shown W (tool_name pfields))
                (MethodFacts.reply_id fields))),
       (g, MkEnv (σ ++ τ) (trace e) (clock_reads e)))).
  { unfold _handle_meta_mcp, bind, self. cbn [fst snd]. rewrite Hon.
    cbn [negb]. unfold except_json_decode_error, try_except, bind, of_result.
    rewrite Hbody. unfold ret at 1. unfold lift_env at 1. cbn [fst snd].
    rewrite Hload. unfold ret at 1. cbn [fst snd].
    unfold lift_env at 1 2, get_or_empty_str, Py.get_or_none, Py.get,
      Py.deref, bind, ret. cbn [fst snd heap]. rewrite Hlb. cbn [fst snd heap].
    rewrite Hlb. cbn [fst snd].
    rewrite (Hstr "method" "tools/call" Hmethod).
    change (default (VStr "") (Some (VStr "tools/call")))
      with (VStr "tools/call").
    cbn [pyval_eqb String.eqb Ascii.eqb Bool.eqb andb].
    fold rid. rewrite Hrun. cbn [fst snd].
    unfold json_response, bind, lift_env, Py.dump. cbn [fst snd heap].
    rewrite (MethodFacts.dump_error_reply_id _ v (-32601)
               ("Unknown tool: " +:+ shown W (tool_name pfields)) rid
               (MethodFacts.reply_id fields) Herr (Hrid τ)).
    done. }
  eexists. split; [exact Hhandler|]. split; [done|].
  intros Hname0. unfold _handle_mcp. by rewrite Hname0.
Qed.

(** The request [tools/call] for the tool [frobnicate], with id 7. *)
Definition frobnicate_fields : list (string * json) :=
  [("jsonrpc", JStr "2.0"); ("method", JStr "tools/call"); ("id", JNum 7);
   ("params", JObj [("name", JStr "frobnicate"); ("arguments", JObj [])])].

Lemma unknown_tool_rejected_witness :
  ∃ e',
    _handle_meta_mcp Demo.world (WebRequest "" (Ok (JObj frobnicate_fields)))
      (Demo.gateway_xy, Demo.empty_env) =
      (Ok (WebResponse 200
             (IdFacts.error_doc (-32601) "Unknown tool: frobnicate" (JNum 7))),
       (Demo.gateway_xy, e')) ∧
    trace e' = trace Demo.empty_env.
Proof.
  destruct (unknown_tool_rejected Demo.world
              (WebRequest "" (Ok (JObj frobnicate_fields)))
              Demo.gateway_xy Demo.empty_env frobnicate_fields
              [("name", JStr "frobnicate"); ("arguments", JObj [])])
    as (e' & Hrun & Htrace & _);
    [reflexivity|reflexivity|reflexivity|reflexivity|reflexivity| |].
  - intros s Hs. unfold MetaFacts.meta_tool_names in Hs.
    repeat (apply elem_of_cons in Hs as [->|Hs]; [discriminate|]).
    by apply elem_of_nil in Hs.
  - exists e'. split; [exact Hrun|exact Htrace].
Defined.

End ToolFacts.


(** ** The id of a reply, by the origin of the reply (C5) *)

Module ReplyFacts.

Import MCPBackend.
Import JsonFacts.

(** *** Replies of a stdio adapter *)

(** Where the reply to a request written to the child [pid] comes from:
    the child, the adapter itself for a notification, or the adapter
    itself with an error message. *)
Inductive origin :=
| FromChild (doc : json)
| Notification
| Own (message : string).

Definition stdio_origin (W : World) (b : t) (e : Env) (pid : nat)
    (line : json) (has_id : bool) : origin :=
  match stdin_write W (trace e) pid line with
  | Raise x => Own (exn_msg x)
  | Ok _ =>
      if has_id then
        match stdout_readline W ((name b, StdinWrite pid line) :: trace e)
                pid 30 with
        | RdLine (Ok doc) => FromChild doc
        | RdLine (Raise x) => Own (exn_msg x)
        | RdTimeout | RdEOF => Own "Timeout waiting for response"
        | RdError x => Own (exn_msg x)
        end
      else Notification
  end.

(** An error reply of the adapter adds two objects to the store and
    carries the id of the request, [None] when the request has none. *)
Lemma error_reply_adds code message rl rq b e :
  heap e !! rl = Some (ODict rq) →
  ∃ v τ,
    error_reply code message (VRef rl) (b, e) =
      (Ok v, (b, MkEnv (heap e ++ τ) (trace e) (clock_reads e))) ∧
    MetaFacts.is_error_reply (heap e ++ τ) v code message
      (default VNone (Dict.get "id" rq)).
Proof.
  intros Hrq.
  unfold error_reply, bind, lift_env, Py.alloc, Py.get_or_none, Py.get,
    Py.deref, bind, ret. simpl.
  rewrite (lookup_app_l_Some _ _ _ _ Hrq). simpl.
  eexists _, [_; _]. rewrite <- app_assoc. simpl. split; [reflexivity|].
  pose proof (MetaFacts.error_reply_built (heap e) code message
                (default VNone (Dict.get "id" rq))) as H.
  simpl in H. by rewrite <- app_assoc in H.
Qed.

(** The reply of [_send_stdio_request] to a request that is a stored
    dict, by its origin. *)
Lemma stdio_reply W b e rl rq pid line :
  IdFacts.alive W b e pid →
  heap e !! rl = Some (ODict rq) →
  Py.dump_in (heap e) (VRef rl) = Some line →
  ∃ v s' τ,
    _send_stdio_request W (VRef rl) (b, e) = (Ok v, s') ∧
    s'.1 = b ∧ heap s'.2 = heap e ++ τ ∧
    match stdio_origin W b e pid line (Dict.has "id" rq) with
    | Own message =>
        MetaFacts.is_error_reply (heap s'.2) v (-32000) message
          (default VNone (Dict.get "id" rq))
    | Notification =>
        heap s'.2 !! List.length (heap e) =
          Some (ODict [("jsonrpc", VStr "2.0"); ("result", VNone)]) ∧
        v = VRef (List.length (heap e))
    | FromChild doc =>
        v = (Py.load_in doc (heap e)).1 ∧
        heap s'.2 = (Py.load_in doc (heap e)).2
    end.
Proof.
  intros (Hh & Hp & Ha) Hrq Hdump. unfold stdio_origin.
  unfold _send_stdio_request, bind. rewrite BackendFacts.is_running_eq.
  unfold BackendFacts.running. rewrite Hh, Hp, Ha. unfold ret.
  unfold lift_env, Py.contains, Py.deref, bind, ret. simpl.
  rewrite Hrq. simpl.
  unfold try_except, bind, self, lift_env, Py.dump, write_line, read_line,
    io, of_result, bind, ret, raise. simpl.
  rewrite Hp. simpl. rewrite Hdump. simpl.
  destruct (stdin_write W (trace e) pid line) as [[]|x]; simpl.
  - destruct (Dict.has "id" rq) eqn:Hid; simpl.
    + destruct (stdout_readline W _ pid 30) as [| |[doc|x]|x]; simpl;
        try (match goal with
             | |- context [error_reply ?c ?m (VRef rl) (b, ?e1)] =>
                 destruct (error_reply_adds c m rl rq b e1 Hrq)
                   as (v & τ & Hrun & Herr);
                 rewrite Hrun; simpl;
                 by exists v, (b, MkEnv (heap e ++ τ) (trace e1)
                                         (clock_reads e1)), τ
             end).
      unfold Py.load. cbn [heap trace clock_reads].
      destruct (load_in_extends doc (heap e)) as [new Hnew].
      destruct (Py.load_in doc (heap e)) as [v σ]. cbn [fst snd] in *.
      by eexists _, _, new.
    + unfold Py.alloc. simpl. eexists _, _, [_]. split; [reflexivity|].
      split; [done|]. simpl. split; [done|].
      by rewrite CachedReply.lookup_snoc.
  - match goal with
    | |- context [error_reply ?c ?m (VRef rl) (b, ?e1)] =>
        destruct (error_reply_adds c m rl rq b e1 Hrq)
          as (v & τ & Hrun & Herr);
        rewrite Hrun; simpl;
        by exists v, (b, MkEnv (heap e ++ τ) (trace e1) (clock_reads e1)), τ
    end.
Qed.

(** The reply to a request for a stdio adapter that cannot be
    started. *)
Lemma unavailable_reply W b e rl rq :
  is_http b = false →
  BackendFacts.running W b e = false →
  heap e !! rl = Some (ODict rq) →
  (start W (b, e)).1 = Ok false →
  ∃ v s',
    _send_stdio_request W (VRef rl) (b, e) = (Ok v, s') ∧
    MetaFacts.is_error_reply (heap s'.2) v (-32000) "Backend unavailable"
      (default VNone (Dict.get "id" rq)).
Proof.
  intros Hstdio Hdown Hrq Hstart.
  unfold _send_stdio_request, bind. rewrite BackendFacts.is_running_eq.
  rewrite Hdown. unfold ret.
  pose proof (StoreFacts.start_holds W rl (ODict rq) (b, e) Hrq) as Hkept.
  destruct (start W (b, e)) as [r [b1 e1]]. simpl in *. subst r. simpl.
  destruct (FailureFacts.error_reply_run (-32000) "Backend unavailable"
              rl rq b1 e1 Hkept)
    as (v & σ & Hrun & Herr & _).
  rewrite Hrun. by eexists _, _.
Qed.

(** The reply to a request that an initialized HTTP adapter cannot
    post. *)
Lemma refused_post_reply W b e rl rq url body x :
  _initialized b = true →
  request_url b = Some url →
  heap e !! rl = Some (ODict rq) →
  Py.dump_in (heap e) (VRef rl) = Some body →
  http_post W (trace e) url (request_headers b) body 30 = Raise x →
  ∃ v s',
    _send_http_request W (VRef rl) (b, e) = (Ok v, s') ∧
    MetaFacts.is_error_reply (heap s'.2) v (-32000) (exn_msg x)
      (default VNone (Dict.get "id" rq)).
Proof.
  intros Hinit Hurl Hrq Hdump Hpost.
  unfold _send_http_request, try_except, bind, self, ret. simpl.
  rewrite Hinit. simpl. unfold lift_env, Py.dump. simpl. rewrite Hdump. simpl.
  rewrite Hurl. unfold post, bind, io, of_result, raise. simpl.
  rewrite Hpost. simpl.
  match goal with
  | |- context [error_reply ?c ?m (VRef rl) (b, ?e1)] =>
      destruct (FailureFacts.error_reply_run c m rl rq b e1 Hrq)
        as (v & σ & Hrun & Herr & _);
      rewrite Hrun
  end.
  by eexists _, _.
Qed.

(** *** Replies of the meta facade *)

Definition result_doc (r id : json) : json :=
  JObj [("jsonrpc", JStr "2.0"); ("result", r); ("id", id)].

(** The reply with the result [r], once [r] is in the store. *)
Lemma result_response_dump r rid jr jid e :
  represents (heap e) r jr →
  (∀ τ, Py.dump_fuel (List.length (heap e ++ τ)) (heap e ++ τ) rid
        = Some jid) →
  ∃ v reply,
    Gateway.result_response r rid e =
      (Ok v, MkEnv (heap e ++ [reply]) (trace e) (clock_reads e)) ∧
    Py.dump_in (heap e ++ [reply]) v = Some (result_doc jr jid).
Proof.
  intros Hr Hid. unfold Gateway.result_response, Py.alloc.
  eexists _, _. split; [reflexivity|].
  apply (MethodFacts.dump_result_reply _ _ r rid jr jid).
  - by apply list_lookup_middle.
  - apply Hr. rewrite length_app. lia.
  - apply Hid.
Qed.

Lemma meta_initialize_doc rid jid g e :
  (∀ τ, Py.dump_fuel (List.length (heap e ++ τ)) (heap e ++ τ) rid
        = Some jid) →
  ∃ v τ,
    Gateway._meta_initialize rid (g, e) =
      (Ok v, (g, MkEnv (heap e ++ τ) (trace e) (clock_reads e))) ∧
    Py.dump_in (heap e ++ τ) v = Some (result_doc Gateway.server_info jid).
Proof.
  intros Hid.
  unfold Gateway._meta_initialize, bind, lift_env, Py.load. cbn [fst snd].
  pose proof (load_represents Gateway.server_info eq_refl (heap e)) as Hr.
  destruct (load_in_extends Gateway.server_info (heap e)) as [new Hnew].
  destruct (Py.load_in Gateway.server_info (heap e)) as [r σ1].
  cbn [fst snd] in *. subst σ1.
  destruct (result_response_dump r rid Gateway.server_info jid
              (MkEnv (heap e ++ new) (trace e) (clock_reads e)))
    as (v & reply & Hrun & Hdump).
  { exact Hr. }
  { intros τ. cbn [heap]. rewrite <- app_assoc. apply Hid. }
  cbn [heap trace clock_reads] in Hrun, Hdump.
  rewrite Hrun. cbn [fst snd].
  exists v, (new ++ [reply]). by rewrite app_assoc.
Qed.

Lemma meta_tools_list_doc rid jid g e :
  (∀ τ, Py.dump_fuel (List.length (heap e ++ τ)) (heap e ++ τ) rid
        = Some jid) →
  ∃ v τ,
    Gateway._meta_tools_list rid (g, e) =
      (Ok v, (g, MkEnv (heap e ++ τ) (trace e) (clock_reads e))) ∧
    Py.dump_in (heap e ++ τ) v =
      Some (result_doc (JObj [("tools", Gateway.meta_tools)]) jid).
Proof.
  intros Hid.
  unfold Gateway._meta_tools_list, bind, lift_env, Py.load, Py.alloc.
  cbn [fst snd].
  pose proof (load_represents Gateway.meta_tools eq_refl (heap e)) as Hr.
  destruct (load_in_extends Gateway.meta_tools (heap e)) as [new Hnew].
  destruct (Py.load_in Gateway.meta_tools (heap e)) as [tools σ1].
  cbn [fst snd heap trace clock_reads] in *. subst σ1.
  assert (Hr' : represents ((heap e ++ new) ++ [ODict [("tools", tools)]])
                  (VRef (List.length (heap e ++ new)))
                  (JObj [("tools", Gateway.meta_tools)])).
  { intros m τ Hm. rewrite length_app in Hm. simpl in Hm.
    destruct m as [|m]; [lia|]. cbn [Py.dump_fuel].
    rewrite <- app_assoc. cbn [app]. rewrite list_lookup_middle by done.
    cbn [Py.mapM_opt fst snd]. rewrite Hr by lia. done. }
  destruct (result_response_dump (VRef (List.length (heap e ++ new))) rid
              (JObj [("tools", Gateway.meta_tools)]) jid
              (MkEnv ((heap e ++ new) ++ [ODict [("tools", tools)]])
                     (trace e) (clock_reads e)))
    as (v & reply & Hrun & Hdump).
  { exact Hr'. }
  { intros τ. cbn [heap]. rewrite <- !app_assoc. apply Hid. }
  cbn [heap trace clock_reads] in Hrun, Hdump.
  rewrite Hrun. cbn [fst snd].
  exists v, (new ++ [ODict [("tools", tools)]; reply]).
  replace (heap e ++ new ++ [ODict [("tools", tools)]; reply])
    with (((heap e ++ new) ++ [ODict [("tools", tools)]]) ++ [reply])
    by (by rewrite <- !app_assoc).
  done.
Qed.

(** The reply of the meta route to [initialize] and to [tools/list]. *)
Lemma meta_served W request g e fields m
    (Hon : GatewayConfig.enable_meta_mcp (Gateway.config g) = true)
    (Hbody : request_json request = Ok (JObj fields))
    (Hkeys : distinct_keys (JObj fields) = true)
    (Hmethod : member "method" fields = Some (JStr m)) :
  (m = "initialize" →
   ∃ e',
     Gateway._handle_meta_mcp W request (g, e) =
       (Ok (WebResponse 200
              (result_doc Gateway.server_info (MethodFacts.reply_id fields))),
        (g, e')) ∧
     trace e' = trace e) ∧
  (m = "tools/list" →
   ∃ e',
     Gateway._handle_meta_mcp W request (g, e) =
       (Ok (WebResponse 200
              (result_doc (JObj [("tools", Gateway.meta_tools)])
                 (MethodFacts.reply_id fields))),
        (g, e')) ∧
     trace e' = trace e).
Proof.
  destruct (MethodFacts.receive_object fields e Hkeys)
    as (lb & d & σ & Hload & Hlb & _ & _ & Habsent & Hpresent & Hstr & _).
  set (rid := default VNone (Dict.get "id" d)).
  assert (Hrid : ∀ τ, Py.dump_fuel (List.length (σ ++ τ)) (σ ++ τ) rid =
                      Some (MethodFacts.reply_id fields)).
  { intros τ. unfold rid, MethodFacts.reply_id.
    destruct (member "id" fields) as [j|] eqn:Hj.
    - destruct (Hpresent "id" j Hj) as (v & -> & Hv). apply Hv.
    - rewrite (Habsent "id" Hj). by destruct (List.length (σ ++ τ)). }
  assert (Hhead :
    Gateway._handle_meta_mcp W request (g, e) =
      (let* method := ret (VStr m) in
       let* request_id := ret rid in
       if pyval_eqb method (VStr "initialize") then
         let* r := Gateway._meta_initialize request_id in
         Gateway.json_response r 200
       else if pyval_eqb method (VStr "tools/list") then
         let* r := Gateway._meta_tools_list request_id in
         Gateway.json_response r 200
       else if pyval_eqb method (VStr "tools/call") then
         let* r := Gateway._meta_tools_call W (VRef lb) request_id in
         Gateway.json_response r 200
       else
         if Str.startswith "notifications/" m then
           let* r := lift_env (Gateway.result_response VNone request_id) in
           Gateway.json_response r 200
         else
           let* r := lift_env (Gateway.error_response (-32601)
                                 ("Unknown method: " +:+ m) request_id) in
           Gateway.json_response r 200)
        (g, MkEnv σ (trace e) (clock_reads e))).
  { unfold Gateway._handle_meta_mcp, bind, Gateway.self. cbn [fst snd].
    rewrite Hon. cbn [negb].
    unfold Gateway.except_json_decode_error, try_except, bind, of_result.
    rewrite Hbody. unfold ret at 1. unfold lift_env at 1. cbn [fst snd].
    rewrite Hload. unfold ret at 1. cbn [fst snd].
    unfold lift_env at 1 2, Gateway.get_or_empty_str, Py.get_or_none, Py.get,
      Py.deref, bind, ret. cbn [fst snd heap]. rewrite Hlb.
    cbn [fst snd heap]. rewrite Hlb. cbn [fst snd].
    rewrite (Hstr "method" m Hmethod). fold rid. done. }
  split; intros ->; rewrite Hhead; unfold bind at 1 2, ret at 1 2;
    cbn [fst snd pyval_eqb String.eqb Ascii.eqb Bool.eqb andb].
  - destruct (meta_initialize_doc rid (MethodFacts.reply_id fields) g
                (MkEnv σ (trace e) (clock_reads e)) Hrid)
      as (v & τ & Hrun & Hdump).
    unfold bind. rewrite Hrun. cbn [heap trace clock_reads] in *.
    unfold Gateway.json_response, bind, lift_env, Py.dump. cbn [fst snd heap].
    rewrite Hdump. by eexists.
  - destruct (meta_tools_list_doc rid (MethodFacts.reply_id fields) g
                (MkEnv σ (trace e) (clock_reads e)) Hrid)
      as (v & τ & Hrun & Hdump).
    unfold bind. rewrite Hrun. cbn [heap trace clock_reads] in *.
    unfold Gateway.json_response, bind, lift_env, Py.dump. cbn [fst snd heap].
    rewrite Hdump. by eexists.
Qed.

(** *** Replies of the router *)

(** Whether the request has an ["id"]. *)
Definition has_id (fields : list (string * json)) : bool :=
  match member "id" fields with Some _ => true | None => false end.

(** The reply the adapter makes up for a notification. *)
Definition notification_doc : json :=
  JObj [("jsonrpc", JStr "2.0"); ("result", JNull)].

(** The router hands the parsed body of a request for a running
    backend to the adapter, and answers with what the adapter
    returns. *)
Lemma routed_running W request c bs run e i n b fields lb σ :
  match_name request ≠ "" →
  Gateway.index_of (match_name request) bs 0 = Some i →
  bs !! i = Some (n, b) →
  BackendFacts.running W b e = true →
  request_json request = Ok (JObj fields) →
  Py.load (JObj fields) e =
    (Ok (VRef lb), MkEnv σ (trace e) (clock_reads e)) →
  ∀ r,
    (let* response :=
       Gateway.with_backend i (send_request W (VRef lb)) in
     Gateway.json_response response 200)
      (Gateway.Make c bs run, MkEnv σ (trace e) (clock_reads e)) = r →
    (∀ x, r.1 ≠ Raise x) →
    Gateway._handle_mcp W request (Gateway.Make c bs run, e) = r.
Proof.
  intros Hname Hfound Hb Hrunning Hbody Hload r Hr Hok.
  unfold Gateway._handle_mcp.
  destruct (String.eqb_spec (match_name request) ""); [done|].
  unfold bind at 1, Gateway.self. cbn [fst snd Gateway.backends].
  rewrite Hfound. unfold bind at 1.
  rewrite (ReadFacts.with_backend_read _ c run bs i n b e (Ok true) Hb
             (StartupFacts.start_running_noop W b e Hrunning)).
  cbn [negb].
  unfold Gateway.except_json_decode_error, try_except, bind at 1 2,
    of_result.
  rewrite Hbody. unfold ret at 1. unfold lift_env at 1. cbn [fst snd].
  rewrite Hload. cbn [fst snd]. rewrite Hr.
  destruct r as [[w|x] s']; [done|]. by destruct (Hok x).
Qed.

(** The response of the router to a request, other than [tools/list],
    for a running stdio backend, by the origin of the reply. *)
Lemma routed_stdio_reply W request g e i n b pid fields
    (Hname : match_name request ≠ "")
    (Hfound : Gateway.index_of (match_name request) (Gateway.backends g) 0
              = Some i)
    (Hb : Gateway.backends g !! i = Some (n, b))
    (Halive : IdFacts.alive W b e pid)
    (Hbody : request_json request = Ok (JObj fields))
    (Hkeys : distinct_keys (JObj fields) = true)
    (Hmethod : member "method" fields ≠ Some (JStr "tools/list")) :
  let answered doc :=
    ∃ s', Gateway._handle_mcp W request (g, e) =
            (Ok (WebResponse 200 doc), s') in
  match stdio_origin W b e pid (JObj fields) (has_id fields) with
  | Own message =>
      answered (IdFacts.error_doc (-32000) message
                  (MethodFacts.reply_id fields))
  | Notification => answered notification_doc
  | FromChild doc => distinct_keys doc = true → answered doc
  end.
Proof.
  intros answered. subst answered.
  destruct g as [c bs run]. cbn [Gateway.backends] in *.
  assert (Hrunning : BackendFacts.running W b e = true).
  { destruct Halive as (Hh & Hp & Ha). unfold BackendFacts.running.
    by rewrite Hh, Hp. }
  destruct (MethodFacts.receive_object fields e Hkeys)
    as (lb & d & σ & Hload & Hlb & _ & _ & Habsent & Hpresent & Hstr & Hdump).
  pose proof (routed_running W request c bs run e i n b fields lb σ
                Hname Hfound Hb Hrunning Hbody Hload) as Hhandler.
  assert (Hd_method : Dict.get "method" d ≠ Some (VStr "tools/list")).
  { destruct (member "method" fields) as [j|] eqn:Hj.
    - destruct (Hpresent "method" j Hj) as (v & Hv & Hrep).
      rewrite Hv. intros [= ->]. destruct (Hrep []) as [_ Hrep'].
      unfold Py.dump_in in Hrep'. simpl in Hrep'. congruence.
    - by rewrite (Habsent "method" Hj). }
  assert (Hd_id : Dict.has "id" d = has_id fields).
  { unfold Dict.has, has_id. destruct (member "id" fields) as [j|] eqn:Hj.
    - destruct (Hpresent "id" j Hj) as (v & -> & _). done.
    - by rewrite (Habsent "id" Hj). }
  set (b1 := set_last_used (clock W (clock_reads e)) b).
  set (e1 := MkEnv σ (trace e) (S (clock_reads e))).
  assert (Halive1 : IdFacts.alive W b1 e1 pid).
  { destruct Halive as (Hh & Hp & Ha). by destruct b. }
  pose proof (Hdump []) as Hline. rewrite app_nil_r in Hline.
  destruct (stdio_reply W b1 e1 lb d pid (JObj fields) Halive1 Hlb Hline)
    as (v & s' & τ & Hsend & Hb1 & Hheap & Horigin).
  assert (Hsame : stdio_origin W b1 e1 pid (JObj fields) (Dict.has "id" d) =
                  stdio_origin W b e pid (JObj fields) (has_id fields)).
  { rewrite Hd_id. by destruct b. }
  rewrite Hsame in Horigin.
  assert (Hrun : ∀ doc,
    Py.dump_in (heap s'.2) v = Some doc →
    ∃ s'', Gateway._handle_mcp W request (Gateway.Make c bs run, e) =
             (Ok (WebResponse 200 doc), s'')).
  { intros doc Hdoc. destruct s' as [b' e']. cbn [fst snd] in *.
    eexists. apply Hhandler; [|by intros x].
    unfold bind at 1. unfold Gateway.with_backend at 1.
    cbn [fst snd Gateway.backends]. rewrite Hb.
    rewrite (ForwardFacts.send_request_path W b
               (MkEnv σ (trace e) (clock_reads e)) lb d Hlb Hd_method).
    destruct Halive as (Hh & Hp & Ha). rewrite Hh.
    cbn [heap trace clock_reads]. fold b1. fold e1. rewrite Hsend.
    unfold Gateway.json_response, bind, lift_env, Py.dump. cbn [fst snd].
    rewrite Hdoc. reflexivity. }
  destruct (stdio_origin W b e pid (JObj fields) (has_id fields))
    as [doc| |message].
  - intros Hdoc. apply Hrun. destruct Horigin as [-> ->].
    pose proof (load_represents doc Hdoc (heap e1)) as Hrep.
    apply (represents_dump_in _ []) in Hrep. rewrite app_nil_r in Hrep.
    exact Hrep.
  - apply Hrun. destruct Horigin as [Hl ->].
    unfold Py.dump_in. cbn [Py.dump_fuel]. rewrite Hl.
    cbn [Py.mapM_opt fst snd]. rewrite SearchFacts.dump_fuel_str.
    by destruct (List.length (heap s'.2)).
  - apply Hrun.
    apply (MethodFacts.dump_error_reply_id _ _ _ _ _ _ Horigin).
    rewrite Hheap. cbn [heap]. unfold MethodFacts.reply_id.
    destruct (member "id" fields) as [j|] eqn:Hj.
    + destruct (Hpresent "id" j Hj) as (v' & -> & Hv). apply Hv.
    + rewrite (Habsent "id" Hj). by destruct (List.length (heap e1 ++ τ)).
Qed.

(** [fields[k] = j]: an existing key keeps its position. *)
Fixpoint set_member (k : string) (j : json) (fields : list (string * json))
  : list (string * json) :=
  match fields with
  | [] => [(k, j)]
  | (k', j') :: fields' =>
      if String.eqb k k' then (k, j) :: fields'
      else (k', j') :: set_member k j fields'
  end.

(** The items of a dict, as [json.dumps] writes them. *)
Definition dump_items (f : pyval → option json) (d : Dict.t)
  : option (list (string * json)) :=
  Py.mapM_opt (λ kv, match f kv.2 with
                     | Some j => Some (kv.1, j)
                     | None => None
                     end) d.

Lemma dump_items_set f k v j d kjs :
  dump_items f d = Some kjs →
  f v = Some j →
  dump_items f (Dict.set k v d) = Some (set_member k j kjs).
Proof.
  intros Hd Hv. revert kjs Hd.
  induction d as [|[k' v'] d IH]; intros kjs Hd.
  - injection Hd as <-. unfold dump_items. simpl. by rewrite Hv.
  - unfold dump_items in *. cbn [Py.mapM_opt Dict.set fst snd] in *.
    destruct (f v') as [j'|] eqn:Hv'; [|done].
    destruct (Py.mapM_opt _ d) as [kjs'|] eqn:Hd'; [|done].
    injection Hd as <-. cbn [set_member].
    destruct (String.eqb k k').
    + cbn [Py.mapM_opt fst snd]. by rewrite Hv, Hd'.
    + cbn [Py.mapM_opt fst snd]. by rewrite Hv', (IH kjs' eq_refl).
Qed.

Lemma dump_items_mono n m (σ τ : list pyobj) d kjs :
  (n <= m)%nat →
  dump_items (Py.dump_fuel n σ) d = Some kjs →
  dump_items (Py.dump_fuel m (σ ++ τ)) d = Some kjs.
Proof.
  intros Hm. revert kjs. unfold dump_items.
  induction d as [|[k v] d IH]; intros kjs Hd; [done|].
  cbn [Py.mapM_opt fst snd] in *.
  destruct (Py.dump_fuel n σ v) as [j|] eqn:Hv; [|done].
  rewrite (dump_fuel_mono n m σ τ v j Hm Hv).
  destruct (Py.mapM_opt _ d) as [kjs'|] eqn:Hd'; [|done].
  by rewrite (IH kjs' eq_refl).
Qed.

(** The response of the router to [tools/list] for a running backend
    with cached tools: the cached document, with the id of the
    request. *)
Lemma routed_cached_reply W request g e i n b fields cl d cached
    (Hname : match_name request ≠ "")
    (Hfound : Gateway.index_of (match_name request) (Gateway.backends g) 0
              = Some i)
    (Hb : Gateway.backends g !! i = Some (n, b))
    (Hrunning : BackendFacts.running W b e = true)
    (Hbody : request_json request = Ok (JObj fields))
    (Hkeys : distinct_keys (JObj fields) = true)
    (Hmethod : member "method" fields = Some (JStr "tools/list"))
    (Hcache : _tools_cache b = VRef cl)
    (Hd : heap e !! cl = Some (ODict d))
    (Hne : d ≠ [])
    (Hdoc : Py.dump_in (heap e) (VRef cl) = Some (JObj cached)) :
  ∃ s',
    Gateway._handle_mcp W request (g, e) =
      (Ok (WebResponse 200
             (JObj (set_member "id" (MethodFacts.reply_id fields) cached))),
       s') ∧
    trace s'.2 = trace e.
Proof.
  destruct g as [c bs run]. cbn [Gateway.backends] in *.
  destruct (MethodFacts.receive_object fields e Hkeys)
    as (lb & rq & σ & Hload & Hlb & _ & Hkept & Habsent & Hpresent & Hstr & _).
  pose proof (routed_running W request c bs run e i n b fields lb σ
                Hname Hfound Hb Hrunning Hbody Hload) as Hhandler.
  assert (Hext : ∃ ρ, σ = heap e ++ ρ).
  { unfold Py.load in Hload.
    destruct (load_in_extends (JObj fields) (heap e)) as [ρ Hρ].
    destruct (Py.load_in (JObj fields) (heap e)) as [v σ1].
    injection Hload as _ <-. by exists ρ. }
  destruct Hext as [ρ Hσ].
  set (rid := default VNone (Dict.get "id" rq)).
  assert (Hrid : Py.dump_fuel (List.length (σ ++ [ODict (CachedReply.reply_items rq d)]))
                   (σ ++ [ODict (CachedReply.reply_items rq d)]) rid =
                 Some (MethodFacts.reply_id fields)).
  { unfold rid, MethodFacts.reply_id.
    destruct (member "id" fields) as [j|] eqn:Hj.
    - destruct (Hpresent "id" j Hj) as (v & -> & Hv). apply Hv.
    - rewrite (Habsent "id" Hj). by destruct (List.length _). }
  assert (Hitems : dump_items (Py.dump_fuel (List.length (heap e)) (heap e)) d
                   = Some cached).
  { unfold Py.dump_in in Hdoc. cbn [Py.dump_fuel] in Hdoc.
    rewrite Hd in Hdoc. unfold dump_items.
    destruct (Py.mapM_opt _ d) as [kjs|]; [|done]. by injection Hdoc as ->. }
  eexists. split.
  - apply Hhandler; [|by intros x].
    unfold bind at 1. unfold Gateway.with_backend at 1.
    cbn [fst snd Gateway.backends]. rewrite Hb.
    rewrite (CachedReply.send_request_from_cache W b
               (MkEnv σ (trace e) (clock_reads e)) lb rq cl d Hlb
               (Hstr "method" "tools/list" Hmethod) Hcache
               (Hkept cl (ODict d) Hd) Hne).
    cbn [fst snd heap trace clock_reads].
    unfold Gateway.json_response, bind, lift_env, Py.dump. cbn [fst snd heap].
    unfold Py.dump_in. cbn [Py.dump_fuel]. rewrite CachedReply.lookup_snoc.
    fold (dump_items
            (Py.dump_fuel
               (List.length (σ ++ [ODict (CachedReply.reply_items rq d)]))
               (σ ++ [ODict (CachedReply.reply_items rq d)]))
            (CachedReply.reply_items rq d)).
    unfold CachedReply.reply_items at 3. fold rid.
    rewrite (dump_items_set _ "id" rid (MethodFacts.reply_id fields) d cached).
    + reflexivity.
    + rewrite Hσ, <- app_assoc.
      apply (dump_items_mono (List.length (heap e))); [|done].
      rewrite !length_app. lia.
    + exact Hrid.
  - done.
Qed.

(** *** The claim *)

(** The sample gateway with the adapter [x] started, and a
    [tools/list] request with the id 9 for [x]. *)
Definition x_served : Gateway.t :=
  Gateway.Make Demo.gateway_config
    [("x", Demo.started_x.1); ("y", SearchFacts.fresh_y)] true.

Definition list_request : web_request :=
  WebRequest "x" (Ok (Demo.request "tools/list" (JNum 9))).

(** An [initialize] request to the meta route, with a string as id. *)
Definition hello_fields : list (string * json) :=
  [("jsonrpc", JStr "2.0"); ("method", JStr "initialize");
   ("id", JStr "first")].



End ReplyFacts.


(** ** The order of a search (C7) *)

Module OrderFacts.

Import Gateway.

#[local] Arguments Str.take : simpl never.
#[local] Arguments Str.lower : simpl never.
#[local] Arguments Str.contains : simpl never.
#[local] Arguments Dict.get : simpl never.

(** *** The tools of a backend, as the search reads them *)

(** The cached tool [v] is a dict with the name [nd.1] and the
    description [nd.2], each the empty string when absent. *)
Definition tool_at (σ : list pyobj) (v : pyval) (nd : string * string) : Prop :=
  ∃ l d,
    v = VRef l ∧ σ !! l = Some (ODict d) ∧
    default (VStr "") (Dict.get "name" d) = VStr nd.1 ∧
    default (VStr "") (Dict.get "description" d) = VStr nd.2.

Lemma tool_at_extends (σ ρ : list pyobj) v nd :
  tool_at σ v nd → tool_at (σ ++ ρ) v nd.
Proof.
  intros (l & d & -> & Hl & Hn & Hd). exists l, d.
  split; [done|]. split; [by apply lookup_app_l_Some|done].
Qed.

(** [query in tool_name.lower() or query in tool_desc.lower()] *)
Definition hit (q : string) (nd : string * string) : bool :=
  Str.contains q (Str.lower nd.1) || Str.contains q (Str.lower nd.2).

(** The match recorded for the tool [nd] of the backend [server]. *)
Definition found_obj (server : string) (nd : string * string) : pyobj :=
  SearchFacts.match_of server nd.1 nd.2.

(** One tool is scanned. *)
Lemma scan_step server q lim v tools m e nd :
  tool_at (heap e) v nd →
  scan_tools server q lim (v :: tools) m e =
    let m' := if hit q nd then m ++ [VRef (List.length (heap e))] else m in
    let e' := if hit q nd
              then MkEnv (heap e ++ [found_obj server nd]) (trace e)
                         (clock_reads e)
              else e in
    match (reached m' lim e').1 with
    | Ok true => (Ok m', e')
    | Ok false => scan_tools server q lim tools m' e'
    | Raise x => (Raise x, e')
    end.
Proof.
  intros (l & d & -> & Hl & Hn & Hd). destruct nd as [tn td]. simpl in *.
  unfold hit. cbn [fst snd].
  unfold bind, get_or_empty_str, Py.get, Py.deref, bind, ret. simpl.
  rewrite Hl. simpl. rewrite Hn, Hl. simpl. rewrite Hd. simpl.
  unfold found_obj, SearchFacts.match_of. cbn [fst snd].
  destruct (Str.contains q (Str.lower tn)) eqn:Hq; simpl.
  - rewrite (SearchFacts.reached_pure _ lim _). simpl.
    by destruct (reached _ lim (MkEnv [] [] 0)).1 as [[|]|x].
  - destruct (Str.contains q (Str.lower td)) eqn:Hq'; simpl.
    + rewrite (SearchFacts.reached_pure _ lim _). simpl.
      by destruct (reached _ lim (MkEnv [] [] 0)).1 as [[|]|x].
    + rewrite (SearchFacts.reached_pure m lim e). simpl.
      by destruct (reached m lim (MkEnv [] [] 0)).1 as [[|]|x].
Qed.

(** The locations of [k] objects added to the store [σ]. *)
Definition added (σ : list pyobj) (k : nat) : list pyval :=
  map VRef (seq (List.length σ) k).

Lemma added_cons (σ : list pyobj) o k :
  VRef (List.length σ) :: added (σ ++ [o]) k = added σ (S k).
Proof.
  unfold added. rewrite length_app. simpl.
  by replace (List.length σ + 1)%nat with (S (List.length σ)) by lia.
Qed.

(** The scan of a backend's tools records the hits, in the order of the
    tools, until the list is full. *)
Lemma scan_take server q n tools entries : ∀ m e,
  Forall2 (tool_at (heap e)) tools entries →
  Z.of_nat (List.length m) < n →
  let found := take (Z.to_nat n - List.length m)
                    (List.filter (hit q) entries) in
  scan_tools server q (VInt n) tools m e =
    (Ok (m ++ added (heap e) (List.length found)),
     MkEnv (heap e ++ map (found_obj server) found) (trace e)
           (clock_reads e)).
Proof.
  revert entries.
  induction tools as [|v tools IH]; intros entries m e HF Hm found.
  { apply Forall2_nil_inv_l in HF. subst entries found.
    cbn [List.filter]. rewrite take_nil.
    cbn [scan_tools List.length map]. unfold ret, added.
    simpl. rewrite !app_nil_r. by destruct e. }
  apply Forall2_cons_inv_l in HF as (nd & rest & Hv & HF & ->).
  subst found. rewrite (scan_step server q (VInt n) v tools m e nd Hv).
  cbn [List.filter]. cbv zeta.
  destruct (hit q nd) eqn:Hhit.
  - rewrite LimitFacts.reached_int. cbn [fst].
    rewrite length_app. cbn [List.length].
    destruct (Z.leb_spec n (Z.of_nat (List.length m + 1))) as [Hfull|Hshort].
    + assert (Hk : (Z.to_nat n - List.length m = 1)%nat) by lia.
      rewrite Hk. cbn [take]. rewrite take_0. cbn [List.length map].
      unfold added. simpl. done.
    + assert (Hk : (Z.to_nat n - List.length m =
                    S (Z.to_nat n - List.length (m ++ [VRef (List.length (heap e))])))%nat).
      { rewrite length_app. simpl. lia. }
      rewrite Hk. cbn [take List.length map].
      rewrite (IH rest).
      * cbn [heap trace clock_reads].
        rewrite <- !app_assoc. cbn [app]. by rewrite added_cons.
      * cbn [heap]. eapply Forall2_impl; [exact HF|].
        intros v' nd'. apply tool_at_extends.
      * rewrite length_app. simpl. lia.
  - rewrite LimitFacts.reached_int. cbn [fst].
    destruct (Z.leb_spec n (Z.of_nat (List.length m))) as [Hfull|Hshort];
      [lia|].
    by apply IH.
Qed.


(** *** The backends of the registry, as the search visits them *)

Lemma added_app (σ : list pyobj) (objs : list pyobj) k :
  added σ (List.length objs + k) = added σ (List.length objs) ++ added (σ ++ objs) k.
Proof.
  unfold added. rewrite seq_app, map_app, length_app. done.
Qed.

(** Reading the cached tools gives the same list in a larger store. *)
Lemma cached_tools_extends b e e' ρ tools :
  heap e' = heap e ++ ρ →
  (MCPBackend.get_cached_tools (b, e)).1 = Ok tools →
  (MCPBackend.get_cached_tools (b, e')).1 = Ok tools.
Proof.
  intros Hheap.
  unfold MCPBackend.get_cached_tools, bind, MCPBackend.self, lift_env,
    Py.truthy, Py.get, Py.deref, bind, ret, raise.
  cbn. rewrite Hheap.
  destruct (MCPBackend._tools_cache b) as [|t|z|s|l]; cbn; try done.
  - by destruct t.
  - by destruct (negb (z =? 0)).
  - by destruct (negb (String.eqb s "")).
  - destruct (heap e !! l) as [o|] eqn:Hl.
    2:{ cbn. rewrite Hl. done. }
    rewrite (lookup_app_l_Some _ ρ _ _ Hl).
    destruct o as [d|vs].
    2:{ destruct vs; cbn; [done|]. rewrite Hl. done. }
    destruct d as [|kv d]; [done|]. cbn.
    rewrite Hl, Hheap, (lookup_app_l_Some _ ρ _ _ Hl). cbn.
    destruct (Dict.get "result" (kv :: d)) as [[| | | |l2]|];
      cbn; rewrite ?Hheap; try done.
    destruct (heap e !! l2) as [o2|] eqn:Hl2; [|done].
    rewrite (lookup_app_l_Some _ ρ _ _ Hl2). cbn.
    destruct o2 as [d2|vs2]; [|done].
    destruct (Dict.get "tools" d2) as [[| | | |l3]|];
      cbn; rewrite ?Hheap; try done.
    destruct (heap e !! l3) as [o3|] eqn:Hl3; [|done].
    rewrite (lookup_app_l_Some _ ρ _ _ Hl3). cbn.
    by destruct o3.
Qed.

(** The backend [nb] is running, and its cached tools are the dicts
    [ne.2]; [ne.1] is its name. *)
Definition ready (W : World) (e : Env) (nb : string * MCPBackend.t)
    (ne : string * list (string * string)) : Prop :=
  ne.1 = nb.1 ∧
  BackendFacts.running W nb.2 e = true ∧
  ∃ tools,
    (MCPBackend.get_cached_tools (nb.2, e)).1 = Ok tools ∧
    Forall2 (tool_at (heap e)) tools ne.2.

Lemma ready_extends W e e' ρ nb ne :
  heap e' = heap e ++ ρ → trace e' = trace e →
  ready W e nb ne → ready W e' nb ne.
Proof.
  intros Hheap Htrace (Hname & Hrun & tools & Htools & HF).
  split; [done|]. split.
  - unfold BackendFacts.running in *. by rewrite Htrace.
  - exists tools. split; [by apply (cached_tools_extends _ e _ ρ)|].
    rewrite Hheap. eapply Forall2_impl; [exact HF|].
    intros v nd. apply tool_at_extends.
Qed.

(** The hits of the query in the tools of the backends, backend after
    backend in the order of the registry, each with the name of its
    backend. *)
Definition hits (q : string) (ents : list (string * list (string * string)))
  : list (string * (string * string)) :=
  flat_map (λ ne, map (λ nd, (ne.1, nd)) (List.filter (hit q) ne.2)) ents.

Definition hit_obj (h : string * (string * string)) : pyobj :=
  found_obj h.1 h.2.

Definition hit_doc (h : string * (string * string)) : json :=
  SearchFacts.match_doc h.1 h.2.1 h.2.2.

(** The search records the hits, in the order of the registry and of
    the tools, until the list is full; it leaves the registry as it
    is. *)
Lemma search_take W q n c run post : ∀ suf ents pre m e,
  Forall2 (ready W e) suf ents →
  Z.of_nat (List.length m) < n →
  let found := take (Z.to_nat n - List.length m) (hits q ents) in
  search_backends W q (VInt n)
    (imap (λ i nb, ((List.length pre + i)%nat, nb.1)) suf) m
    (Make c (pre ++ suf ++ post) run, e) =
    (Ok (m ++ added (heap e) (List.length found)),
     (Make c (pre ++ suf ++ post) run,
      MkEnv (heap e ++ map hit_obj found) (trace e) (clock_reads e))).
Proof.
  induction suf as [|[name b] suf IH]; intros ents pre m e HF Hm found.
  { apply Forall2_nil_inv_l in HF. subst ents found.
    cbn [hits flat_map]. rewrite take_nil.
    cbn [imap search_backends List.length map]. unfold ret, added.
    simpl. rewrite !app_nil_r. by destruct e. }
  apply Forall2_cons_inv_l in HF as ([name' entries] & rest & Hready & HF & ->).
  destruct Hready as (Hname & Hrun & tools & Htools & Hat).
  simpl in Hname, Hrun, Htools, Hat. subst name'.
  cbn [imap search_backends app]. unfold bind. rewrite Nat.add_0_r.
  rewrite (ReadFacts.with_backend_read _ c run _ _ name b e (Ok true)).
  2:{ by apply list_lookup_middle. }
  2:{ by apply StartupFacts.start_running_noop. }
  rewrite (ReadFacts.with_backend_read _ c run _ _ name b e (Ok tools)).
  2:{ by apply list_lookup_middle. }
  2:{ rewrite ReadFacts.get_cached_tools_read. by rewrite Htools. }
  unfold lift_env at 1. cbn [fst snd].
  rewrite (scan_take name q n tools entries m e Hat Hm). cbn [fst snd].
  set (k := (Z.to_nat n - List.length m)%nat) in *.
  set (hb := List.filter (hit q) entries).
  set (fb := take k hb).
  unfold lift_env at 1. cbn [fst snd]. rewrite LimitFacts.reached_int.
  cbn [fst snd].
  assert (Hfound : found =
            map (λ nd, (name, nd)) fb ++ take (k - List.length hb) (hits q rest)).
  { subst found. cbn [hits flat_map fst snd]. fold hb. fold (hits q rest).
    rewrite firstn_app, length_map. by rewrite firstn_map. }
  assert (Hobjs : map (found_obj name) fb =
                  map hit_obj (map (λ nd, (name, nd)) fb)).
  { rewrite map_map. done. }
  assert (Hfb : List.length fb = Nat.min k (List.length hb))
    by apply length_firstn.
  rewrite length_app. unfold added at 1. rewrite length_map, length_seq.
  destruct (Z.leb_spec n (Z.of_nat (List.length m + List.length fb)))
    as [Hfull|Hshort].
  - assert (Hk : (k - List.length hb = 0)%nat) by lia.
    rewrite Hfound, Hk, take_0, app_nil_r, length_map. unfold ret.
    by rewrite Hobjs.
  - assert (Hall : fb = hb).
    { unfold fb. apply firstn_all2. lia. }
    rewrite (imap_ext _
               (λ i nb, ((List.length (pre ++ [(name, b)]) + i)%nat, nb.1))).
    2:{ intros i x _. simpl. rewrite length_app. simpl. f_equal. lia. }
    replace (pre ++ (name, b) :: suf ++ post)
      with ((pre ++ [(name, b)]) ++ suf ++ post)
      by (by rewrite <- app_assoc).
    rewrite (IH rest).
    + cbn [heap trace clock_reads].
      assert (Hlen : List.length (m ++ added (heap e) (List.length fb)) =
                     (List.length m + List.length fb)%nat).
      { rewrite length_app. unfold added. by rewrite length_map, length_seq. }
      rewrite Hlen.
      replace (Z.to_nat n - (List.length m + List.length fb))%nat
        with (k - List.length hb)%nat by (rewrite Hall; lia).
      rewrite Hfound, length_app, length_map, map_app, <- Hobjs.
      pose proof (added_app (heap e) (map (found_obj name) fb)
                    (List.length (take (k - List.length hb) (hits q rest))))
        as Hadd.
      rewrite length_map in Hadd. rewrite Hadd.
      by rewrite <- !app_assoc.
    + eapply Forall2_impl; [exact HF|]. intros nb ne.
      by apply (ready_extends W e _ (map (found_obj name) fb)).
    + rewrite length_app. unfold added. rewrite length_map, length_seq. lia.
Qed.

(** The matches that the search recorded are rendered, in their
    order. *)
Lemma dump_found (found : list (string * (string * string))) : ∀ σ e,
  heap e = σ ++ map hit_obj found →
  dump_all (added σ (List.length found)) e = (Ok (map hit_doc found), e).
Proof.
  induction found as [|h found IH]; intros σ e Hheap; [done|].
  cbn [List.length]. rewrite <- (added_cons σ (hit_obj h)).
  cbn [dump_all map]. unfold bind, Py.dump.
  rewrite (SearchFacts.dump_match (heap e) (List.length σ) h.1 h.2.1 h.2.2).
  2:{ rewrite Hheap. by apply list_lookup_middle. }
  rewrite (IH (σ ++ [hit_obj h]) e).
  2:{ rewrite Hheap, <- app_assoc. done. }
  done.
Qed.

#[local] Opaque text_response.

(** The reply of a search over backends that are running: the hits of
    the backends in the order of the registry, cut at the limit.  The
    backends after those that fill the list need not be running, and
    are left as they are. *)
Lemma search_in_order W c run pre post ents e la ad rid q n :
  heap e !! la = Some (ODict ad) →
  default (VStr "") (Dict.get "query" ad) = VStr q →
  Str.lower q ≠ "" →
  default (VInt 10) (Dict.get "limit" ad) = VInt n →
  1 <= n →
  Forall2 (ready W e) pre ents →
  post = [] ∨ n <= Z.of_nat (List.length (hits (Str.lower q) ents)) →
  let g := Make c (pre ++ post) run in
  let found := take (Z.to_nat n) (hits (Str.lower q) ents) in
  ∃ v e',
    _call_search_tools W (VRef la) rid (g, e) = (Ok v, (g, e')) ∧
    trace e' = trace e ∧
    SearchFacts.response_text (heap e') v =
      Some (json_dumps_indent W
              (JObj [("query", JStr (Str.lower q));
                     ("matches", JArr (map hit_doc found));
                     ("total", JNum (Z.of_nat (List.length found)))])) ∧
    SearchFacts.item (heap e') v "id" = Some rid.
Proof.
  intros Ha Hq Hne Hlim Hpos HF Hpost g found.
  assert (Hsearch :
    search_backends W (Str.lower q) (VInt n) (items g) [] (g, e) =
      (Ok (added (heap e) (List.length found)),
       (g, MkEnv (heap e ++ map hit_obj found) (trace e) (clock_reads e)))).
  { pose proof (search_take W (Str.lower q) n c run post pre ents [] [] e HF)
      as Htake.
    cbn [List.length app] in Htake. rewrite Nat.sub_0_r in Htake.
    specialize (Htake ltac:(lia)). cbv zeta in Htake. fold found in Htake.
    unfold items, g. cbn [backends]. rewrite imap_app.
    destruct Hpost as [->|Hfull].
    - cbn [imap]. rewrite !app_nil_r in *. exact Htake.
    - apply SearchFacts.search_backends_stops; [|exact Htake|].
      + intros Hnil. destruct pre as [|p pre]; [|done].
        apply Forall2_nil_inv_l in HF. subst ents. simpl in Hfull. lia.
      + rewrite LimitFacts.reached_int. cbn [fst]. f_equal.
        apply Z.leb_le. unfold added.
        rewrite length_map, length_seq. unfold found.
        rewrite length_take. lia. }
  unfold _call_search_tools, bind.
  unfold lift_env at 1 2 3, get_or_empty_str, lower, Py.get, Py.deref,
    bind, ret.
  cbn [fst snd]. rewrite Ha. cbn [fst snd]. rewrite Hq. cbn [fst snd].
  rewrite Ha. cbn [fst snd]. rewrite Hlim.
  destruct (String.eqb_spec (Str.lower q) ""); [done|].
  unfold self. cbn [fst snd]. rewrite Hsearch.
  unfold lift_env at 1. cbn [fst snd].
  rewrite (dump_found found (heap e)); [|done].
  unfold lift_env. cbn [fst snd].
  match goal with
  | |- context [text_response ?text ?id ?env] =>
      destruct (SearchFacts.text_response_run text id env)
        as (v & σ & Hrun & Htext & Hid);
      rewrite Hrun
  end.
  exists v. eexists. split; [reflexivity|]. cbn [heap trace].
  unfold added in Htext. rewrite length_map, length_seq in Htext.
  done.
Qed.

(** *** The claim *)

(** The adapters [x] and [y] of the sample world, both started, in a
    store that holds the arguments of a search for ["t"] with the
    limit 3. *)
Definition x_ready : MCPBackend.t * Env :=
  Eval vm_compute in
    (MCPBackend.start Demo.world
       (SearchFacts.fresh_x, SearchFacts.search_env 3)).2.

Definition y_ready : MCPBackend.t * Env :=
  Eval vm_compute in
    (MCPBackend.start Demo.world (SearchFacts.fresh_y, x_ready.2)).2.

Definition xy_tools : list (string * list (string * string)) :=
  [("x", [("t1", "first tool"); ("t2", "second tool")]);
   ("y", [("t3", "third tool"); ("t4", "fourth tool")])].



End OrderFacts.
